(** * Style fingerprinting: [analyze_style.py] and [analyze_project.py]

    A shallow embedding of the two scripts of the code-style-imitator skill
    and the properties of its naming classifier, syntax-tree walker,
    formatting scanner and project-level merge.

    Conventions of the embedding.
    - Python [str] is [string].  The embedding is exact for ASCII text:
      only the ASCII letters are cased and only the ASCII white space is
      stripped; a character above 127 is an uncased, non-blank character.
    - Python [int] lengths and counters are [nat].
    - Python [float] is an exact rational ([Q]); [round(x, n)] rounds to the
      nearest multiple of [10^-n], ties to the even multiple.  Every rounded
      weight is kept as [k # 10^n], never reduced.
    - A Python [dict] is an association list in insertion order.
    - An exception that the caller catches is [None]. *)

From Stdlib Require Import List String Ascii Bool Arith ZArith QArith Qabs
  Lia Permutation Sorted.
Import ListNotations.

Open Scope string_scope.
Open Scope nat_scope.

(** ** Python strings *)

Module PyStr.

Definition code (c : ascii) : nat := nat_of_ascii c.

(** [c.isupper()] and [c.islower()] for one character. *)
Definition char_isupper (c : ascii) : bool :=
  (65 <=? code c) && (code c <=? 90).

Definition char_islower (c : ascii) : bool :=
  (97 <=? code c) && (code c <=? 122).

(** The characters removed by [str.strip()]: tab, newline, vertical tab,
    form feed, carriage return, the four separators 0x1c..0x1f and space. *)
Definition char_isspace (c : ascii) : bool :=
  ((9 <=? code c) && (code c <=? 13))
  || ((28 <=? code c) && (code c <=? 31))
  || (code c =? 32).

Fixpoint existsb (p : ascii -> bool) (s : string) : bool :=
  match s with
  | EmptyString => false
  | String c r => p c || existsb p r
  end.

(** [s.isupper()]: no lowercase character and at least one cased one. *)
Definition isupper (s : string) : bool :=
  negb (existsb char_islower s) && existsb char_isupper s.

(** [s.islower()]: no uppercase character and at least one cased one. *)
Definition islower (s : string) : bool :=
  negb (existsb char_isupper s) && existsb char_islower s.

(** [c in s] for a one-character needle. *)
Definition contains (c : ascii) (s : string) : bool :=
  existsb (Ascii.eqb c) s.

(** [s.startswith(c)] for a one-character prefix. *)
Definition startswith (c : ascii) (s : string) : bool :=
  match s with
  | EmptyString => false
  | String c' _ => Ascii.eqb c' c
  end.

(** [s[0].isupper()], [s[0].islower()] on a non-empty string. *)
Definition head_isupper (s : string) : bool :=
  match s with
  | EmptyString => false
  | String c _ => char_isupper c
  end.

Definition head_islower (s : string) : bool :=
  match s with
  | EmptyString => false
  | String c _ => char_islower c
  end.

(** [s[1:]] *)
Definition tail (s : string) : string :=
  match s with
  | EmptyString => EmptyString
  | String _ r => r
  end.

(** [s.lstrip()] *)
Fixpoint lstrip (s : string) : string :=
  match s with
  | EmptyString => EmptyString
  | String c r => if char_isspace c then lstrip r else s
  end.

(** [bool(s.strip())]: stripping leaves something exactly when some
    character is not white space. *)
Definition strip_nonempty (s : string) : bool :=
  existsb (fun c => negb (char_isspace c)) s.

(** [s.split(sep)] for a one-character separator: never empty, a
    trailing separator gives a last empty piece. *)
Fixpoint split (sep : ascii) (s : string) : list string :=
  match s with
  | EmptyString => [EmptyString]
  | String c r =>
      if Ascii.eqb c sep then EmptyString :: split sep r
      else match split sep r with
           | [] => [String c EmptyString]
           | piece :: pieces => String c piece :: pieces
           end
  end.

(** [s.endswith(c)] for a one-character suffix. *)
Fixpoint endswith (c : ascii) (s : string) : bool :=
  match s with
  | EmptyString => false
  | String c' EmptyString => Ascii.eqb c' c
  | String _ r => endswith c r
  end.

(** [s.endswith(suffix)] *)
Definition endswith_str (suffix s : string) : bool :=
  let n := String.length s in
  let m := String.length suffix in
  (m <=? n) && String.eqb (substring (n - m) m s) suffix.

Definition char_lower (c : ascii) : ascii :=
  if char_isupper c then ascii_of_nat (code c + 32) else c.

(** [s.lower()] *)
Fixpoint lower (s : string) : string :=
  match s with
  | EmptyString => EmptyString
  | String c r => String (char_lower c) (lower r)
  end.

(** [s.rfind(c)], with [None] for Python's [-1]. *)
Fixpoint rfind (c : ascii) (s : string) : option nat :=
  match s with
  | EmptyString => None
  | String c' r =>
      match rfind c r with
      | Some i => Some (S i)
      | None => if Ascii.eqb c' c then Some 0 else None
      end
  end.

(** The number of non-overlapping matches of the regular expression
    [q[^q]*q], as [len(re.findall(...))] counts them: scanning left to
    right, a quote opens a span and the next quote closes it. *)
Fixpoint count_spans (q : ascii) (opened : bool) (s : string) : nat :=
  match s with
  | EmptyString => 0
  | String c r =>
      if Ascii.eqb c q
      then if opened then S (count_spans q false r)
           else count_spans q true r
      else count_spans q opened r
  end.

End PyStr.

(** ** Python numbers *)

Module PyNum.

(** The integer nearest to [n / d], ties to the even one. *)
Definition round_half_even (n : Z) (d : positive) : Z :=
  let q := (n / Zpos d)%Z in
  let r := (n mod Zpos d)%Z in
  if (2 * r <? Zpos d)%Z then q
  else if (Zpos d <? 2 * r)%Z then (q + 1)%Z
  else if Z.even q then q else (q + 1)%Z.

(** [round(x, ndigits)] *)
Definition round (x : Q) (ndigits : nat) : Q :=
  let scale := Pos.of_nat (10 ^ ndigits) in
  Qmake (round_half_even (Qnum x * Zpos scale) (Qden x)) scale.

(** [a / b] on two integers, [b] positive where the code divides. *)
Definition truediv (a b : nat) : Q :=
  Qmake (Z.of_nat a) (Pos.of_nat b).

(** [x / n] for a float and a length. *)
Definition div_len (x : Q) (n : nat) : Q :=
  (x / inject_Z (Z.of_nat n))%Q.

(** [sum(values)]: the accumulator starts at [0] and adds left to right. *)
Definition sum (values : list Q) : Q :=
  fold_left Qplus values 0%Q.

Definition sum_nat (values : list nat) : nat :=
  fold_left Nat.add values 0.

(** [max(values)], [min(values)] on a non-empty list. *)
Definition max_nat (values : list nat) : nat :=
  match values with
  | [] => 0
  | v :: r => fold_left Nat.max r v
  end.

Definition min_nat (values : list nat) : nat :=
  match values with
  | [] => 0
  | v :: r => fold_left Nat.min r v
  end.

(** [math.gcd] applied to the unpacked arguments *)
Definition gcd (args : list nat) : nat :=
  fold_left Nat.gcd args 0.

End PyNum.

(** ** Python dictionaries, in insertion order *)

Module PyDict.

Section Dict.
Context {K V : Type}.
Variable key_eqb : K -> K -> bool.

Definition dict := list (K * V).

(** [d.get(k)] *)
Fixpoint get (k : K) (d : dict) : option V :=
  match d with
  | [] => None
  | (k', v) :: r => if key_eqb k k' then Some v else get k r
  end.

(** [d[k] = v]: an existing key keeps its place, a new one goes last. *)
Fixpoint set (k : K) (v : V) (d : dict) : dict :=
  match d with
  | [] => [(k, v)]
  | (k', v') :: r =>
      if key_eqb k k' then (k', v) :: r else (k', v') :: set k v r
  end.

Definition keys (d : dict) : list K := map fst d.
Definition values (d : dict) : list V := map snd d.
End Dict.

Arguments dict : clear implicits.

(** [max(d, key=d.get)] on a dictionary of counters: the first key, in
    insertion order, whose count is the largest. *)
Fixpoint max_key {K : Type} (best : K) (best_count : nat)
    (d : dict K nat) : K :=
  match d with
  | [] => best
  | (k, n) :: r =>
      if best_count <? n then max_key k n r else max_key best best_count r
  end.

End PyDict.


(** ** The syntax tree of [ast.parse]

    Only the statement skeleton matters to the two walkers: the node kinds
    they test with [isinstance], the fields they read, and the statements
    every other node contains.  [AsyncFunctionDef] is not a subclass of
    [FunctionDef], and an annotated assignment ([x: int = 0], [AnnAssign])
    or an augmented one ([x += 1], [AugAssign]) is not an [Assign].
    [OtherStmt] stands for any node that is none of these kinds ([If],
    [For], [With], [Try] and its handlers, [Return], ...) with the
    statements below it. *)

Module Ast.

Inductive constant : Type :=
| ConstStr (s : string)
| ConstOther.

Inductive expr : Type :=
| Name (id : string)
| Constant (value : constant)
| OtherExpr.

Record arg : Type := mk_arg {
  arg_name : string;
  annotation : option expr
}.

Record arguments : Type := mk_arguments {
  posonlyargs : list arg;
  args : list arg;
  vararg : option arg;
  kwonlyargs : list arg;
  kwarg : option arg
}.

#[warnings="-register-all"]
Inductive stmt : Type :=
| FunctionDef (name : string) (a : arguments) (body : list stmt)
    (returns : option expr)
| AsyncFunctionDef (name : string) (a : arguments) (body : list stmt)
    (returns : option expr)
| ClassDef (name : string) (body : list stmt)
| Assign (targets : list expr) (value : expr)
| Expr (value : expr)
| OtherStmt (children : list stmt)
| AnnAssign (target : expr) (annotation : expr) (value : option expr)
| AugAssign (target : expr) (value : expr).

(** The root node, [ast.Module]. *)
Record module : Type := mk_module { mod_body : list stmt }.

(** The statements directly below a node, in field order. *)
Definition iter_child_nodes (node : stmt) : list stmt :=
  match node with
  | FunctionDef _ _ body _ => body
  | AsyncFunctionDef _ _ body _ => body
  | ClassDef _ body => body
  | Assign _ _ => []
  | Expr _ => []
  | OtherStmt children => children
  | AnnAssign _ _ _ => []
  | AugAssign _ _ => []
  end.

Fixpoint size (node : stmt) : nat :=
  match node with
  | FunctionDef _ _ body _ => S (list_sum (map size body))
  | AsyncFunctionDef _ _ body _ => S (list_sum (map size body))
  | ClassDef _ body => S (list_sum (map size body))
  | Assign _ _ => 1
  | Expr _ => 1
  | OtherStmt children => S (list_sum (map size children))
  | AnnAssign _ _ _ => 1
  | AugAssign _ _ => 1
  end.

Definition total_size (nodes : list stmt) : nat := list_sum (map size nodes).

(** [ast.walk]: a queue, the first node is taken and its children are put
    at the back.  The root [Module] is none of the tested kinds, so the walk
    starts with its body in the queue; [fuel] bounds the number of nodes
    taken. *)
Fixpoint walk_queue (fuel : nat) (todo : list stmt) : list stmt :=
  match fuel, todo with
  | S fuel', node :: rest =>
      node :: walk_queue fuel' (rest ++ iter_child_nodes node)
  | _, _ => []
  end.

Definition walk (tree : module) : list stmt :=
  walk_queue (total_size (mod_body tree)) (mod_body tree).

(** Every statement of a tree, parents before children (depth first): the
    nodes a tree has, independently of how [walk] visits them. *)
Fixpoint subnodes (node : stmt) : list stmt :=
  match node with
  | FunctionDef _ _ body _ => node :: flat_map subnodes body
  | AsyncFunctionDef _ _ body _ => node :: flat_map subnodes body
  | ClassDef _ body => node :: flat_map subnodes body
  | Assign _ _ => [node]
  | Expr _ => [node]
  | OtherStmt children => node :: flat_map subnodes children
  | AnnAssign _ _ _ => [node]
  | AugAssign _ _ => [node]
  end.

Definition nodes_of (tree : module) : list stmt :=
  flat_map subnodes (mod_body tree).

End Ast.

(** ** [analyze_style.py] *)

Module AnalyzeStyle.

Import Ast.

Definition sdict (V : Type) : Type := PyDict.dict string V.

Record NamingPatterns : Type := mk_NamingPatterns {
  variables : sdict Q;
  functions : sdict Q;
  classes : sdict Q;
  constants : sdict Q;
  private_vars : sdict Q
}.

(** [NamingPatterns()] *)
Definition NamingPatterns_default : NamingPatterns :=
  mk_NamingPatterns [] [] [] [] [].

Record FormattingPatterns : Type := mk_FormattingPatterns {
  indentation_type : string;
  indentation_size : nat;
  line_length_mean : nat;
  line_length_max : nat;
  quote_style : string;
  trailing_newline : bool
}.

(** [FormattingPatterns()] *)
Definition FormattingPatterns_default : FormattingPatterns :=
  mk_FormattingPatterns "unknown" 0 0 0 "unknown" true.

Record FunctionLength : Type := mk_FunctionLength {
  length_mean : Q;
  length_max : nat;
  length_min : nat
}.

Record Usage : Type := mk_Usage {
  usage_count : nat;
  usage_rate : Q
}.

(** The dictionary [analyze_patterns_python] returns when the file parses. *)
Record Patterns : Type := mk_Patterns {
  function_count : nat;
  class_count : nat;
  function_length : FunctionLength;
  type_hint_usage : Usage;
  docstring_usage : Usage
}.

(** [patterns] is [None] for the empty dictionary. *)
Record StyleReport : Type := mk_StyleReport {
  file_path : string;
  language : string;
  naming : NamingPatterns;
  formatting : FormattingPatterns;
  patterns : option Patterns;
  examples : sdict string
}.

Definition detect_naming_style (name : string) : string :=
  if String.eqb name EmptyString then "unknown"
  else if PyStr.isupper name && PyStr.contains "_" name
  then "UPPER_SNAKE_CASE"
  else if PyStr.islower name && PyStr.contains "_" name
  then "snake_case"
  else if PyStr.head_isupper name && negb (PyStr.contains "_" name)
  then "PascalCase"
  else if PyStr.head_islower name && negb (PyStr.contains "_" name)
          && PyStr.existsb PyStr.char_isupper name
  then "camelCase"
  else if PyStr.startswith "_" name then "_private"
  else "other".

(** The five lists of [analyze_naming_python]. *)
Record NamingStyles : Type := mk_NamingStyles {
  var_styles : list string;
  func_styles : list string;
  class_styles : list string;
  const_styles : list string;
  private_styles : list string
}.

Definition no_styles : NamingStyles := mk_NamingStyles [] [] [] [] [].

Definition append_var (s : string) (st : NamingStyles) : NamingStyles :=
  mk_NamingStyles (var_styles st ++ [s]) (func_styles st) (class_styles st)
    (const_styles st) (private_styles st).

Definition append_func (s : string) (st : NamingStyles) : NamingStyles :=
  mk_NamingStyles (var_styles st) (func_styles st ++ [s]) (class_styles st)
    (const_styles st) (private_styles st).

Definition append_class (s : string) (st : NamingStyles) : NamingStyles :=
  mk_NamingStyles (var_styles st) (func_styles st) (class_styles st ++ [s])
    (const_styles st) (private_styles st).

Definition append_const (s : string) (st : NamingStyles) : NamingStyles :=
  mk_NamingStyles (var_styles st) (func_styles st) (class_styles st)
    (const_styles st ++ [s]) (private_styles st).

Definition append_private (s : string) (st : NamingStyles) : NamingStyles :=
  mk_NamingStyles (var_styles st) (func_styles st) (class_styles st)
    (const_styles st) (private_styles st ++ [s]).

(** One target of an assignment. *)
Definition visit_target (st : NamingStyles) (target : expr) : NamingStyles :=
  match target with
  | Name id =>
      let style := detect_naming_style id in
      let st1 :=
        if PyStr.isupper id then append_const style st
        else append_var style st in
      if PyStr.startswith "_" id
      then append_private (detect_naming_style (PyStr.tail id)) st1
      else st1
  | _ => st
  end.

(** The body of the loop over [ast.walk(tree)]. *)
Definition visit_naming (st : NamingStyles) (node : stmt) : NamingStyles :=
  match node with
  | FunctionDef name a _ _ =>
      let st1 := append_func (detect_naming_style name) st in
      let st2 :=
        if PyStr.startswith "_" name
        then append_private (detect_naming_style (PyStr.tail name)) st1
        else st1 in
      fold_left
        (fun acc p => append_var (detect_naming_style (arg_name p)) acc)
        (args a) st2
  | ClassDef name _ => append_class (detect_naming_style name) st
  | Assign targets _ => fold_left visit_target targets st
  | _ => st
  end.

Definition collect_styles (tree : module) : NamingStyles :=
  fold_left visit_naming (walk tree) no_styles.

(** Stable sort by decreasing count: [sorted(..., key=lambda x: -x[1])]. *)
Fixpoint insert_by_count (x : string * nat) (l : list (string * nat))
  : list (string * nat) :=
  match l with
  | [] => [x]
  | y :: r => if snd x <? snd y then y :: insert_by_count x r else x :: l
  end.

Fixpoint sorted_by_count (l : list (string * nat)) : list (string * nat) :=
  match l with
  | [] => []
  | x :: r => insert_by_count x (sorted_by_count r)
  end.

(** [{s: styles.count(s) for s in set(styles)}].  Python leaves the
    iteration order of a set open; here each style stands where it occurs
    last. *)
Definition style_counts (styles : list string) : list (string * nat) :=
  map (fun s => (s, count_occ string_dec styles s)) (nodup string_dec styles).

Definition calc_distribution (styles : list string) : sdict Q :=
  match styles with
  | [] => []
  | _ =>
      let total := List.length styles in
      map (fun sc => (fst sc, PyNum.round (PyNum.truediv (snd sc) total) 2))
        (sorted_by_count (style_counts styles))
  end.

Definition distributions (st : NamingStyles) : NamingPatterns :=
  mk_NamingPatterns
    (calc_distribution (var_styles st))
    (calc_distribution (func_styles st))
    (calc_distribution (class_styles st))
    (calc_distribution (const_styles st))
    (calc_distribution (private_styles st)).

(** *** The formatting scanner *)

Definition tab : ascii := "009"%char.
Definition newline : ascii := "010"%char.
Definition squote : ascii := "039"%char.
Definition dquote : ascii := "034"%char.

(** What the loop over the lines accumulates. *)
Record IndentScan : Type := mk_IndentScan {
  indentations : list nat;
  spaces_count : nat;
  tabs_count : nat
}.

Definition scan_line (acc : IndentScan) (line : string) : IndentScan :=
  if negb (PyStr.strip_nonempty line) then acc
  else
    let stripped := PyStr.lstrip line in
    let indent := String.length line - String.length stripped in
    if 0 <? indent then
      mk_IndentScan
        (indentations acc ++ [indent])
        (if PyStr.startswith " " line then S (spaces_count acc)
         else spaces_count acc)
        (if PyStr.startswith " " line then tabs_count acc
         else if PyStr.startswith tab line then S (tabs_count acc)
         else tabs_count acc)
    else acc.

Definition scan_lines (lines : list string) : IndentScan :=
  fold_left scan_line lines (mk_IndentScan [] 0 0).

Definition indent_type_of (sc : IndentScan) : string :=
  if (0 <? spaces_count sc) && (tabs_count sc =? 0) then "spaces"
  else if (0 <? tabs_count sc) && (spaces_count sc =? 0) then "tabs"
  else if (0 <? spaces_count sc) && (0 <? tabs_count sc) then "mixed"
  else "unknown".

(** [set(indentations)]; the order does not matter to [math.gcd]. *)
Definition distinct (l : list nat) : list nat := nodup Nat.eq_dec l.

Definition indent_size_of (indents : list nat) : nat :=
  match indents with
  | [] => 0
  | first :: _ =>
      if 1 <? List.length (distinct indents)
      then PyNum.gcd (distinct indents)
      else first
  end.

Definition quote_style_of (single_quotes double_quotes : nat) : string :=
  if (0 <? single_quotes) && (double_quotes =? 0) then "single"
  else if (0 <? double_quotes) && (single_quotes =? 0) then "double"
  else if (0 <? single_quotes) && (0 <? double_quotes) then "mixed"
  else "unknown".

(** [int(sum(l) / len(l))] on lengths: the quotient rounded down. *)
Definition int_mean (l : list nat) : nat :=
  match l with
  | [] => 0
  | _ => PyNum.sum_nat l / List.length l
  end.

Definition analyze_formatting (content : string) : FormattingPatterns :=
  let lines := PyStr.split newline content in
  let sc := scan_lines lines in
  let line_lengths :=
    map String.length (filter PyStr.strip_nonempty lines) in
  let single_quotes := PyStr.count_spans squote false content in
  let double_quotes := PyStr.count_spans dquote false content in
  mk_FormattingPatterns
    (indent_type_of sc)
    (indent_size_of (indentations sc))
    (int_mean line_lengths)
    (PyNum.max_nat line_lengths)
    (quote_style_of single_quotes double_quotes)
    (PyStr.endswith newline content).

(** *** The structural walker *)

(** What the loop of [analyze_patterns_python] accumulates. *)
Record PatternScan : Type := mk_PatternScan {
  func_lengths : list nat;
  seen_classes : nat;
  seen_functions : nat;
  seen_type_hints : nat;
  seen_docstrings : nat
}.

Definition is_some {A : Type} (o : option A) : bool :=
  match o with Some _ => true | None => false end.

(** [node.returns or any(arg.annotation for arg in node.args.args)] *)
Definition has_type_hint (a : arguments) (returns : option expr) : bool :=
  is_some returns || existsb (fun p => is_some (annotation p)) (args a).

(** The first statement is an expression statement holding a string. *)
Definition has_docstring (body : list stmt) : bool :=
  match body with
  | Expr (Constant (ConstStr _)) :: _ => true
  | _ => false
  end.

Definition visit_patterns (acc : PatternScan) (node : stmt) : PatternScan :=
  match node with
  | FunctionDef _ a body returns =>
      mk_PatternScan
        (func_lengths acc ++ [List.length body])
        (seen_classes acc)
        (S (seen_functions acc))
        (if has_type_hint a returns then S (seen_type_hints acc)
         else seen_type_hints acc)
        (if has_docstring body then S (seen_docstrings acc)
         else seen_docstrings acc)
  | ClassDef _ _ =>
      mk_PatternScan (func_lengths acc) (S (seen_classes acc))
        (seen_functions acc) (seen_type_hints acc) (seen_docstrings acc)
  | _ => acc
  end.

Definition scan_patterns (tree : module) : PatternScan :=
  fold_left visit_patterns (walk tree) (mk_PatternScan [] 0 0 0 0).

Definition usage_of (count total : nat) : Usage :=
  mk_Usage count
    (if total =? 0 then 0%Q else PyNum.round (PyNum.truediv count total) 2).

Definition patterns_of (sc : PatternScan) : Patterns :=
  mk_Patterns
    (seen_functions sc)
    (seen_classes sc)
    (mk_FunctionLength
       (match func_lengths sc with
        | [] => 0%Q
        | _ =>
            PyNum.round
              (PyNum.truediv (PyNum.sum_nat (func_lengths sc))
                 (List.length (func_lengths sc))) 1
        end)
       (PyNum.max_nat (func_lengths sc))
       (PyNum.min_nat (func_lengths sc)))
    (usage_of (seen_type_hints sc) (seen_functions sc))
    (usage_of (seen_docstrings sc) (seen_functions sc)).

(** *** Language detection *)

(** A [pathlib.Path], as the tuple of its parts. *)
Definition Path : Type := list string.

Definition path_name (p : Path) : string := last p EmptyString.

(** [Path.suffix]: the name from its last dot on, when that dot is neither
    the first nor the last character. *)
Definition path_suffix (p : Path) : string :=
  let name := path_name p in
  match PyStr.rfind "." name with
  | Some i =>
      if (0 <? i) && (i <? String.length name - 1)
      then substring i (String.length name - i) name
      else EmptyString
  | None => EmptyString
  end.

Definition path_str (p : Path) : string := String.concat "/" p.

Definition extensions_table : sdict string :=
  [ (".py", "python"); (".js", "javascript"); (".ts", "typescript");
    (".cpp", "cpp"); (".cc", "cpp"); (".cxx", "cpp"); (".c", "c");
    (".h", "cpp"); (".hpp", "cpp"); (".java", "java"); (".go", "go");
    (".rs", "rust") ].

Definition detect_language (file_path : Path) : string :=
  match PyDict.get String.eqb (PyStr.lower (path_suffix file_path))
          extensions_table with
  | Some lang => lang
  | None => "unknown"
  end.

(** *** One file *)

(** What [ast.parse] does with a source text.  The parser is Python's own;
    the analysis is stated for any parser. *)
Inductive parse_outcome : Type :=
| Parsed (tree : module)
| RaisesSyntaxError
| RaisesOther.

(** A file on disk: where it is and, when it can be read and decoded as
    UTF-8, its text. *)
Record File : Type := mk_File {
  path : Path;
  text : option string
}.

Section Parser.

Variable parse : string -> parse_outcome.

(** Only [SyntaxError] is caught; any other exception leaves the function
    ([None]). *)
Definition analyze_naming_python (content : string) : option NamingPatterns :=
  match parse content with
  | Parsed tree => Some (distributions (collect_styles tree))
  | RaisesSyntaxError => Some NamingPatterns_default
  | RaisesOther => None
  end.

Definition analyze_patterns_python (content : string)
  : option (option Patterns) :=
  match parse content with
  | Parsed tree => Some (Some (patterns_of (scan_patterns tree)))
  | RaisesSyntaxError => Some None
  | RaisesOther => None
  end.

Definition analyze_file (f : File) : option StyleReport :=
  match text f with
  | None => None
  | Some content =>
      let language := detect_language (path f) in
      let formatting := analyze_formatting content in
      if String.eqb language "python" then
        match analyze_naming_python content with
        | None => None
        | Some naming =>
            match analyze_patterns_python content with
            | None => None
            | Some patterns =>
                Some (mk_StyleReport (path_str (path f)) language naming
                        formatting patterns [])
            end
        end
      else
        Some (mk_StyleReport (path_str (path f)) language
                NamingPatterns_default formatting None [])
  end.

End Parser.

End AnalyzeStyle.

(** ** [analyze_project.py] *)

Module AnalyzeProject.

Import AnalyzeStyle.

Definition default_extensions : list string :=
  [".py"; ".js"; ".ts"; ".cpp"; ".cc"; ".c"; ".h"; ".hpp"; ".java"; ".go"].

Definition exclude_dirs : list string :=
  ["node_modules"; "vendor"; "third_party"; "build"; "dist"; "__pycache__";
   ".git"; ".venv"; "venv"; ".tox"; ".pytest_cache"].

(** The project tree as [Path.rglob] shows it: for a pattern, the entries
    that [project_path.rglob(pattern)] yields, in the order of the
    traversal.  The pattern language is pathlib's and the tree is the
    machine's; the analysis is stated for any. *)
Definition Listing : Type := string -> list File.

Definition excluded (f : File) : bool :=
  existsb (fun part => existsb (String.eqb part) exclude_dirs) (path f).

Definition collect_files (fs : Listing) (extensions : option (list string))
  : list File :=
  let extensions :=
    match extensions with
    | None => default_extensions
    | Some l => l
    end in
  let files := flat_map (fun ext => fs ("*" ++ ext)) extensions in
  filter (fun f => negb (excluded f)) files.

(** *** The naming merge *)

(** [result[key].append(value)], the key created on first use. *)
Definition append_value (result : sdict (list Q)) (kv : string * Q)
  : sdict (list Q) :=
  match PyDict.get String.eqb (fst kv) result with
  | None => PyDict.set String.eqb (fst kv) [snd kv] result
  | Some values => PyDict.set String.eqb (fst kv) (values ++ [snd kv])%list result
  end.

Definition gather (dicts : list (sdict Q)) : sdict (list Q) :=
  fold_left (fun result d => fold_left append_value d result) dicts [].

Definition average (values : list Q) : Q :=
  PyNum.round (PyNum.div_len (PyNum.sum values) (List.length values)) 2.

Definition merge_dicts (dicts : list (sdict Q)) : sdict Q :=
  map (fun kv => (fst kv, average (snd kv))) (gather dicts).

(** [[p.role for p in patterns if p.role]] *)
Definition observed (role : NamingPatterns -> sdict Q)
    (patterns : list NamingPatterns) : list (sdict Q) :=
  filter (fun d => match d with [] => false | _ => true end)
    (map role patterns).

(** A role nobody observed keeps the empty dictionary of
    [NamingPatterns()]. *)
Definition merge_role (role : NamingPatterns -> sdict Q)
    (patterns : list NamingPatterns) : sdict Q :=
  match observed role patterns with
  | [] => []
  | all => merge_dicts all
  end.

Definition merge_naming_patterns (patterns : list NamingPatterns)
  : NamingPatterns :=
  mk_NamingPatterns
    (merge_role variables patterns)
    (merge_role functions patterns)
    (merge_role classes patterns)
    (merge_role constants patterns)
    (merge_role private_vars patterns).

(** *** The formatting merge *)

(** [d[k] = d.get(k, 0) + 1] *)
Definition bump {K : Type} (eqb : K -> K -> bool) (k : K)
    (d : PyDict.dict K nat) : PyDict.dict K nat :=
  PyDict.set eqb k
    (match PyDict.get eqb k d with Some n => n | None => 0 end + 1) d.

(** [max(d, key=d.get) if d else default] *)
Definition most_common {K : Type} (d : PyDict.dict K nat) (default : K) : K :=
  match d with
  | [] => default
  | (k, n) :: r => PyDict.max_key k n r
  end.

Record FormatTally : Type := mk_FormatTally {
  indent_types : sdict nat;
  indent_sizes : PyDict.dict nat nat;
  quote_styles : sdict nat;
  line_lengths_mean : list nat;
  line_lengths_max : list nat
}.

Definition tally (t : FormatTally) (p : FormattingPatterns) : FormatTally :=
  mk_FormatTally
    (bump String.eqb (indentation_type p) (indent_types t))
    (if 0 <? indentation_size p
     then bump Nat.eqb (indentation_size p) (indent_sizes t)
     else indent_sizes t)
    (bump String.eqb (quote_style p) (quote_styles t))
    (line_lengths_mean t ++ [line_length_mean p])
    (line_lengths_max t ++ [line_length_max p]).

Definition merge_formatting_patterns (patterns : list FormattingPatterns)
  : FormattingPatterns :=
  match patterns with
  | [] => FormattingPatterns_default
  | _ =>
      let t := fold_left tally patterns (mk_FormatTally [] [] [] [] []) in
      mk_FormattingPatterns
        (most_common (indent_types t) "unknown")
        (most_common (indent_sizes t) 0)
        (int_mean (line_lengths_mean t))
        (PyNum.max_nat (line_lengths_max t))
        (most_common (quote_styles t) "unknown")
        (forallb trailing_newline patterns)
  end.

(** *** The project *)

Record LanguageSummary : Type := mk_LanguageSummary {
  file_count : nat;
  merged_naming : NamingPatterns;
  merged_formatting : FormattingPatterns
}.

Record Aggregated : Type := mk_Aggregated {
  project : string;
  total_files : nat;
  languages : sdict LanguageSummary
}.

(** What [analyze_project] returns: the empty dictionary or the report. *)
Inductive ProjectReport : Type :=
| EmptyDict
| ReportDict (aggregated : Aggregated).

Definition language_keys : list string :=
  ["python"; "javascript"; "typescript"; "cpp"; "c"; "java"; "go"].

Definition empty_groups : sdict (list StyleReport) :=
  map (fun lang => (lang, [])) language_keys.

Definition summarize (group : string * list StyleReport)
  : list (string * LanguageSummary) :=
  match snd group with
  | [] => []
  | reports =>
      [(fst group,
        mk_LanguageSummary (List.length reports)
          (merge_naming_patterns (map naming reports))
          (merge_formatting_patterns (map formatting reports)))]
  end.

Definition aggregate (reports_by_lang : sdict (list StyleReport))
  : sdict LanguageSummary :=
  flat_map summarize reports_by_lang.

Section Parser.

Variable parse : string -> parse_outcome.

(** The body of the loop over the files: a report goes to the group of its
    language when that language is a key; an exception is caught and the
    file leaves no report. *)
Definition add_file (reports_by_lang : sdict (list StyleReport)) (f : File)
  : sdict (list StyleReport) :=
  match analyze_file parse f with
  | Some report =>
      match PyDict.get String.eqb (language report) reports_by_lang with
      | Some reports =>
          PyDict.set String.eqb (language report) (reports ++ [report])%list
            reports_by_lang
      | None => reports_by_lang
      end
  | None => reports_by_lang
  end.

Definition group_reports (files : list File) : sdict (list StyleReport) :=
  fold_left add_file files empty_groups.

Definition analyze_project (project_path : Path) (fs : Listing)
    (extensions : option (list string)) : ProjectReport :=
  let files := collect_files fs extensions in
  match files with
  | [] => EmptyDict
  | _ =>
      ReportDict
        (mk_Aggregated (path_name project_path) (List.length files)
           (aggregate (group_reports files)))
  end.

(** The options of the command line, as [parser.parse_args()] returns
    them; [ns_path] is [Path(args.path)]. *)
Record Namespace : Type := mk_Namespace {
  ns_path : Path;
  ns_output : option string;
  ns_extensions : option string
}.

(** What [parser.parse_args()] does: argparse ends the run itself (with
    status 2 on a usage error such as a missing [--path], with status 0
    on [--help]), or it returns the options. *)
Inductive parse_args_outcome : Type :=
| ArgparseExit (status : nat)
| Options (args : Namespace).

(** How a run ends: an exit with a status, argparse's or [sys.exit(1)];
    the report printed as JSON; the report saved to the [--output] file;
    or [write_text] raising on that file, which nothing catches. *)
Inductive Outcome : Type :=
| SysExit (code : nat)
| Printed (report : Aggregated)
| Saved (output : string) (report : Aggregated)
| WriteRaises (output : string).

(** [ext.lstrip(".")] *)
Fixpoint lstrip_dots (s : string) : string :=
  match s with
  | String "." r => lstrip_dots r
  | _ => s
  end.

(** The [--extensions] option: absent or empty means the default list. *)
Definition parse_extensions (option_value : option string)
  : option (list string) :=
  match option_value with
  | None => None
  | Some EmptyString => None
  | Some s =>
      Some (map (fun ext => "." ++ lstrip_dots ext) (PyStr.split "," s))
  end.

(** [main], given what argparse does with the command line, whether the
    project path exists, what lies below it, and which files can be
    written.  Printing to the console is taken to succeed. *)
Definition main (cli : parse_args_outcome) (path_exists : bool)
    (fs : Listing) (writable : string -> bool) : Outcome :=
  match cli with
  | ArgparseExit status => SysExit status
  | Options args =>
      if negb path_exists then SysExit 1
      else
        match analyze_project (ns_path args) fs
                (parse_extensions (ns_extensions args))
        with
        | EmptyDict => SysExit 1
        | ReportDict report =>
            match ns_output args with
            | None => Printed report
            | Some EmptyString => Printed report
            | Some output =>
                if writable output then Saved output report
                else WriteRaises output
            end
        end
  end.

End Parser.

End AnalyzeProject.

(** ** Vocabulary of the properties

    What a syntax tree contains, read off the tree itself (through
    [Ast.nodes_of], not through the walk), and what a distribution assigns
    to a style. *)

Module Vocabulary.

Import Ast AnalyzeStyle AnalyzeProject.

(** An [ast.FunctionDef] node; an [ast.AsyncFunctionDef] is none. *)
Definition is_function_def (node : stmt) : bool :=
  match node with
  | FunctionDef _ _ _ _ => true
  | _ => false
  end.

(** The [ast.FunctionDef] nodes of a tree. *)
Definition function_defs (tree : module) : list stmt :=
  filter is_function_def (nodes_of tree).

Definition fn_name (node : stmt) : string :=
  match node with
  | FunctionDef name _ _ _ => name
  | _ => EmptyString
  end.

(** The names of the parameters listed in [args.args]: those that can be
    passed by position or by keyword.  The positional-only, the starred
    and the keyword-only parameters are in other fields. *)
Definition fn_params (node : stmt) : list string :=
  match node with
  | FunctionDef _ a _ _ => map arg_name (args a)
  | _ => []
  end.

(** The number of statements directly in the body. *)
Definition fn_length (node : stmt) : nat :=
  match node with
  | FunctionDef _ _ body _ => List.length body
  | _ => 0
  end.

(** A return annotation, or an annotation on a parameter of [args.args]. *)
Definition fn_annotated (node : stmt) : bool :=
  match node with
  | FunctionDef _ a _ returns =>
      match returns with
      | Some _ => true
      | None =>
          negb (forallb
                  (fun p => match annotation p with
                            | None => true
                            | Some _ => false
                            end) (args a))
      end
  | _ => false
  end.

(** The body starts with a string literal standing alone. *)
Definition fn_documented (node : stmt) : bool :=
  match node with
  | FunctionDef _ _ (Expr (Constant (ConstStr _)) :: _) _ => true
  | _ => false
  end.

(** The [ast.Name] nodes among the targets of an assignment. *)
Definition target_names (targets : list expr) : list string :=
  flat_map (fun t => match t with Name id => [id] | _ => [] end) targets.

(** The [ast.Name] targets of an [ast.Assign] statement; the target of
    an annotated or augmented assignment is none. *)
Definition assigned_names (node : stmt) : list string :=
  match node with
  | Assign targets _ => target_names targets
  | _ => []
  end.

(** The style of a marked name once its first character is removed. *)
Definition underlying (name : string) : string :=
  detect_naming_style (PyStr.tail name).

(** The names recorded as variables at a node: the [args.args] parameters
    of an [ast.FunctionDef], the [ast.Name] targets of an [ast.Assign] that
    are not all uppercase. *)
Definition variable_names (node : stmt) : list string :=
  match node with
  | FunctionDef _ _ _ _ => fn_params node
  | _ => filter (fun id => negb (PyStr.isupper id)) (assigned_names node)
  end.

(** The names whose privacy marker is looked at: the name of an
    [ast.FunctionDef] and the [ast.Name] targets of an [ast.Assign]. *)
Definition marked_names (node : stmt) : list string :=
  match node with
  | FunctionDef name _ _ _ => [name]
  | _ => assigned_names node
  end.

(** [name] is the name of an [ast.FunctionDef] node of the tree or an
    [ast.Name] target of one of its [ast.Assign] nodes. *)
Definition defined_or_assigned (tree : module) (name : string) : Prop :=
  (exists a body returns,
      In (FunctionDef name a body returns) (nodes_of tree))
  \/ (exists targets value,
        In (Assign targets value) (nodes_of tree)
        /\ In (Name name) targets).

Definition option_list {A : Type} (o : option A) : list A :=
  match o with Some x => [x] | None => [] end.

(** The parameters that take positional arguments: the positional-only
    ones, those of [args.args], and the starred one. *)
Definition positional_params (a : arguments) : list arg :=
  (posonlyargs a ++ args a ++ option_list (vararg a))%list.

(** Every parameter of a signature. *)
Definition all_params (a : arguments) : list arg :=
  (posonlyargs a ++ args a ++ option_list (vararg a) ++ kwonlyargs a
   ++ option_list (kwarg a))%list.

(** A signature with a return annotation or an annotation on any of its
    parameters. *)
Definition declares_annotation (a : arguments) (returns : option expr)
  : bool :=
  is_some returns || existsb (fun p => is_some (annotation p)) (all_params a).

(** The rules of the classifier as the design lists them, first to last:
    a test on the name and the tag it gives. *)
Definition naming_rules : list ((string -> bool) * string) :=
  [ (fun n => PyStr.isupper n && PyStr.contains "_" n, "UPPER_SNAKE_CASE");
    (fun n => PyStr.islower n && PyStr.contains "_" n, "snake_case");
    (fun n => PyStr.head_isupper n && negb (PyStr.contains "_" n),
     "PascalCase");
    (fun n => PyStr.head_islower n && negb (PyStr.contains "_" n)
              && PyStr.existsb PyStr.char_isupper (PyStr.tail n),
     "camelCase");
    (fun n => PyStr.startswith "_" n, "_private") ].

(** The tag of the first rule whose test holds, [other] when none does. *)
Fixpoint first_match (rules : list ((string -> bool) * string))
    (name : string) : string :=
  match rules with
  | [] => "other"
  | (test, tag) :: rest =>
      if test name then tag else first_match rest name
  end.

(** The classifier of the design: [unknown] for the empty name, else the
    first rule that matches. *)
Definition classify_by_rules (name : string) : string :=
  match name with
  | EmptyString => "unknown"
  | _ => first_match naming_rules name
  end.

(** The report a run hands over, printed or saved. *)
Definition emitted (outcome : Outcome) : option Aggregated :=
  match outcome with
  | Printed report => Some report
  | Saved _ report => Some report
  | _ => None
  end.

(** The weight a list of observed styles gives to one style: nothing when
    the style was not observed, else its share rounded to two places. *)
Definition weight_of (styles : list string) (s : string) : option Q :=
  match count_occ string_dec styles s with
  | 0 => None
  | count => Some (PyNum.round (PyNum.truediv count (List.length styles)) 2)
  end.

(** The share [count / total] rounded to two places, as a number of
    hundredths. *)
Definition hundredths (total count : nat) : Z :=
  PyNum.round_half_even (Z.of_nat count * 100) (Pos.of_nat total).

Definition lookup {V : Type} (k : string) (d : sdict V) : option V :=
  PyDict.get String.eqb k d.

(** The reports of the files detected as [lang], in file order. *)
Definition reports_in (parse : string -> parse_outcome) (lang : string)
    (files : list File) : list StyleReport :=
  flat_map
    (fun f =>
       match analyze_file parse f with
       | Some report =>
           if String.eqb (language report) lang then [report] else []
       | None => []
       end) files.

(** The files an aggregation by language can see: neither Rust nor of an
    unknown language. *)
Definition groupable (f : File) : bool :=
  negb (String.eqb (detect_language (path f)) "rust")
  && negb (String.eqb (detect_language (path f)) "unknown").

(** The sum of the weights of a distribution. *)
Definition total_weight (d : sdict Q) : Q := PyNum.sum (PyDict.values d).

(** What one file adds to the group of [lang]. *)
Definition contribution (parse : string -> parse_outcome) (lang : string)
    (f : File) : list StyleReport :=
  match analyze_file parse f with
  | Some report => if String.eqb (language report) lang then [report] else []
  | None => []
  end.

(** The groups of the seven languages, given the reports of each. *)
Definition keyed {V : Type} (g : string -> V) (keys : list string)
  : sdict V :=
  map (fun lang => (lang, g lang)) keys.

(** The summary of a group of reports. *)
Definition summary_of (reports : list StyleReport) : LanguageSummary :=
  mk_LanguageSummary (List.length reports)
    (merge_naming_patterns (map naming reports))
    (merge_formatting_patterns (map formatting reports)).

(** The report of a Python file whose text does not parse. *)
Definition unparsed_report (f : File) (content : string) : StyleReport :=
  mk_StyleReport (path_str (path f)) "python" NamingPatterns_default
    (analyze_formatting content) None [].

(** No weight is negative. *)
Definition nonneg_values (vs : list Q) : Prop := Forall (Qle 0) vs.

(** The indent of a line: the length of its leading white space. *)
Definition indent_of (line : string) : nat :=
  String.length line - String.length (PyStr.lstrip line).

(** The nonzero indents of the non-blank lines of a text, in line order. *)
Definition observed_indents (content : string) : list nat :=
  filter (fun n => 0 <? n)
    (map indent_of
       (filter PyStr.strip_nonempty (PyStr.split newline content))).

End Vocabulary.

(** ** Sample inputs *)

Module Examples.

Import Ast AnalyzeStyle AnalyzeProject.

Definition no_arguments : arguments := mk_arguments [] [] None [] None.

Definition pass : stmt := OtherStmt [].

(** [def load_data(): pass] and [def save_data(): pass] *)
Definition tree_snake : module :=
  mk_module [FunctionDef "load_data" no_arguments [pass] None;
             FunctionDef "save_data" no_arguments [pass] None].

(** [def loadData(): pass] and [def saveData(): pass] *)
Definition tree_camel : module :=
  mk_module [FunctionDef "loadData" no_arguments [pass] None;
             FunctionDef "saveData" no_arguments [pass] None].

(** One function in each of three styles. *)
Definition tree_three : module :=
  mk_module [FunctionDef "load_data" no_arguments [pass] None;
             FunctionDef "loadData" no_arguments [pass] None;
             FunctionDef "LoadData" no_arguments [pass] None].

(** A class with a documented, annotated private method that assigns a
    constant and, inside a nested block, a private variable; then a
    plain function. *)
Definition tree_sample : module :=
  mk_module
    [ClassDef "Loader"
       [FunctionDef "_helper"
          (mk_arguments []
             [mk_arg "self" None; mk_arg "maxLen" (Some (Name "int"))]
             None [] None)
          [Expr (Constant (ConstStr "Load one item."));
           Assign [Name "MY_CONST"] (Constant ConstOther);
           OtherStmt [Assign [Name "_cache"; OtherExpr] OtherExpr]]
          None];
     FunctionDef "run" no_arguments [pass] None].

(** A function [f] with a positional-only parameter [firstArg] and a
    starred parameter [moreArgs], a function [g] whose only parameter is the
    keyword-only [x: int], and [async def fetchData(): pass]. *)
Definition tree_signatures : module :=
  mk_module
    [FunctionDef "f"
       (mk_arguments [mk_arg "firstArg" None] []
          (Some (mk_arg "moreArgs" None)) [] None)
       [pass] None;
     FunctionDef "g"
       (mk_arguments [] [] None [mk_arg "x" (Some (Name "int"))] None)
       [pass] None;
     AsyncFunctionDef "fetchData" no_arguments [pass] None].

(** Names with a leading underscore that are neither the name of a [def]
    nor the target of a plain assignment: [async def _fetch(): pass],
    [class _Base: pass], [def run(_unused): pass], [_count: int = 0] and
    [_total += 1]. *)
Definition tree_unmarked : module :=
  mk_module
    [AsyncFunctionDef "_fetch" no_arguments [pass] None;
     ClassDef "_Base" [pass];
     FunctionDef "run"
       (mk_arguments [] [mk_arg "_unused" None] None [] None) [pass] None;
     AnnAssign (Name "_count") (Name "int") (Some (Constant ConstOther));
     AugAssign (Name "_total") (Constant ConstOther)].

(** [MAX_SIZE: int = 10], [LIMIT += 1] and [class MAX_ITEMS: pass]. *)
Definition tree_annotated : module :=
  mk_module
    [AnnAssign (Name "MAX_SIZE") (Name "int") (Some (Constant ConstOther));
     AugAssign (Name "LIMIT") (Constant ConstOther);
     ClassDef "MAX_ITEMS" [pass]].

(** The character NUL. *)
Definition nul : ascii := "000"%char.

(** A parser for the samples: five texts parse; a text with a NUL
    character makes the parser raise [ValueError], as [ast.parse] does up
    to Python 3.11; anything else is a syntax error. *)
Definition sample_parse (content : string) : parse_outcome :=
  if String.eqb content "snake" then Parsed tree_snake
  else if String.eqb content "camel" then Parsed tree_camel
  else if String.eqb content "three" then Parsed tree_three
  else if String.eqb content "sample" then Parsed tree_sample
  else if String.eqb content "signatures" then Parsed tree_signatures
  else if PyStr.contains nul content then RaisesOther
  else RaisesSyntaxError.

Definition file_snake : File := mk_File ["proj"; "a.py"] (Some "snake").
Definition file_camel : File := mk_File ["proj"; "b.py"] (Some "camel").
Definition file_sample : File := mk_File ["proj"; "pkg"; "s.py"] (Some "sample").

(** A Python file that does not parse and does not end with a newline. *)
Definition file_broken : File :=
  mk_File ["proj"; "broken.py"] (Some "def f(:").

Definition file_rust : File := mk_File ["proj"; "main.rs"] (Some "fn main() {}").

(** A Python file with a NUL character in its text, without a final
    newline. *)
Definition file_nul : File :=
  mk_File ["proj"; "nul.py"] (Some (String "x" (String nul EmptyString))).

(** A traversal for the samples: for the pattern ['*' + ext] of an
    extension without wildcard characters, the entries whose name ends with
    [ext], in their order. *)
Definition listing (entries : list File) : Listing :=
  fun pattern =>
    filter
      (fun f => PyStr.endswith_str (PyStr.tail pattern) (path_name (path f)))
      entries.

(** A project whose only file lies in an excluded directory. *)
Definition fs_excluded : Listing :=
  listing [mk_File ["proj"; "node_modules"; "lib.js"] (Some "var x;")].

(** The command line [--path proj]. *)
Definition cli_proj : parse_args_outcome :=
  Options (mk_Namespace ["proj"] None None).

(** Lines indented by 4, 8 and 12 spaces. *)
Definition text_4_8_12 : string :=
  "def f(x):
    if x:
        for y in x:
            g(y)
    return x
".

End Examples.

(** ** Further vocabulary

    Readings used by the properties of the functions around the ones
    above: the classifier's range, the merge as a mean, the tallies of the
    formatting merge, discovery, and the shape of the project report. *)

Module Readings.

Import Ast AnalyzeStyle AnalyzeProject Vocabulary.
Local Open Scope list_scope.

(** The strings the classifier can return. *)
Definition style_tags : list string :=
  ["unknown"; "UPPER_SNAKE_CASE"; "snake_case"; "PascalCase"; "camelCase";
   "_private"; "other"].

(** A weight between 0 and 1. *)
Definition unit_weight (w : Q) : Prop := (0 <= w)%Q /\ (w <= 1)%Q.

(** The weights the dictionaries give to one key, in the order of the
    dictionaries; a dictionary without the key gives none. *)
Definition values_for (k : string) (dicts : list (sdict Q)) : list Q :=
  flat_map (fun d => match lookup k d with Some v => [v] | None => [] end)
    dicts.

(** The values a gathered dictionary holds for a key. *)
Definition gathered (k : string) (result : sdict (list Q)) : list Q :=
  match PyDict.get String.eqb k result with
  | Some vs => vs
  | None => []
  end.

(** How often a character occurs in a text. *)
Fixpoint count_char (c : ascii) (s : string) : nat :=
  match s with
  | EmptyString => 0
  | String c' r => (if Ascii.eqb c' c then 1 else 0) + count_char c r
  end.

Definition is_class_def (node : stmt) : bool :=
  match node with
  | ClassDef _ _ => true
  | _ => false
  end.

Definition class_names (node : stmt) : list string :=
  match node with
  | ClassDef name _ => [name]
  | _ => []
  end.

(** The assigned names that are all uppercase. *)
Definition constant_names (node : stmt) : list string :=
  filter PyStr.isupper (assigned_names node).

(** An entry with the larger count comes first. *)
Definition by_count (x y : string * nat) : Prop := snd y <= snd x.

(** The tags [detect_language] can return. *)
Definition language_tags : list string :=
  language_keys ++ ["rust"; "unknown"].

(** The suffixes of the languages that have a group. *)
Definition grouped_suffixes : list string :=
  [".py"; ".js"; ".ts"; ".cpp"; ".cc"; ".cxx"; ".c"; ".h"; ".hpp"; ".java";
   ".go"].

(** The extensions discovery looks for. *)
Definition wanted (extensions : option (list string)) : list string :=
  match extensions with
  | None => default_extensions
  | Some l => l
  end.

Section Tally.

Context {K : Type}.
Variable eqb : K -> K -> bool.

(** The counters after the keys [ks] were tallied one by one. *)
Definition tally_keys (ks : list K) (d : PyDict.dict K nat)
  : PyDict.dict K nat :=
  fold_left (fun acc k => bump eqb k acc) ks d.

(** A key joins the end of the keys seen so far unless it is among them. *)
Definition add_key (seen : list K) (k : K) : list K :=
  if existsb (eqb k) seen then seen else seen ++ [k].

Definition count_of (k : K) (d : PyDict.dict K nat) : nat :=
  match PyDict.get eqb k d with
  | Some n => n
  | None => 0
  end.

Fixpoint occurrences (k : K) (ks : list K) : nat :=
  match ks with
  | [] => 0
  | k' :: r => (if eqb k k' then 1 else 0) + occurrences k r
  end.

End Tally.

(** [winner] is the most frequent of [ks] and, among the most frequent, the
    one met first: nothing occurs more often, and whatever is met before
    its first occurrence occurs less often. *)
Definition first_most_frequent {K : Type} (eqb : K -> K -> bool)
    (ks : list K) (winner : K) : Prop :=
  (forall k, occurrences eqb k ks <= occurrences eqb winner ks)
  /\ exists before after,
       ks = before ++ winner :: after
       /\ ~ In winner before
       /\ forall k,
            In k before -> occurrences eqb k ks < occurrences eqb winner ks.

(** The file counts of the groups of a report, added up. *)
Definition grouped_files (report : Aggregated) : nat :=
  list_sum (map (fun e => file_count (snd e)) (languages report)).

End Readings.

(** ** Strings and the classifier *)

Module ClassifierFacts.

Import AnalyzeStyle.

Lemma contains_nonempty (c : ascii) (s : string) :
  PyStr.contains c s = true -> s <> EmptyString.
Proof. destruct s; [discriminate | intros _ H; discriminate H]. Qed.

Lemma startswith_contains (c : ascii) (s : string) :
  PyStr.startswith c s = true -> PyStr.contains c s = true.
Proof.
  destruct s as [|c' r]; simpl; [discriminate|].
  intros H. apply Ascii.eqb_eq in H. subst c'.
  unfold PyStr.contains. simpl. now rewrite Ascii.eqb_refl.
Qed.

Lemma nonempty_eqb (s : string) :
  s <> EmptyString -> String.eqb s EmptyString = false.
Proof. intros H. apply String.eqb_neq. exact H. Qed.

Lemma isupper_not_islower (s : string) :
  PyStr.isupper s = true -> PyStr.islower s = false.
Proof.
  unfold PyStr.isupper, PyStr.islower. intros H.
  apply andb_true_iff in H. destruct H as [_ H]. now rewrite H.
Qed.

(** A name that starts with the marker starts with no letter. *)
Lemma startswith_underscore_head (s : string) :
  PyStr.startswith "_" s = true ->
  PyStr.head_isupper s = false /\ PyStr.head_islower s = false.
Proof.
  destruct s as [|c r]; simpl; [discriminate|].
  intros H. apply Ascii.eqb_eq in H. subst c. split; reflexivity.
Qed.

(** How the classifier treats the names that start with the marker. *)
Lemma detect_naming_style_marked (name : string) :
  PyStr.startswith "_" name = true ->
  detect_naming_style name =
    if PyStr.isupper name then "UPPER_SNAKE_CASE"
    else if PyStr.islower name then "snake_case"
    else "_private".
Proof.
  intros H.
  pose proof (startswith_contains _ _ H) as Hc.
  pose proof (contains_nonempty _ _ Hc) as Hne.
  destruct (startswith_underscore_head _ H) as [Hu Hl].
  unfold detect_naming_style.
  rewrite (nonempty_eqb _ Hne), Hc, Hu, Hl, H.
  rewrite !andb_true_r. simpl.
  destruct (PyStr.isupper name); [reflexivity|].
  destruct (PyStr.islower name); reflexivity.
Qed.

End ClassifierFacts.

(** ** The walk reaches every node once *)

Module WalkFacts.

Import Ast.

Lemma size_children (node : stmt) :
  size node = S (total_size (iter_child_nodes node)).
Proof. destruct node; reflexivity. Qed.

Lemma subnodes_children (node : stmt) :
  subnodes node = node :: flat_map subnodes (iter_child_nodes node).
Proof. destruct node; reflexivity. Qed.

Lemma total_size_app (l1 l2 : list stmt) :
  total_size (l1 ++ l2) = total_size l1 + total_size l2.
Proof. unfold total_size. now rewrite map_app, list_sum_app. Qed.

(** With enough fuel the queue is emptied, and what was taken is what the
    queued trees contain. *)
Lemma walk_queue_complete (fuel : nat) :
  forall todo, total_size todo <= fuel ->
    Permutation (walk_queue fuel todo) (flat_map subnodes todo).
Proof.
  induction fuel as [|fuel IH]; intros todo Hfuel.
  - destruct todo as [|node rest]; [constructor|].
    unfold total_size in Hfuel. simpl in Hfuel.
    rewrite size_children in Hfuel. lia.
  - destruct todo as [|node rest]; [constructor|].
    simpl walk_queue. simpl flat_map.
    rewrite subnodes_children. simpl. constructor.
    assert (Hle : total_size (rest ++ iter_child_nodes node) <= fuel).
    { rewrite total_size_app. unfold total_size in *. simpl in Hfuel.
      rewrite size_children in Hfuel. unfold total_size in Hfuel. lia. }
    rewrite (IH _ Hle), flat_map_app.
    apply Permutation_app_comm.
Qed.

Lemma walk_complete (tree : module) :
  Permutation (walk tree) (nodes_of tree).
Proof. apply walk_queue_complete. apply Nat.le_refl. Qed.

Lemma walk_In (tree : module) (node : stmt) :
  In node (walk tree) <-> In node (nodes_of tree).
Proof.
  split; apply Permutation_in;
    [apply walk_complete | apply Permutation_sym, walk_complete].
Qed.

Lemma Permutation_filter {A : Type} (p : A -> bool) (l l' : list A) :
  Permutation l l' -> Permutation (filter p l) (filter p l').
Proof.
  induction 1 as [|x l l' _ IH|x y l|l l' l'' _ IH1 _ IH2]; simpl.
  - constructor.
  - destruct (p x); [now constructor | exact IH].
  - destruct (p x), (p y); try apply Permutation_refl. constructor.
  - now transitivity (filter p l').
Qed.

Lemma Permutation_flat_map_l {A B : Type} (f : A -> list B) (l l' : list A) :
  Permutation l l' -> Permutation (flat_map f l) (flat_map f l').
Proof.
  induction 1 as [|x l l' _ IH|x y l|l l' l'' _ IH1 _ IH2]; simpl.
  - constructor.
  - now apply Permutation_app_head.
  - rewrite !app_assoc. apply Permutation_app_tail, Permutation_app_comm.
  - now transitivity (flat_map f l').
Qed.

End WalkFacts.

(** ** What the naming loop has collected *)

Module NamingFacts.

Import Ast AnalyzeStyle Vocabulary.
Local Open Scope list_scope.

Lemma fold_args (ps : list arg) :
  forall st,
    let r := fold_left
               (fun acc p => append_var (detect_naming_style (arg_name p)) acc)
               ps st in
    var_styles r = var_styles st ++ map detect_naming_style (map arg_name ps)
    /\ func_styles r = func_styles st
    /\ private_styles r = private_styles st.
Proof.
  induction ps as [|p ps IH]; intros st; simpl.
  - now rewrite app_nil_r.
  - destruct (IH (append_var (detect_naming_style (arg_name p)) st))
      as (Hv & Hf & Hp).
    rewrite Hv, Hf, Hp. simpl. now rewrite <- app_assoc.
Qed.

Lemma fold_targets (targets : list expr) :
  forall st,
    let r := fold_left visit_target targets st in
    var_styles r =
      var_styles st ++
      map detect_naming_style
        (filter (fun id => negb (PyStr.isupper id)) (target_names targets))
    /\ func_styles r = func_styles st
    /\ private_styles r =
         private_styles st ++
         map underlying (filter (PyStr.startswith "_") (target_names targets)).
Proof.
  induction targets as [|t targets IH]; intros st; simpl.
  - now rewrite !app_nil_r.
  - destruct (IH (visit_target st t)) as (Hv & Hf & Hp).
    rewrite Hv, Hf, Hp. clear IH Hv Hf Hp.
    destruct t as [id| |]; simpl; try (repeat split; reflexivity).
    destruct (PyStr.isupper id), (PyStr.startswith "_" id); simpl;
      rewrite <- ?app_assoc; repeat split; reflexivity.
Qed.

Lemma visit_naming_var (st : NamingStyles) (node : stmt) :
  var_styles (visit_naming st node) =
    var_styles st ++ map detect_naming_style (variable_names node).
Proof.
  destruct node as [name a body r|name a body r|name body|targets v|v|ch|t an v|t v];
    simpl; try now rewrite app_nil_r.
  - match goal with |- var_styles (fold_left _ _ ?s) = _ =>
      destruct (fold_args (args a) s) as (Hv & _) end.
    rewrite Hv. now destruct (PyStr.startswith "_" name).
  - now destruct (fold_targets targets st) as (Hv & _).
Qed.

Lemma visit_naming_func (st : NamingStyles) (node : stmt) :
  func_styles (visit_naming st node) =
    func_styles st ++
    map detect_naming_style (map fn_name (filter is_function_def [node])).
Proof.
  destruct node as [name a body r|name a body r|name body|targets v|v|ch|t an v|t v];
    simpl; try now rewrite app_nil_r.
  - match goal with |- func_styles (fold_left _ _ ?s) = _ =>
      destruct (fold_args (args a) s) as (_ & Hf & _) end.
    rewrite Hf. now destruct (PyStr.startswith "_" name).
  - destruct (fold_targets targets st) as (_ & Hf & _).
    rewrite Hf. now rewrite app_nil_r.
Qed.

Lemma visit_naming_private (st : NamingStyles) (node : stmt) :
  private_styles (visit_naming st node) =
    private_styles st ++
    map underlying (filter (PyStr.startswith "_") (marked_names node)).
Proof.
  destruct node as [name a body r|name a body r|name body|targets v|v|ch|t an v|t v];
    simpl; try now rewrite app_nil_r.
  - match goal with |- private_styles (fold_left _ _ ?s) = _ =>
      destruct (fold_args (args a) s) as (_ & _ & Hp) end.
    rewrite Hp. destruct (PyStr.startswith "_" name); simpl;
      [reflexivity | now rewrite app_nil_r].
  - now destruct (fold_targets targets st) as (_ & _ & Hp).
Qed.

Lemma fold_visit_naming (l : list stmt) :
  forall st,
    let r := fold_left visit_naming l st in
    var_styles r =
      var_styles st ++ map detect_naming_style (flat_map variable_names l)
    /\ func_styles r =
         func_styles st ++
         map detect_naming_style (map fn_name (filter is_function_def l))
    /\ private_styles r =
         private_styles st ++
         map underlying
           (filter (PyStr.startswith "_") (flat_map marked_names l)).
Proof.
  induction l as [|node l IH]; intros st; simpl.
  - now rewrite !app_nil_r.
  - destruct (IH (visit_naming st node)) as (Hv & Hf & Hp).
    rewrite Hv, Hf, Hp, visit_naming_var, visit_naming_func,
      visit_naming_private.
    rewrite filter_app, !map_app, <- !app_assoc.
    repeat split; try reflexivity.
    simpl. now destruct (is_function_def node).
Qed.

(** The three lists, in walk order. *)
Lemma collect_styles_lists (tree : module) :
  var_styles (collect_styles tree) =
    map detect_naming_style (flat_map variable_names (walk tree))
  /\ func_styles (collect_styles tree) =
       map detect_naming_style
         (map fn_name (filter is_function_def (walk tree)))
  /\ private_styles (collect_styles tree) =
       map underlying
         (filter (PyStr.startswith "_") (flat_map marked_names (walk tree))).
Proof. exact (fold_visit_naming (walk tree) no_styles). Qed.

(** The same lists against the tree: every node counted once. *)
Lemma collect_styles_tree (tree : module) :
  Permutation (var_styles (collect_styles tree))
    (map detect_naming_style (flat_map variable_names (nodes_of tree)))
  /\ Permutation (func_styles (collect_styles tree))
       (map detect_naming_style (map fn_name (function_defs tree)))
  /\ Permutation (private_styles (collect_styles tree))
       (map underlying
          (filter (PyStr.startswith "_")
             (flat_map marked_names (nodes_of tree)))).
Proof.
  destruct (collect_styles_lists tree) as (Hv & Hf & Hp).
  rewrite Hv, Hf, Hp.
  pose proof (WalkFacts.walk_complete tree) as Hw.
  repeat split; repeat apply Permutation_map.
  - now apply WalkFacts.Permutation_flat_map_l.
  - now apply WalkFacts.Permutation_filter.
  - now apply WalkFacts.Permutation_filter, WalkFacts.Permutation_flat_map_l.
Qed.

Lemma target_names_In (targets : list expr) (name : string) :
  In name (target_names targets) <-> In (Name name) targets.
Proof.
  unfold target_names. rewrite in_flat_map. split.
  - intros (t & Ht & Hname). destruct t; try contradiction.
    destruct Hname as [<-|[]]. exact Ht.
  - intros H. exists (Name name). split; [exact H | now left].
Qed.

Lemma marked_names_In (tree : module) (name : string) :
  In name (flat_map marked_names (nodes_of tree)) <->
  defined_or_assigned tree name.
Proof.
  rewrite in_flat_map. unfold defined_or_assigned. split.
  - intros (node & Hnode & Hname).
    destruct node; try contradiction.
    + destruct Hname as [<-|[]]. left. eauto.
    + right. apply target_names_In in Hname. eauto.
  - intros [(a & body & returns & Hnode)|(targets & value & Hnode & Ht)].
    + eexists. split; [exact Hnode | now left].
    + eexists. split; [exact Hnode | now apply target_names_In].
Qed.

End NamingFacts.

(** ** What the structural loop has counted *)

Module PatternFacts.

Import Ast AnalyzeStyle Vocabulary.
Local Open Scope list_scope.

Lemma has_type_hint_annotated (name : string) (a : arguments)
    (body : list stmt) (returns : option expr) :
  has_type_hint a returns = fn_annotated (FunctionDef name a body returns).
Proof.
  unfold has_type_hint. simpl. destruct returns; [reflexivity|]. simpl.
  induction (args a) as [|p ps IH]; [reflexivity|]. simpl.
  destruct (annotation p); simpl; [reflexivity | exact IH].
Qed.

Lemma has_docstring_documented (name : string) (a : arguments)
    (body : list stmt) (returns : option expr) :
  has_docstring body = fn_documented (FunctionDef name a body returns).
Proof. reflexivity. Qed.

Lemma fold_visit_patterns (l : list stmt) :
  forall acc,
    let r := fold_left visit_patterns l acc in
    func_lengths r =
      func_lengths acc ++ map fn_length (filter is_function_def l)
    /\ seen_functions r =
         seen_functions acc + List.length (filter is_function_def l)
    /\ seen_type_hints r =
         seen_type_hints acc + List.length (filter fn_annotated l)
    /\ seen_docstrings r =
         seen_docstrings acc + List.length (filter fn_documented l).
Proof.
  induction l as [|node l IH]; intros acc; simpl.
  - rewrite app_nil_r. repeat split; lia.
  - destruct (IH (visit_patterns acc node)) as (Hl & Hf & Ht & Hd).
    rewrite Hl, Hf, Ht, Hd. clear IH Hl Hf Ht Hd.
    destruct node as [name a body r|name a body r|name body|targets v|v|ch|t an v|t v];
      try (simpl; rewrite ?app_nil_r; repeat split; lia).
    rewrite <- (has_type_hint_annotated name a body r).
    unfold fn_documented, is_function_def, visit_patterns.
    fold (has_docstring body).
    cbn [func_lengths seen_functions seen_type_hints seen_docstrings
         map fn_length List.length].
    rewrite <- app_assoc.
    destruct (has_type_hint a r), (has_docstring body); simpl;
      repeat split; lia.
Qed.

Lemma filter_implied {A : Type} (p q : A -> bool) :
  (forall x, p x = true -> q x = true) ->
  forall l, filter p (filter q l) = filter p l.
Proof.
  intros Hpq l. induction l as [|x l IH]; [reflexivity|]. simpl.
  destruct (p x) eqn:E.
  - rewrite (Hpq x E). simpl. rewrite E. now f_equal.
  - destruct (q x); simpl; rewrite ?E; exact IH.
Qed.

(** The counters against the tree. *)
Lemma scan_patterns_tree (tree : module) :
  Permutation (func_lengths (scan_patterns tree))
    (map fn_length (function_defs tree))
  /\ seen_functions (scan_patterns tree) = List.length (function_defs tree)
  /\ seen_type_hints (scan_patterns tree) =
       List.length (filter fn_annotated (function_defs tree))
  /\ seen_docstrings (scan_patterns tree) =
       List.length (filter fn_documented (function_defs tree)).
Proof.
  destruct (fold_visit_patterns (walk tree) (mk_PatternScan [] 0 0 0 0))
    as (Hl & Hf & Ht & Hd).
  fold (scan_patterns tree) in Hl, Hf, Ht, Hd. simpl in Hl, Hf, Ht, Hd.
  pose proof (WalkFacts.walk_complete tree) as Hw.
  assert (Hsub : forall p : stmt -> bool,
             (forall n, p n = true -> is_function_def n = true) ->
             List.length (filter p (walk tree)) =
             List.length (filter p (function_defs tree))).
  { intros p Hp. unfold function_defs.
    rewrite (Permutation_length (WalkFacts.Permutation_filter p _ _ Hw)).
    now rewrite (filter_implied p is_function_def Hp). }
  repeat split.
  - rewrite Hl. apply Permutation_map.
    now apply WalkFacts.Permutation_filter.
  - rewrite Hf. apply Permutation_length.
    now apply WalkFacts.Permutation_filter.
  - rewrite Ht. apply Hsub. now intros [].
  - rewrite Hd. apply Hsub. now intros [].
Qed.

End PatternFacts.

(** ** Rounding *)

Module RoundingFacts.

Lemma round_half_even_error (n : Z) (d : positive) :
  (Z.abs (2 * (PyNum.round_half_even n d * Zpos d - n)) <= Zpos d)%Z.
Proof.
  unfold PyNum.round_half_even.
  pose proof (Z.div_mod n (Zpos d) ltac:(discriminate)) as Hn.
  pose proof (Z.mod_pos_bound n (Zpos d) ltac:(reflexivity)) as Hr.
  set (q := (n / Zpos d)%Z) in *. set (r := (n mod Zpos d)%Z) in *.
  destruct (Z.ltb_spec (2 * r) (Zpos d));
    [|destruct (Z.ltb_spec (Zpos d) (2 * r));
      [|destruct (Z.even q)]]; nia.
Qed.

Lemma round_half_even_nonneg (n : Z) (d : positive) :
  (0 <= n)%Z -> (0 <= PyNum.round_half_even n d)%Z.
Proof.
  intros Hn. unfold PyNum.round_half_even.
  assert (Hq : (0 <= n / Zpos d)%Z) by (apply Z.div_pos; lia).
  destruct (_ <? _)%Z; [exact Hq|].
  destruct (_ <? _)%Z; [lia|]. destruct (Z.even _); lia.
Qed.

Lemma round_half_even_exact (z : Z) (d : positive) :
  PyNum.round_half_even (z * Zpos d) d = z.
Proof.
  unfold PyNum.round_half_even.
  rewrite Z.div_mul, Z.mod_mul by discriminate.
  destruct (Z.ltb_spec (2 * 0) (Zpos d)); [reflexivity | lia].
Qed.

Lemma round_two (x : Q) :
  PyNum.round x 2 = Qmake (PyNum.round_half_even (Qnum x * 100) (Qden x)) 100.
Proof. reflexivity. Qed.

(** Rounding a value that already has two places changes nothing, also
    after the sum and the division of a one-element average. *)
Lemma round_two_fixed (z : Z) :
  PyNum.round (PyNum.div_len (PyNum.sum [Qmake z 100]) 1) 2 = Qmake z 100.
Proof.
  rewrite round_two. unfold PyNum.div_len, PyNum.sum. simpl.
  replace ((z * 1 * 1 * 100)%Z) with ((z * 100)%Z) by ring.
  f_equal. apply (round_half_even_exact z 100).
Qed.

Lemma round_two_nonneg (x : Q) : (0 <= x)%Q -> (0 <= PyNum.round x 2)%Q.
Proof.
  intros Hx. rewrite round_two. unfold Qle in *. simpl in *.
  rewrite Z.mul_1_r in *. apply round_half_even_nonneg. lia.
Qed.

End RoundingFacts.

(** ** Dictionaries *)

Module DictFacts.

Import AnalyzeStyle Vocabulary.
Local Open Scope list_scope.

Lemma lookup_notin {V : Type} (k : string) (d : sdict V) :
  ~ In k (PyDict.keys d) -> lookup k d = None.
Proof.
  induction d as [|[k' v] d IH]; [reflexivity|]. simpl. intros Hn.
  destruct (String.eqb_spec k k') as [->|_]; [tauto|].
  apply IH. tauto.
Qed.

Lemma lookup_in {V : Type} (k : string) (v : V) (d : sdict V) :
  NoDup (PyDict.keys d) -> In (k, v) d -> lookup k d = Some v.
Proof.
  induction d as [|[k' v'] d IH]; [intros _ []|]. simpl.
  intros Hnd [Heq|Hin].
  - injection Heq as -> ->. now rewrite String.eqb_refl.
  - inversion Hnd as [|? ? Hk' Hnd']; subst.
    destruct (String.eqb_spec k k') as [->|_]; [|now apply IH].
    exfalso. apply Hk'. change k' with (fst (k', v)).
    now apply in_map.
Qed.

Lemma set_notin {V : Type} (k : string) (v : V) (d : sdict V) :
  ~ In k (PyDict.keys d) -> PyDict.set String.eqb k v d = d ++ [(k, v)].
Proof.
  induction d as [|[k' v'] d IH]; [reflexivity|]. simpl. intros Hn.
  destruct (String.eqb_spec k k') as [->|_]; [tauto|].
  f_equal. apply IH. tauto.
Qed.

End DictFacts.

(** ** The per-file distribution *)

Module DistributionFacts.

Import AnalyzeStyle Vocabulary.
Local Open Scope list_scope.

Lemma insert_by_count_perm (x : string * nat) (l : list (string * nat)) :
  Permutation (insert_by_count x l) (x :: l).
Proof.
  induction l as [|y l IH]; simpl; [apply Permutation_refl|].
  destruct (snd x <? snd y); [|apply Permutation_refl].
  rewrite IH. apply perm_swap.
Qed.

Lemma sorted_by_count_perm (l : list (string * nat)) :
  Permutation (sorted_by_count l) l.
Proof.
  induction l as [|x l IH]; simpl; [constructor|].
  rewrite insert_by_count_perm. now constructor.
Qed.

Lemma calc_distribution_unfold (styles : list string) :
  calc_distribution styles =
    map (fun sc => (fst sc, Qmake (hundredths (List.length styles) (snd sc)) 100))
      (match styles with
       | [] => []
       | _ => sorted_by_count (style_counts styles)
       end).
Proof. destruct styles; reflexivity. Qed.

Lemma style_counts_keys (styles : list string) :
  map fst (style_counts styles) = nodup string_dec styles.
Proof.
  unfold style_counts. rewrite map_map. simpl. apply map_id.
Qed.

Lemma calc_distribution_keys (styles : list string) :
  Permutation (PyDict.keys (calc_distribution styles))
    (nodup string_dec styles).
Proof.
  rewrite calc_distribution_unfold. unfold PyDict.keys.
  rewrite map_map. simpl.
  destruct styles as [|s styles]; [constructor|].
  rewrite <- style_counts_keys.
  apply Permutation_map, sorted_by_count_perm.
Qed.

Lemma calc_distribution_NoDup (styles : list string) :
  NoDup (PyDict.keys (calc_distribution styles)).
Proof.
  eapply Permutation_NoDup.
  - apply Permutation_sym, calc_distribution_keys.
  - apply NoDup_nodup.
Qed.

Lemma calc_distribution_entries (styles : list string) (kv : string * Q) :
  In kv (calc_distribution styles) ->
  In (fst kv) styles /\
  snd kv = Qmake (hundredths (List.length styles)
                    (count_occ string_dec styles (fst kv))) 100.
Proof.
  rewrite calc_distribution_unfold. intros Hin.
  apply in_map_iff in Hin. destruct Hin as ([s c] & <- & Hin). simpl.
  assert (Hin' : In (s, c) (style_counts styles)).
  { destruct styles; [destruct Hin|].
    eapply Permutation_in; [apply sorted_by_count_perm | exact Hin]. }
  unfold style_counts in Hin'. apply in_map_iff in Hin'.
  destruct Hin' as (s' & Heq & Hs'). injection Heq as -> <-.
  split; [now apply nodup_In in Hs' | reflexivity].
Qed.

(** What a distribution assigns to a style. *)
Lemma lookup_calc_distribution (styles : list string) (s : string) :
  lookup s (calc_distribution styles) = weight_of styles s.
Proof.
  unfold weight_of.
  destruct (count_occ string_dec styles s) as [|n] eqn:Hc.
  - apply DictFacts.lookup_notin. intros Hin.
    apply (Permutation_in _ (calc_distribution_keys styles)) in Hin.
    apply nodup_In in Hin.
    apply (count_occ_In string_dec) in Hin. lia.
  - rewrite <- Hc.
    apply DictFacts.lookup_in; [apply calc_distribution_NoDup|].
    assert (Hin : In s styles) by (apply (count_occ_In string_dec); lia).
    rewrite calc_distribution_unfold.
    apply in_map_iff.
    exists (s, count_occ string_dec styles s). split; [reflexivity|].
    assert (Hsc : In (s, count_occ string_dec styles s) (style_counts styles)).
    { unfold style_counts. apply in_map_iff. exists s.
      split; [reflexivity | now apply nodup_In]. }
    destruct styles; [destruct Hin|].
    eapply Permutation_in; [apply Permutation_sym, sorted_by_count_perm|].
    exact Hsc.
Qed.

Lemma weight_of_perm (l l' : list string) (s : string) :
  Permutation l l' -> weight_of l s = weight_of l' s.
Proof.
  intros H. unfold weight_of.
  rewrite (Permutation_length H).
  now rewrite (proj1 (Permutation_count_occ string_dec l l') H s).
Qed.

End DistributionFacts.

(** ** The weights of a per-file distribution add up to about one *)

Module WeightFacts.

Import AnalyzeStyle Vocabulary.
Local Open Scope list_scope.

Lemma list_sum_cons (a : nat) (l : list nat) :
  list_sum (a :: l) = a + list_sum l.
Proof. reflexivity. Qed.

Lemma count_occ_cons_sum (x : string) (l L : list string) :
  list_sum (map (count_occ string_dec (x :: l)) L) =
  list_sum (map (count_occ string_dec l) L) + count_occ string_dec L x.
Proof.
  induction L as [|s L IH]; [reflexivity|]. cbn [map].
  rewrite !list_sum_cons, IH. cbn [count_occ].
  destruct (string_dec x s) as [->|Hne].
  - destruct (string_dec s s); [lia | contradiction].
  - destruct (string_dec s x) as [->|_]; [contradiction | lia].
Qed.

(** Every occurrence is counted under exactly one distinct style. *)
Lemma count_occ_nodup_sum (l : list string) :
  list_sum (map (count_occ string_dec l) (nodup string_dec l)) =
  List.length l.
Proof.
  induction l as [|x l IH]; [reflexivity|].
  rewrite count_occ_cons_sum.
  assert (Hone : count_occ string_dec (nodup string_dec (x :: l)) x = 1).
  { apply NoDup_count_occ'; [apply NoDup_nodup|].
    apply nodup_In. now left. }
  rewrite Hone. simpl nodup. simpl List.length.
  destruct (in_dec string_dec x l) as [Hin|Hnin]; [lia|].
  simpl. rewrite IH.
  rewrite (proj1 (count_occ_not_In string_dec l x) Hnin). lia.
Qed.

Lemma list_sum_perm (l l' : list nat) :
  Permutation l l' -> list_sum l = list_sum l'.
Proof. induction 1; simpl; lia. Qed.

Lemma sorted_counts_sum (styles : list string) :
  list_sum (map snd (sorted_by_count (style_counts styles))) =
  List.length styles.
Proof.
  rewrite (list_sum_perm _ _
             (Permutation_map snd
                (DistributionFacts.sorted_by_count_perm _))).
  unfold style_counts. rewrite map_map. simpl.
  apply count_occ_nodup_sum.
Qed.

Lemma fold_Qplus_proper (l : list Q) :
  forall a b, (a == b)%Q -> (fold_left Qplus l a == fold_left Qplus l b)%Q.
Proof.
  induction l as [|x l IH]; intros a b Hab; simpl; [exact Hab|].
  apply IH. now rewrite Hab.
Qed.

(** A sum of hundredths is the hundredths of the sum. *)
Lemma sum_hundredths (zs : list Z) :
  forall acc,
    (fold_left Qplus (map (fun z => Qmake z 100) zs) acc
     == acc + Qmake (fold_right Z.add 0%Z zs) 100)%Q.
Proof.
  induction zs as [|z zs IH]; intros acc; simpl.
  - unfold Qeq, Qplus. simpl. lia.
  - rewrite IH. unfold Qeq, Qplus. simpl. lia.
Qed.

(** The rounding errors add up to at most half a hundredth per entry. *)
Lemma hundredths_sum_bound (total : positive) (counts : list nat) :
  (Z.abs
     (2 * (Zpos total *
             fold_right Z.add 0
               (map (fun c =>
                       PyNum.round_half_even (Z.of_nat c * 100) total)
                  counts)
           - 100 * Z.of_nat (list_sum counts)))
   <= Z.of_nat (List.length counts) * Zpos total)%Z.
Proof.
  induction counts as [|c counts IH].
  - simpl. lia.
  - pose proof (RoundingFacts.round_half_even_error
                  (Z.of_nat c * 100) total) as Hc.
    cbn [map fold_right List.length].
    rewrite list_sum_cons, Nat2Z.inj_add, Nat2Z.inj_succ.
    set (z := PyNum.round_half_even (Z.of_nat c * 100) total) in *.
    set (zs := fold_right Z.add 0%Z _) in *.
    lia.
Qed.

Lemma total_weight_bound (styles : list string) :
  styles <> [] ->
  (Qabs.Qabs (total_weight (calc_distribution styles) - 1)
   <= Qmake (Z.of_nat (List.length (calc_distribution styles))) 200)%Q.
Proof.
  intros Hne.
  rewrite DistributionFacts.calc_distribution_unfold.
  destruct styles as [|s0 styles0] eqn:Hs; [contradiction|].
  rewrite <- Hs in *. clear Hne.
  set (sorted := sorted_by_count (style_counts styles)).
  set (n := List.length styles).
  assert (Hn : 0 < n) by (unfold n; rewrite Hs; simpl; lia).
  unfold total_weight, PyDict.values, PyNum.sum.
  rewrite length_map, map_map. cbn [fst snd].
  replace (map (fun x : string * nat => Qmake (hundredths n (snd x)) 100)
             sorted)
    with (map (fun z => Qmake z 100)
            (map (fun c => hundredths n c) (map snd sorted)))
    by (rewrite !map_map; reflexivity).
  rewrite sum_hundredths.
  pose proof (hundredths_sum_bound (Pos.of_nat n) (map snd sorted)) as Hb.
  unfold sorted at 2 in Hb. rewrite sorted_counts_sum in Hb.
  fold n in Hb. rewrite length_map in Hb.
  fold (hundredths n) in Hb.
  assert (Hpos : Zpos (Pos.of_nat n) = Z.of_nat n).
  { rewrite <- positive_nat_Z, Nat2Pos.id; lia. }
  rewrite Hpos in Hb.
  set (total := fold_right Z.add 0%Z _) in *.
  apply Qabs.Qabs_Qle_condition.
  unfold Qle, Qplus, Qminus, Qopp. simpl.
  split; nia.
Qed.

End WeightFacts.

(** ** The naming merge *)

Module MergeFacts.

Import AnalyzeStyle AnalyzeProject Vocabulary.
Local Open Scope list_scope.

(** One dictionary with distinct keys is gathered entry by entry. *)
Lemma gather_fresh (d : sdict Q) :
  NoDup (PyDict.keys d) ->
  forall acc,
    (forall k, In k (PyDict.keys d) -> ~ In k (PyDict.keys acc)) ->
    fold_left append_value d acc =
      acc ++ map (fun kv => (fst kv, [snd kv])) d.
Proof.
  induction d as [|[k v] d IH]; intros Hnd acc Hfresh; simpl.
  - now rewrite app_nil_r.
  - inversion Hnd as [|? ? Hk Hnd']; subst.
    unfold append_value at 2. simpl.
    assert (Hkacc : ~ In k (PyDict.keys acc)) by (apply Hfresh; now left).
    change (PyDict.get String.eqb k acc) with (lookup k acc).
    rewrite (DictFacts.lookup_notin _ _ Hkacc),
      (DictFacts.set_notin _ _ _ Hkacc).
    rewrite IH; [now rewrite <- app_assoc | exact Hnd' |].
    intros k' Hk' Hin. unfold PyDict.keys in Hin.
    rewrite map_app in Hin. apply in_app_or in Hin.
    destruct Hin as [Hin|[<-|[]]].
    + apply (Hfresh k'); [now right | exact Hin].
    + now apply Hk.
Qed.

(** A one-element average of two-place weights gives the weights back. *)
Lemma merge_dicts_single (d : sdict Q) :
  NoDup (PyDict.keys d) ->
  (forall kv, In kv d -> exists z, snd kv = Qmake z 100) ->
  merge_dicts [d] = d.
Proof.
  intros Hnd Hz. unfold merge_dicts, gather. simpl.
  rewrite (gather_fresh d Hnd []) by (intros k _ []).
  simpl. rewrite map_map. simpl.
  rewrite <- (map_id d) at 2. apply map_ext_in.
  intros [k v] Hin. destruct (Hz _ Hin) as (z & Hv). simpl in *. subst v.
  unfold average. simpl List.length.
  now rewrite RoundingFacts.round_two_fixed.
Qed.

Lemma merge_role_single (role : NamingPatterns -> sdict Q)
    (p : NamingPatterns) :
  NoDup (PyDict.keys (role p)) ->
  (forall kv, In kv (role p) -> exists z, snd kv = Qmake z 100) ->
  merge_role role [p] = role p.
Proof.
  intros Hnd Hz. unfold merge_role, observed. simpl.
  destruct (role p) as [|kv d] eqn:E; [reflexivity|].
  now apply merge_dicts_single.
Qed.

Lemma merge_calc_distribution (role : NamingPatterns -> sdict Q)
    (p : NamingPatterns) (styles : list string) :
  role p = calc_distribution styles -> merge_role role [p] = role p.
Proof.
  intros E. apply merge_role_single; rewrite E.
  - apply DistributionFacts.calc_distribution_NoDup.
  - intros kv Hin.
    destruct (DistributionFacts.calc_distribution_entries _ _ Hin) as [_ Hv].
    eexists. exact Hv.
Qed.

Lemma merge_naming_distributions (st : NamingStyles) :
  merge_naming_patterns [distributions st] = distributions st.
Proof.
  unfold merge_naming_patterns.
  rewrite (merge_calc_distribution variables _ (var_styles st)),
    (merge_calc_distribution functions _ (func_styles st)),
    (merge_calc_distribution classes _ (class_styles st)),
    (merge_calc_distribution constants _ (const_styles st)),
    (merge_calc_distribution private_vars _ (private_styles st));
    reflexivity.
Qed.

Lemma merge_naming_default :
  merge_naming_patterns [NamingPatterns_default] = NamingPatterns_default.
Proof. reflexivity. Qed.

(** *** Signs *)

Lemma sum_nonneg (vs : list Q) :
  forall acc, (0 <= acc)%Q -> nonneg_values vs ->
    (0 <= fold_left Qplus vs acc)%Q.
Proof.
  induction vs as [|v vs IH]; intros acc Hacc Hvs; simpl; [exact Hacc|].
  inversion Hvs; subst. apply IH; [|assumption].
  setoid_replace 0%Q with (0 + 0)%Q by reflexivity.
  apply Qplus_le_compat; assumption.
Qed.

Lemma average_nonneg (vs : list Q) :
  nonneg_values vs -> (0 <= average vs)%Q.
Proof.
  intros Hvs. unfold average. apply RoundingFacts.round_two_nonneg.
  unfold PyNum.div_len, Qdiv. apply Qmult_le_0_compat.
  - apply sum_nonneg; [apply Qle_refl | exact Hvs].
  - apply Qinv_le_0_compat. unfold Qle. simpl. lia.
Qed.

Lemma set_values {V : Type} (P : V -> Prop) (k : string) (v : V)
    (d : sdict V) :
  Forall (fun kv => P (snd kv)) d -> P v ->
  Forall (fun kv => P (snd kv)) (PyDict.set String.eqb k v d).
Proof.
  intros Hd Hv. induction d as [|[k' v'] d IH]; simpl.
  - now constructor.
  - inversion Hd; subst. destruct (String.eqb k k'); constructor; auto.
Qed.

Lemma get_values {V : Type} (P : V -> Prop) (k : string) (v : V)
    (d : sdict V) :
  Forall (fun kv => P (snd kv)) d -> PyDict.get String.eqb k d = Some v ->
  P v.
Proof.
  induction d as [|[k' v'] d IH]; simpl; [discriminate|].
  intros Hd. inversion Hd; subst.
  destruct (String.eqb k k'); [intros [= <-]; assumption | now apply IH].
Qed.

Lemma append_value_nonneg (result : sdict (list Q)) (kv : string * Q) :
  Forall (fun e => nonneg_values (snd e)) result -> (0 <= snd kv)%Q ->
  Forall (fun e => nonneg_values (snd e)) (append_value result kv).
Proof.
  intros Hr Hkv. unfold append_value.
  destruct (PyDict.get String.eqb (fst kv) result) as [vs|] eqn:E.
  - apply set_values; [exact Hr|].
    apply Forall_app. split; [|now repeat constructor].
    exact (get_values nonneg_values _ _ _ Hr E).
  - apply set_values; [exact Hr | now repeat constructor].
Qed.

Lemma gather_nonneg (dicts : list (sdict Q)) :
  Forall (fun d => nonneg_values (PyDict.values d)) dicts ->
  Forall (fun e => nonneg_values (snd e)) (gather dicts).
Proof.
  unfold gather.
  assert (Hgen : forall acc,
             Forall (fun e => nonneg_values (snd e)) acc ->
             Forall (fun d => nonneg_values (PyDict.values d)) dicts ->
             Forall (fun e => nonneg_values (snd e))
               (fold_left (fun result d => fold_left append_value d result)
                  dicts acc)).
  { induction dicts as [|d dicts IH]; intros acc Hacc Hd; simpl; [exact Hacc|].
    inversion Hd as [|? ? Hd1 Hd2]; subst. apply IH; [|exact Hd2].
    clear IH Hd Hd2. revert acc Hacc.
    induction d as [|kv d IHd]; intros acc Hacc; simpl; [exact Hacc|].
    unfold nonneg_values, PyDict.values in Hd1. simpl in Hd1.
    inversion Hd1; subst.
    apply IHd; [assumption|]. now apply append_value_nonneg. }
  intros H. apply Hgen; [constructor | exact H].
Qed.

Lemma merge_dicts_nonneg (dicts : list (sdict Q)) :
  Forall (fun d => nonneg_values (PyDict.values d)) dicts ->
  nonneg_values (PyDict.values (merge_dicts dicts)).
Proof.
  intros H. apply gather_nonneg in H.
  unfold merge_dicts, nonneg_values, PyDict.values. rewrite map_map. simpl.
  apply Forall_map. eapply Forall_impl; [|exact H].
  intros e He. now apply average_nonneg.
Qed.

Lemma calc_distribution_nonneg (styles : list string) :
  nonneg_values (PyDict.values (calc_distribution styles)).
Proof.
  unfold nonneg_values, PyDict.values. apply Forall_map, Forall_forall.
  intros kv Hin.
  destruct (DistributionFacts.calc_distribution_entries _ _ Hin) as [_ ->].
  unfold Qle. simpl. rewrite Z.mul_1_r.
  apply RoundingFacts.round_half_even_nonneg. lia.
Qed.

End MergeFacts.

(** ** The indentation width *)

Module FormattingFacts.

Import AnalyzeStyle Vocabulary.
Local Open Scope list_scope.

Lemma scan_line_indentations (acc : IndentScan) (line : string) :
  indentations (scan_line acc line) =
    indentations acc ++
    filter (fun n => 0 <? n)
      (map indent_of (filter PyStr.strip_nonempty [line])).
Proof.
  unfold scan_line. simpl.
  destruct (PyStr.strip_nonempty line); simpl; [|now rewrite app_nil_r].
  fold (indent_of line).
  destruct (0 <? indent_of line); simpl; [reflexivity | now rewrite app_nil_r].
Qed.

Lemma scan_lines_indentations (lines : list string) :
  forall acc,
    indentations (fold_left scan_line lines acc) =
      indentations acc ++
      filter (fun n => 0 <? n)
        (map indent_of (filter PyStr.strip_nonempty lines)).
Proof.
  induction lines as [|line lines IH]; intros acc; simpl fold_left.
  - simpl. now rewrite app_nil_r.
  - rewrite IH, scan_line_indentations, <- app_assoc. f_equal.
    change (line :: lines) with ([line] ++ lines).
    now rewrite filter_app, map_app, filter_app.
Qed.

(** The scanner's list of indents is the list of observed indents. *)
Lemma indentations_observed (content : string) :
  indentations (scan_lines (PyStr.split newline content)) =
    observed_indents content.
Proof. apply (scan_lines_indentations _ (mk_IndentScan [] 0 0)). Qed.

Lemma fold_gcd_divides (l : list nat) :
  forall a,
    Nat.divide (fold_left Nat.gcd l a) a
    /\ forall n, In n l -> Nat.divide (fold_left Nat.gcd l a) n.
Proof.
  induction l as [|x l IH]; intros a; simpl.
  - split; [apply Nat.divide_refl | intros n []].
  - destruct (IH (Nat.gcd a x)) as [Ha Hl]. split.
    + eapply Nat.divide_trans; [exact Ha | apply Nat.gcd_divide_l].
    + intros n [<-|Hin]; [|now apply Hl].
      eapply Nat.divide_trans; [exact Ha | apply Nat.gcd_divide_r].
Qed.

Lemma fold_gcd_greatest (l : list nat) :
  forall a d,
    Nat.divide d a -> (forall n, In n l -> Nat.divide d n) ->
    Nat.divide d (fold_left Nat.gcd l a).
Proof.
  induction l as [|x l IH]; intros a d Ha Hl; simpl; [exact Ha|].
  apply IH.
  - apply Nat.gcd_greatest; [exact Ha | apply Hl; now left].
  - intros n Hin. apply Hl. now right.
Qed.

(** With one distinct indent the code takes the first indent, which is
    that one, and this is also what [math.gcd] of the set would give. *)
Lemma indent_size_of_gcd (indents : list nat) :
  indent_size_of indents = PyNum.gcd (distinct indents).
Proof.
  unfold indent_size_of. destruct indents as [|first rest]; [reflexivity|].
  destruct (1 <? List.length (distinct (first :: rest))) eqn:E;
    [reflexivity|].
  apply Nat.ltb_ge in E.
  assert (Hin : In first (distinct (first :: rest)))
    by (apply nodup_In; now left).
  destruct (distinct (first :: rest)) as [|x [|y l]];
    [destruct Hin | | simpl in E; lia].
  destruct Hin as [->|[]]. reflexivity.
Qed.

Lemma indent_size_of_divides (indents : list nat) (n : nat) :
  In n indents -> Nat.divide (indent_size_of indents) n.
Proof.
  intros Hin. rewrite indent_size_of_gcd.
  apply (fold_gcd_divides (distinct indents) 0). now apply nodup_In.
Qed.

Lemma indent_size_of_greatest (indents : list nat) (d : nat) :
  (forall n, In n indents -> Nat.divide d n) ->
  Nat.divide d (indent_size_of indents).
Proof.
  intros Hd. rewrite indent_size_of_gcd.
  apply fold_gcd_greatest; [apply Nat.divide_0_r|].
  intros n Hin. apply Hd. now apply nodup_In in Hin.
Qed.

End FormattingFacts.

(** ** Grouping by language *)

Module ProjectFacts.

Import AnalyzeStyle AnalyzeProject Vocabulary.
Local Open Scope list_scope.

Section Parser.

Variable parse : string -> parse_outcome.

Lemma analyze_file_language (f : File) (report : StyleReport) :
  analyze_file parse f = Some report ->
  language report = detect_language (path f).
Proof.
  unfold analyze_file. destruct (text f) as [content|]; [|discriminate].
  destruct (String.eqb _ "python").
  - destruct (analyze_naming_python parse content); [|discriminate].
    destruct (analyze_patterns_python parse content); [|discriminate].
    now intros [= <-].
  - now intros [= <-].
Qed.

Lemma get_keyed {V : Type} (g : string -> V) (k : string)
    (keys : list string) :
  PyDict.get String.eqb k (keyed g keys) =
    if existsb (String.eqb k) keys then Some (g k) else None.
Proof.
  induction keys as [|k0 keys IH]; [reflexivity|]. simpl.
  destruct (String.eqb_spec k k0) as [->|_]; [reflexivity | exact IH].
Qed.

Lemma set_keyed {V : Type} (g : string -> V) (k : string) (v : V)
    (keys : list string) :
  NoDup keys -> In k keys ->
  PyDict.set String.eqb k v (keyed g keys) =
    keyed (fun l => if String.eqb l k then v else g l) keys.
Proof.
  induction keys as [|k0 keys IH]; intros Hnd Hin; [destruct Hin|].
  inversion Hnd as [|? ? Hk0 Hnd']; subst. simpl.
  destruct (String.eqb_spec k k0) as [->|Hne].
  - rewrite String.eqb_refl. f_equal. apply map_ext_in.
    intros l Hl. destruct (String.eqb_spec l k0) as [->|_];
      [contradiction | reflexivity].
  - destruct (String.eqb_spec k0 k) as [->|_]; [contradiction|].
    f_equal. apply IH; [exact Hnd'|].
    destruct Hin as [->|Hin]; [contradiction | exact Hin].
Qed.

Lemma language_keys_NoDup : NoDup language_keys.
Proof.
  unfold language_keys.
  repeat (constructor;
          [simpl; intros H;
           repeat (destruct H as [H|H]; [discriminate H|]); exact H|]).
  constructor.
Qed.

Lemma existsb_eqb_In (k : string) (keys : list string) :
  existsb (String.eqb k) keys = true <-> In k keys.
Proof.
  rewrite existsb_exists. split.
  - intros (x & Hin & Heq). apply String.eqb_eq in Heq. now subst.
  - intros Hin. exists k. split; [exact Hin | apply String.eqb_refl].
Qed.

Lemma add_file_keyed (g : string -> list StyleReport) (f : File) :
  add_file parse (keyed g language_keys) f =
    keyed (fun l => g l ++ contribution parse l f) language_keys.
Proof.
  unfold add_file, contribution.
  destruct (analyze_file parse f) as [report|].
  - rewrite get_keyed.
    destruct (existsb (String.eqb (language report)) language_keys) eqn:E.
    + apply existsb_eqb_In in E.
      rewrite (set_keyed _ _ _ _ language_keys_NoDup E).
      apply map_ext. intros l.
      rewrite (String.eqb_sym l).
      destruct (String.eqb (language report) l) eqn:El;
        [|now rewrite app_nil_r].
      apply String.eqb_eq in El. now subst.
    + apply map_ext_in. intros l Hl.
      destruct (String.eqb_spec (language report) l) as [Heq|_];
        [|now rewrite app_nil_r].
      exfalso. apply existsb_eqb_In in Hl. rewrite <- Heq in Hl. congruence.
  - apply map_ext. intros l. now rewrite app_nil_r.
Qed.

Lemma reports_in_cons (lang : string) (f : File) (files : list File) :
  reports_in parse lang (f :: files) =
    contribution parse lang f ++ reports_in parse lang files.
Proof. reflexivity. Qed.

Lemma reports_in_app (lang : string) (l1 l2 : list File) :
  reports_in parse lang (l1 ++ l2) =
    reports_in parse lang l1 ++ reports_in parse lang l2.
Proof. apply flat_map_app. Qed.

Lemma fold_add_file (files : list File) :
  forall g,
    fold_left (add_file parse) files (keyed g language_keys) =
      keyed (fun l => g l ++ reports_in parse l files) language_keys.
Proof.
  induction files as [|f files IH]; intros g; cbn [fold_left].
  - unfold keyed. apply map_ext. intros l. now rewrite app_nil_r.
  - rewrite add_file_keyed, IH. unfold keyed. apply map_ext. intros l.
    now rewrite reports_in_cons, app_assoc.
Qed.

(** Each group holds the reports of its language, in file order. *)
Lemma group_reports_keyed (files : list File) :
  group_reports parse files =
    keyed (fun l => reports_in parse l files) language_keys.
Proof. apply (fold_add_file files (fun _ => [])). Qed.

Lemma summarize_keyed (reports : list StyleReport) (lang : string) :
  summarize (lang, reports) =
    match reports with
    | [] => []
    | _ => [(lang, summary_of reports)]
    end.
Proof. destruct reports; reflexivity. Qed.

Lemma lookup_aggregate (g : string -> list StyleReport) (k : string)
    (keys : list string) :
  lookup k (aggregate (keyed g keys)) =
    if existsb (String.eqb k) keys
    then match g k with
         | [] => None
         | _ => Some (summary_of (g k))
         end
    else None.
Proof.
  unfold aggregate, lookup.
  induction keys as [|k0 keys IH]; [reflexivity|].
  simpl flat_map. rewrite summarize_keyed. simpl existsb.
  destruct (String.eqb_spec k k0) as [->|Hne]; simpl.
  - destruct (g k0) eqn:E.
    + simpl. rewrite IH.
      destruct (existsb (String.eqb k0) keys); reflexivity.
    + simpl. now rewrite String.eqb_refl.
  - destruct (g k0); simpl; [exact IH|].
    destruct (String.eqb_spec k k0); [contradiction | exact IH].
Qed.

Lemma aggregate_keys (g : string -> list StyleReport) (k : string)
    (keys : list string) :
  In k (PyDict.keys (aggregate (keyed g keys))) -> In k keys.
Proof.
  unfold aggregate, PyDict.keys.
  induction keys as [|k0 keys IH]; [intros []|].
  simpl flat_map. rewrite summarize_keyed, map_app. intros Hin.
  apply in_app_or in Hin. destruct Hin as [Hin|Hin]; [|right; now apply IH].
  left. destruct (g k0); [destruct Hin|]. now destruct Hin as [<-|[]].
Qed.

(** A file that is not groupable adds to no group. *)
Lemma contribution_ungroupable (lang : string) (f : File) :
  In lang language_keys -> groupable f = false ->
  contribution parse lang f = [].
Proof.
  intros Hlang Hg. unfold contribution.
  destruct (analyze_file parse f) as [report|] eqn:E; [|reflexivity].
  rewrite (analyze_file_language _ _ E).
  destruct (String.eqb_spec (detect_language (path f)) lang) as [Heq|_];
    [|reflexivity].
  exfalso. unfold groupable in Hg. rewrite Heq in Hg.
  simpl in Hlang.
  repeat (destruct Hlang as [<-|Hlang]; [discriminate Hg|]).
  exact Hlang.
Qed.

Lemma reports_in_groupable (lang : string) (files : list File) :
  In lang language_keys ->
  reports_in parse lang (filter groupable files) =
    reports_in parse lang files.
Proof.
  intros Hlang. induction files as [|f files IH]; [reflexivity|].
  simpl filter. rewrite reports_in_cons.
  destruct (groupable f) eqn:E.
  - now rewrite reports_in_cons, IH.
  - now rewrite (contribution_ungroupable _ _ Hlang E), IH.
Qed.

Lemma aggregate_groupable (files : list File) :
  aggregate (group_reports parse (filter groupable files)) =
    aggregate (group_reports parse files).
Proof.
  rewrite !group_reports_keyed. f_equal. apply map_ext_in.
  intros l Hl. now rewrite reports_in_groupable.
Qed.

End Parser.

(** Dropping the empty distributions of a report drops nothing the merge
    looks at. *)
Lemma observed_default (role : NamingPatterns -> sdict Q)
    (l1 l2 : list NamingPatterns) (p : NamingPatterns) :
  role p = [] -> observed role (l1 ++ p :: l2) = observed role (l1 ++ l2).
Proof.
  intros E. unfold observed.
  rewrite !map_app, !filter_app. simpl. now rewrite E.
Qed.

Lemma merge_naming_skips_default (l1 l2 : list NamingPatterns) :
  merge_naming_patterns (l1 ++ NamingPatterns_default :: l2) =
    merge_naming_patterns (l1 ++ l2).
Proof.
  unfold merge_naming_patterns, merge_role.
  now rewrite !observed_default by reflexivity.
Qed.

Lemma merge_formatting_trailing (patterns : list FormattingPatterns) :
  trailing_newline (merge_formatting_patterns patterns) =
    forallb trailing_newline patterns.
Proof. destruct patterns; reflexivity. Qed.

End ProjectFacts.

(** ** The naming classifier *)

Module ClassifierProperties.

Import Ast AnalyzeStyle Vocabulary Examples.
Local Open Scope list_scope.

Lemma interior_upper (name : string) :
  PyStr.head_islower name = true ->
  PyStr.existsb PyStr.char_isupper (PyStr.tail name) =
    PyStr.existsb PyStr.char_isupper name.
Proof.
  destruct name as [|c r]; [discriminate|]. cbn [PyStr.head_islower].
  intros Hc. cbn [PyStr.tail PyStr.existsb].
  assert (Hup : PyStr.char_isupper c = false).
  { unfold PyStr.char_islower, PyStr.char_isupper in *.
    apply andb_true_iff in Hc. destruct Hc as [Hc _].
    apply Nat.leb_le in Hc. apply andb_false_iff. right.
    apply Nat.leb_gt. lia. }
  now rewrite Hup.
Qed.

Lemma detect_naming_style_rules (name : string) :
  detect_naming_style name = classify_by_rules name.
Proof.
  destruct name as [|c r]; [reflexivity|].
  unfold detect_naming_style, classify_by_rules, naming_rules.
  cbn [first_match String.eqb].
  set (name := String c r).
  destruct (PyStr.isupper name && PyStr.contains "_" name); [reflexivity|].
  destruct (PyStr.islower name && PyStr.contains "_" name); [reflexivity|].
  destruct (PyStr.head_isupper name && negb (PyStr.contains "_" name));
    [reflexivity|].
  destruct (PyStr.head_islower name) eqn:Hlow.
  - now rewrite (interior_upper name Hlow).
  - reflexivity.
Qed.

Lemma first_match_split (name : string)
    (before after : list ((string -> bool) * string))
    (test : string -> bool) (tag : string) :
  Forall (fun rule => fst rule name = false) before ->
  test name = true ->
  first_match (before ++ (test, tag) :: after) name = tag.
Proof.
  intros Hbefore Htest.
  induction Hbefore as [|[test' tag'] before Hrule _ IH];
    cbn [app first_match].
  - now rewrite Htest.
  - cbn [fst] in Hrule. now rewrite Hrule.
Qed.

Lemma first_match_none (name : string)
    (rules : list ((string -> bool) * string)) :
  Forall (fun rule => fst rule name = false) rules ->
  first_match rules name = "other".
Proof.
  intros Hrules.
  induction Hrules as [|[test tag] rules Hrule _ IH]; [reflexivity|].
  cbn [first_match]. cbn [fst] in Hrule. now rewrite Hrule.
Qed.

(** C6.  The classifier is the first-match-wins reading of the five rules
    in their stated order: it gives the empty name [unknown] and any other
    name the tag of the first rule that holds of it, whatever later rules
    hold as well, and [other] when no rule holds.  So every name that is
    all uppercase and contains an underscore is classified
    [UPPER_SNAKE_CASE], and so never [PascalCase], whatever its first
    character; and where the marker rule, the last one, holds together
    with an earlier rule, the earlier rule gives the tag. *)
Theorem classifier_first_match_wins :
  (forall name, detect_naming_style name = classify_by_rules name)
  /\ (forall name before test tag after,
        name <> EmptyString ->
        naming_rules = before ++ (test, tag) :: after ->
        Forall (fun rule => fst rule name = false) before ->
        test name = true ->
        detect_naming_style name = tag)
  /\ (forall name,
        name <> EmptyString ->
        Forall (fun rule => fst rule name = false) naming_rules ->
        detect_naming_style name = "other")
  /\ (forall name,
        PyStr.isupper name = true ->
        PyStr.contains "_" name = true ->
        detect_naming_style name = "UPPER_SNAKE_CASE"
        /\ detect_naming_style name <> "PascalCase")
  /\ (forall name,
        PyStr.startswith "_" name = true ->
        (PyStr.isupper name = true ->
         detect_naming_style name = "UPPER_SNAKE_CASE")
        /\ (PyStr.islower name = true ->
            detect_naming_style name = "snake_case")).
Proof.
  split; [exact detect_naming_style_rules|].
  split.
  { intros name before test tag after Hne Hrules Hbefore Htest.
    rewrite detect_naming_style_rules. unfold classify_by_rules.
    destruct name; [contradiction|]. rewrite Hrules.
    now apply first_match_split. }
  split.
  { intros name Hne Hrules.
    rewrite detect_naming_style_rules. unfold classify_by_rules.
    destruct name; [contradiction|].
    now apply first_match_none. }
  split.
  { intros name Hup Hsep.
    assert (H : detect_naming_style name = "UPPER_SNAKE_CASE").
    { unfold detect_naming_style.
      rewrite (ClassifierFacts.nonempty_eqb _
                 (ClassifierFacts.contains_nonempty _ _ Hsep)).
      now rewrite Hup, Hsep. }
    split; [exact H | rewrite H; discriminate]. }
  intros name Hmark.
  rewrite (ClassifierFacts.detect_naming_style_marked name Hmark).
  split; intros H.
  - now rewrite H.
  - destruct (PyStr.isupper name) eqn:Hup; [|now rewrite H].
    rewrite (ClassifierFacts.isupper_not_islower name Hup) in H.
    discriminate H.
Qed.

(** ["MY_CONST"] starts with an uppercase letter and is still classified
    [UPPER_SNAKE_CASE], by the first rule. *)
Lemma classifier_first_match_wins_MY_CONST :
  PyStr.head_isupper "MY_CONST" = true
  /\ detect_naming_style "MY_CONST" = "UPPER_SNAKE_CASE"
  /\ detect_naming_style "MY_CONST" <> "PascalCase".
Proof.
  split; [reflexivity|].
  apply (proj1 (proj2 (proj2 (proj2 classifier_first_match_wins)))
           "MY_CONST"); reflexivity.
Defined.

(** C2 as stated fails twice.  ["_helper"] starts with the marker and is
    classified [snake_case], the all-lowercase rule coming before the
    marker rule.  And in a tree with the asynchronous function [_fetch],
    the class [_Base], the parameter [_unused], the annotated assignment
    to [_count] and the augmented assignment to [_total], no underlying
    style is recorded at all. *)
Lemma leading_underscore_not_always_private :
  PyStr.startswith "_" "_helper" = true
  /\ detect_naming_style "_helper" = "snake_case"
  /\ ~ (forall name, PyStr.startswith "_" name = true ->
                     detect_naming_style name = "_private")
  /\ Forall (fun name => PyStr.startswith "_" name = true)
       ["_fetch"; "_Base"; "_unused"; "_count"; "_total"]
  /\ private_styles (collect_styles tree_unmarked) = []
  /\ private_vars (distributions (collect_styles tree_unmarked)) = [].
Proof.
  split; [reflexivity|]. split; [reflexivity|].
  split.
  { intros H. specialize (H "_helper" eq_refl). discriminate H. }
  split; [repeat constructor|]. split; reflexivity.
Qed.

(** C2, amended.  A name that starts with an underscore is classified
    [UPPER_SNAKE_CASE] when it is all uppercase, [snake_case] when it is
    all lowercase and [_private] otherwise.  The styles collected for
    [private_vars] are exactly the styles, taken without the first
    character, of the names starting with an underscore that are the name
    of an [ast.FunctionDef] node or an [ast.Name] target of an
    [ast.Assign] node of the tree; so wherever the name is one of these,
    its underlying style is collected and has a weight in
    [private_vars]. *)
Theorem marked_name_classification (name : string) :
  PyStr.startswith "_" name = true ->
  detect_naming_style name =
    (if PyStr.isupper name then "UPPER_SNAKE_CASE"
     else if PyStr.islower name then "snake_case"
     else "_private")
  /\ forall tree,
       (forall style,
          In style (private_styles (collect_styles tree)) <->
          exists marked,
            PyStr.startswith "_" marked = true
            /\ defined_or_assigned tree marked
            /\ style = detect_naming_style (PyStr.tail marked))
       /\ (defined_or_assigned tree name ->
           In (detect_naming_style (PyStr.tail name))
              (private_styles (collect_styles tree))
           /\ lookup (detect_naming_style (PyStr.tail name))
                (private_vars (distributions (collect_styles tree)))
              <> None).
Proof.
  intros Hmark. split; [now apply ClassifierFacts.detect_naming_style_marked|].
  intros tree.
  destruct (NamingFacts.collect_styles_tree tree) as (_ & _ & Hp).
  assert (Hiff : forall style,
             In style (private_styles (collect_styles tree)) <->
             exists marked,
               PyStr.startswith "_" marked = true
               /\ defined_or_assigned tree marked
               /\ style = detect_naming_style (PyStr.tail marked)).
  { intros style. split.
    - intros Hin. apply (Permutation_in _ Hp) in Hin.
      apply in_map_iff in Hin. destruct Hin as (marked & <- & Hin).
      apply filter_In in Hin. destruct Hin as [Hin Hm].
      exists marked. split; [exact Hm|].
      split; [now apply NamingFacts.marked_names_In | reflexivity].
    - intros (marked & Hm & Hin & ->).
      apply (Permutation_in _ (Permutation_sym Hp)).
      change (In (underlying marked)
                (map underlying
                   (filter (PyStr.startswith "_")
                      (flat_map marked_names (nodes_of tree))))).
      apply in_map, filter_In. split; [|exact Hm].
      now apply NamingFacts.marked_names_In. }
  split; [exact Hiff|].
  intros Hname.
  assert (Hin : In (detect_naming_style (PyStr.tail name))
                  (private_styles (collect_styles tree))).
  { apply Hiff. exists name. now repeat split. }
  split; [exact Hin|].
  unfold distributions. simpl.
  rewrite DistributionFacts.lookup_calc_distribution. unfold weight_of.
  apply (count_occ_In string_dec) in Hin.
  destruct (count_occ string_dec _ _); [lia | discriminate].
Qed.

(** For the method [_helper] of the sample tree: the name is classified
    [snake_case], and [other], the style of ["helper"], is recorded. *)
Lemma marked_name_classification_helper :
  detect_naming_style "_helper" = "snake_case"
  /\ detect_naming_style "helper" = "other"
  /\ In "other" (private_styles (collect_styles tree_sample)).
Proof.
  destruct (marked_name_classification "_helper" eq_refl) as [Hc Hw].
  split; [exact Hc|]. split; [reflexivity|].
  refine (proj1 (proj2 (Hw tree_sample) _)).
  left.
  exists (mk_arguments []
            [mk_arg "self" None; mk_arg "maxLen" (Some (Name "int"))]
            None [] None),
    [Expr (Constant (ConstStr "Load one item."));
     Assign [Name "MY_CONST"] (Constant ConstOther);
     OtherStmt [Assign [Name "_cache"; OtherExpr] OtherExpr]],
    None.
  simpl. right. now left.
Defined.

End ClassifierProperties.

(** ** Distributions and their merge *)

Module MergeProperties.

Import Ast AnalyzeStyle AnalyzeProject Vocabulary Examples.
Local Open Scope list_scope.

(** C1, on the two-file project of the specification.  One file has only
    [snake_case] functions, the other only [camelCase] ones; each weight
    is averaged over the files that have the style, not over the files that
    have functions, so both merged weights are 1 and neither is 0.5. *)
Theorem two_file_merge_evaluates :
  let file_a := distributions (collect_styles tree_snake) in
  let file_b := distributions (collect_styles tree_camel) in
  let merged := functions (merge_naming_patterns [file_a; file_b]) in
  functions file_a = [("snake_case", Qmake 100 100)]
  /\ functions file_b = [("camelCase", Qmake 100 100)]
  /\ merged = [("snake_case", Qmake 100 100); ("camelCase", Qmake 100 100)]
  /\ (total_weight merged == 2)%Q
  /\ ~ (exists w, lookup "snake_case" merged = Some w /\ (w == 1 # 2)%Q).
Proof.
  cbv zeta. repeat split; try reflexivity.
  intros (w & Hw & Heq). vm_compute in Hw. injection Hw as <-.
  discriminate Heq.
Qed.

(** C3 as stated fails: three functions in three styles weigh 0.33 each,
    and 0.99 is further from 1 than the tolerance. *)
Lemma three_styles_sum_short :
  let d := functions (distributions (collect_styles tree_three)) in
  d = [("snake_case", Qmake 33 100); ("camelCase", Qmake 33 100);
       ("PascalCase", Qmake 33 100)]
  /\ (total_weight d == 99 # 100)%Q
  /\ ~ (Qabs (total_weight d - 1) <= 1 # 1000000)%Q.
Proof.
  cbv zeta. split; [reflexivity|]. split; [reflexivity|].
  intros H. vm_compute in H. apply H. reflexivity.
Qed.

(** C3, amended.  The weights of a distribution computed for one file from
    a non-empty list of styles are not negative, and their sum is within
    half a hundredth per entry of 1; the weights of a merge of such
    distributions are not negative. *)
Theorem distribution_weights (styles : list string)
    (files : list (list string)) :
  styles <> [] ->
  let d := calc_distribution styles in
  d <> []
  /\ nonneg_values (PyDict.values d)
  /\ (Qabs (total_weight d - 1) <= Qmake (Z.of_nat (List.length d)) 200)%Q
  /\ nonneg_values (PyDict.values (merge_dicts (map calc_distribution files))).
Proof.
  intros Hne. cbv zeta. repeat split.
  - intros E. destruct styles as [|s styles]; [contradiction|].
    assert (Hin : In s (PyDict.keys (calc_distribution (s :: styles)))).
    { apply (Permutation_in _
               (Permutation_sym
                  (DistributionFacts.calc_distribution_keys _))).
      apply nodup_In. now left. }
    rewrite E in Hin. destruct Hin.
  - apply MergeFacts.calc_distribution_nonneg.
  - now apply WeightFacts.total_weight_bound.
  - apply MergeFacts.merge_dicts_nonneg, Forall_map, Forall_forall.
    intros l _. apply MergeFacts.calc_distribution_nonneg.
Qed.

(** With three styles the sum is 0.99, within 0.015 of 1. *)
Lemma distribution_weights_three :
  let d := calc_distribution ["snake_case"; "camelCase"; "PascalCase"] in
  (total_weight d == 99 # 100)%Q
  /\ (Qabs (total_weight d - 1) <= 3 # 200)%Q.
Proof.
  cbv zeta. split; [reflexivity|].
  exact (proj1 (proj2 (proj2
           (distribution_weights ["snake_case"; "camelCase"; "PascalCase"] []
              ltac:(discriminate))))).
Defined.

End MergeProperties.

(** ** The formatting scanner *)

Module FormattingProperties.

Import AnalyzeStyle Vocabulary Examples.
Local Open Scope list_scope.

(** C7.  The indentation width the scanner reports is the greatest common
    divisor of the distinct nonzero indents observed in the text: it
    divides every observed indent and every common divisor divides it; it
    is the indent itself when only one distinct indent occurs; and it is 4
    for every text whose indents are exactly 4, 8 and 12. *)
Theorem indentation_width_is_gcd (content : string) :
  let width := indentation_size (analyze_formatting content) in
  let indents := observed_indents content in
  width = PyNum.gcd (distinct indents)
  /\ (forall n, In n indents -> Nat.divide width n)
  /\ (forall d, (forall n, In n indents -> Nat.divide d n) ->
                Nat.divide d width)
  /\ (forall v, distinct indents = [v] -> width = v)
  /\ ((forall n, In n indents <-> n = 4 \/ n = 8 \/ n = 12) -> width = 4).
Proof.
  cbv zeta. unfold analyze_formatting. cbn [indentation_size].
  rewrite FormattingFacts.indentations_observed.
  set (indents := observed_indents content).
  split; [apply FormattingFacts.indent_size_of_gcd|].
  split; [apply FormattingFacts.indent_size_of_divides|].
  split; [apply FormattingFacts.indent_size_of_greatest|].
  split.
  - intros v Hv. rewrite FormattingFacts.indent_size_of_gcd, Hv. reflexivity.
  - intros Hset. apply Nat.divide_antisym.
    + apply FormattingFacts.indent_size_of_divides. apply Hset. now left.
    + apply FormattingFacts.indent_size_of_greatest.
      intros n Hn. apply Hset in Hn.
      destruct Hn as [-> | [-> | ->]];
        [exists 1 | exists 2 | exists 3]; reflexivity.
Qed.

(** The sample text has lines at depths 4, 8 and 12: its width is 4. *)
Lemma indentation_width_is_gcd_4_8_12 :
  observed_indents text_4_8_12 = [4; 8; 12; 4]
  /\ indentation_size (analyze_formatting text_4_8_12) = 4.
Proof.
  split; [reflexivity|].
  apply (proj2 (proj2 (proj2 (proj2
           (indentation_width_is_gcd text_4_8_12))))).
  intros n. change (observed_indents text_4_8_12) with [4; 8; 12; 4].
  simpl. split.
  - intros [<- | [<- | [<- | [<- | []]]]]; auto.
  - intros [-> | [-> | ->]]; auto.
Defined.

End FormattingProperties.

(** ** The project report *)

Module ProjectProperties.

Import Ast AnalyzeStyle AnalyzeProject Vocabulary Examples.
Local Open Scope list_scope.

(** C4 as stated fails: a project whose only file lies under
    [node_modules] has no file to analyze, and the run ends with exit
    status 1; no report is printed or saved, with or without [--output]. *)
Lemma excluded_only_project_exits :
  collect_files fs_excluded None = []
  /\ analyze_project sample_parse ["proj"] fs_excluded None = EmptyDict
  /\ (forall output writable,
        main sample_parse (Options (mk_Namespace ["proj"] output None)) true
          fs_excluded writable = SysExit 1)
  /\ ~ (exists output writable report,
          emitted (main sample_parse
                     (Options (mk_Namespace ["proj"] output None)) true
                     fs_excluded writable) = Some report
          /\ total_files report = 0).
Proof.
  repeat split; try reflexivity.
  intros (output & writable & report & H & _). discriminate H.
Qed.

(** C4, amended.  When discovery finds no file, [analyze_project] returns
    the empty dictionary and the run ends with exit status 1, so that it
    neither prints nor saves a report; and a report that any run prints or
    saves counts at least one file. *)
Theorem empty_corpus_exits (parse : string -> parse_outcome)
    (args : Namespace) (fs : Listing) (writable : string -> bool) :
  collect_files fs (parse_extensions (ns_extensions args)) = [] ->
  analyze_project parse (ns_path args) fs
    (parse_extensions (ns_extensions args)) = EmptyDict
  /\ main parse (Options args) true fs writable = SysExit 1
  /\ emitted (main parse (Options args) true fs writable) = None
  /\ forall parse' cli path_exists fs' writable' report,
       emitted (main parse' cli path_exists fs' writable') = Some report ->
       0 < total_files report.
Proof.
  intros Hnone. unfold main, analyze_project. rewrite Hnone.
  repeat split; try reflexivity.
  intros parse' cli path_exists fs' writable' report.
  destruct cli as [status|args']; [discriminate|].
  destruct path_exists; [|discriminate]. cbn [negb].
  destruct (collect_files fs' (parse_extensions (ns_extensions args')))
    as [|f files]; [discriminate|].
  destruct (ns_output args') as [[|c output]|]; cbn [emitted];
    try (intros [= <-]; simpl; lia).
  destruct (writable' (String c output)); cbn [emitted];
    [intros [= <-]; simpl; lia | discriminate].
Qed.

Lemma empty_corpus_exits_excluded :
  main sample_parse cli_proj true fs_excluded (fun _ => true) = SysExit 1.
Proof.
  exact (proj1 (proj2
           (empty_corpus_exits sample_parse (mk_Namespace ["proj"] None None)
              fs_excluded (fun _ => true) eq_refl))).
Defined.

Section Parser.

Variable parse : string -> parse_outcome.

Lemma analyze_project_report (project_path : Path) (fs : Listing)
    (extensions : option (list string)) (report : Aggregated) :
  analyze_project parse project_path fs extensions = ReportDict report ->
  total_files report = List.length (collect_files fs extensions)
  /\ languages report =
       aggregate (keyed (fun l => reports_in parse l
                                    (collect_files fs extensions))
                    language_keys).
Proof.
  unfold analyze_project.
  destruct (collect_files fs extensions) as [|f files] eqn:E;
    [discriminate|].
  intros [= <-]. simpl total_files. simpl languages.
  now rewrite ProjectFacts.group_reports_keyed.
Qed.

Lemma analyze_project_nonempty (project_path : Path) (fs : Listing)
    (extensions : option (list string)) :
  collect_files fs extensions <> [] ->
  exists report,
    analyze_project parse project_path fs extensions = ReportDict report.
Proof.
  unfold analyze_project.
  destruct (collect_files fs extensions); [contradiction|].
  intros _. eexists. reflexivity.
Qed.

Lemma analyze_file_unparsed (f : File) (content : string) :
  text f = Some content ->
  detect_language (path f) = "python" ->
  parse content = RaisesSyntaxError ->
  analyze_file parse f = Some (unparsed_report f content).
Proof.
  intros Ht Hl Hp.
  unfold analyze_file, analyze_naming_python, analyze_patterns_python.
  now rewrite Ht, Hl, Hp.
Qed.

Lemma analyze_file_raises (f : File) (content : string) :
  text f = Some content ->
  detect_language (path f) = "python" ->
  parse content = RaisesOther ->
  analyze_file parse f = None.
Proof.
  intros Ht Hl Hp.
  unfold analyze_file, analyze_naming_python, analyze_patterns_python.
  now rewrite Ht, Hl, Hp.
Qed.

Lemma group_reports_skip (before after : list File) (f : File) :
  analyze_file parse f = None ->
  group_reports parse (before ++ f :: after) =
    group_reports parse (before ++ after).
Proof.
  intros Hf. rewrite !ProjectFacts.group_reports_keyed. unfold keyed.
  apply map_ext. intros l.
  rewrite !ProjectFacts.reports_in_app, ProjectFacts.reports_in_cons.
  unfold contribution. now rewrite Hf.
Qed.

Lemma analyze_file_naming (f : File) (report : StyleReport) :
  analyze_file parse f = Some report ->
  naming report = NamingPatterns_default
  \/ exists tree, naming report = distributions (collect_styles tree).
Proof.
  unfold analyze_file. destruct (text f) as [content|]; [|discriminate].
  destruct (String.eqb _ "python").
  - unfold analyze_naming_python, analyze_patterns_python.
    destruct (parse content) as [tree| |]; intros [= <-]; simpl.
    + right. now exists tree.
    + now left.
  - intros [= <-]. now left.
Qed.

End Parser.

(** C8 as stated fails: the text of [nul.py] holds a NUL character, on
    which the parser raises an error that is not a syntax error.  The
    analysis of the file raises and leaves no report: the file is counted
    among the three files of the project, and the Python group, its
    formatting included, is the one of the two other files. *)
Lemma non_syntax_error_drops_file :
  detect_language (path file_nul) = "python"
  /\ (exists content,
        text file_nul = Some content /\ sample_parse content = RaisesOther)
  /\ analyze_file sample_parse file_nul = None
  /\ exists report summary,
       analyze_project sample_parse ["proj"]
         (listing [file_snake; file_nul; file_camel]) None = ReportDict report
       /\ total_files report = 3
       /\ languages report =
            aggregate (group_reports sample_parse [file_snake; file_camel])
       /\ lookup "python" (languages report) = Some summary
       /\ file_count summary = 2
       /\ merged_formatting summary =
            merge_formatting_patterns
              [analyze_formatting "snake"; analyze_formatting "camel"].
Proof.
  split; [reflexivity|].
  split; [eexists; split; reflexivity|].
  split; [reflexivity|].
  eexists. eexists.
  split; [reflexivity|]. split; [reflexivity|]. split; [reflexivity|].
  split; [reflexivity|]. split; reflexivity.
Qed.

(** C8, amended.  Take a Python file among the discovered files.  When the
    parser rejects its text with a syntax error, the file still gets a
    report, with its formatting profile and with empty naming and
    structural parts; in the project report the file is counted in the
    Python group; the group's formatting is merged from a list that holds
    the file's profile, so that one missing final newline makes the merged
    flag false; the group's naming is what it is without the file; and
    every other language group is what it is without the file.  When the
    parser raises another error, the analysis of the file gives no report:
    the run still produces the project report and counts the file among its
    files, and every language group, formatting included, is what it is
    without the file. *)
Theorem parse_failure_is_file_local (parse : string -> parse_outcome)
    (project_path : Path) (fs : Listing)
    (extensions : option (list string)) (before after : list File)
    (f : File) (content : string) :
  collect_files fs extensions = before ++ f :: after ->
  text f = Some content ->
  detect_language (path f) = "python" ->
  let earlier := reports_in parse "python" before in
  let later := reports_in parse "python" after in
  (parse content = RaisesSyntaxError ->
   analyze_file parse f =
     Some (mk_StyleReport (path_str (path f)) "python" NamingPatterns_default
             (analyze_formatting content) None [])
   /\ exists report summary,
        analyze_project parse project_path fs extensions = ReportDict report
        /\ total_files report = List.length before + 1 + List.length after
        /\ lookup "python" (languages report) = Some summary
        /\ file_count summary = List.length earlier + 1 + List.length later
        /\ merged_naming summary =
             merge_naming_patterns (map naming (earlier ++ later))
        /\ merged_formatting summary =
             merge_formatting_patterns
               (map formatting earlier ++
                analyze_formatting content :: map formatting later)
        /\ (trailing_newline (merged_formatting summary) = true ->
            PyStr.endswith newline content = true)
        /\ forall lang,
             lang <> "python" ->
             lookup lang (languages report) =
               lookup lang
                 (aggregate (group_reports parse (before ++ after))))
  /\ (parse content = RaisesOther ->
      analyze_file parse f = None
      /\ exists report,
           analyze_project parse project_path fs extensions
             = ReportDict report
           /\ total_files report = List.length before + 1 + List.length after
           /\ languages report =
                aggregate (group_reports parse (before ++ after))).
Proof.
  intros Hfiles Htext Hlang. cbv zeta.
  destruct (analyze_project_nonempty parse project_path fs extensions)
    as (report & Hreport).
  { rewrite Hfiles. now destruct before. }
  destruct (analyze_project_report parse _ _ _ _ Hreport) as (Htotal & Hlangs).
  rewrite Hfiles in Htotal, Hlangs.
  split; intros Hparse.
  - pose proof (analyze_file_unparsed parse f content Htext Hlang Hparse)
      as Hf.
    split; [exact Hf|].
    assert (Hpy : reports_in parse "python" (before ++ f :: after) =
                  reports_in parse "python" before ++
                  unparsed_report f content ::
                  reports_in parse "python" after).
    { rewrite ProjectFacts.reports_in_app, ProjectFacts.reports_in_cons.
      unfold contribution. now rewrite Hf. }
    exists report,
      (summary_of (reports_in parse "python" (before ++ f :: after))).
    split; [exact Hreport|].
    split; [rewrite Htotal, length_app; simpl; lia|].
    split.
    { rewrite Hlangs, ProjectFacts.lookup_aggregate. simpl existsb.
      rewrite Hpy. now destruct (reports_in parse "python" before). }
    rewrite Hpy. unfold summary_of.
    cbn [file_count merged_naming merged_formatting].
    rewrite !map_app. cbn [map]. cbn [naming formatting unparsed_report].
    split; [rewrite length_app; simpl; lia|].
    split; [apply ProjectFacts.merge_naming_skips_default|].
    split; [reflexivity|].
    split.
    { rewrite ProjectFacts.merge_formatting_trailing, forallb_app.
      cbn [forallb]. intros H.
      apply andb_true_iff in H. destruct H as [_ H].
      apply andb_true_iff in H. destruct H as [H _].
      exact H. }
    intros lang Hne.
    rewrite Hlangs, ProjectFacts.group_reports_keyed,
      !ProjectFacts.lookup_aggregate.
    rewrite !ProjectFacts.reports_in_app, ProjectFacts.reports_in_cons.
    unfold contribution at 1 2. rewrite Hf. cbn [language unparsed_report].
    destruct (String.eqb_spec "python" lang) as [<-|_];
      [contradiction | reflexivity].
  - pose proof (analyze_file_raises parse f content Htext Hlang Hparse)
      as Hf.
    split; [exact Hf|].
    exists report.
    split; [exact Hreport|].
    split; [rewrite Htotal, length_app; simpl; lia|].
    rewrite Hlangs, <- ProjectFacts.group_reports_keyed.
    now rewrite (group_reports_skip parse before after f Hf).
Qed.

(** A file with a syntax error between two files that parse. *)
Lemma parse_failure_is_file_local_sample :
  exists report summary,
    analyze_project sample_parse ["proj"]
      (listing [file_snake; file_broken; file_camel]) None = ReportDict report
    /\ lookup "python" (languages report) = Some summary
    /\ file_count summary = 3
    /\ merged_naming summary =
         merge_naming_patterns
           [distributions (collect_styles tree_snake);
            distributions (collect_styles tree_camel)]
    /\ merged_formatting summary =
         merge_formatting_patterns
           [analyze_formatting "snake"; analyze_formatting "def f(:";
            analyze_formatting "camel"].
Proof.
  destruct (proj1
              (parse_failure_is_file_local sample_parse ["proj"]
                 (listing [file_snake; file_broken; file_camel]) None
                 [file_snake] [file_camel] file_broken "def f(:"
                 eq_refl eq_refl eq_refl) eq_refl)
    as (_ & report & summary & Hr & _ & Hl & Hc & Hn & Hf & _).
  exists report, summary.
  split; [exact Hr|]. split; [exact Hl|]. split; [exact Hc|].
  split; [exact Hn | exact Hf].
Defined.

End ProjectProperties.

(** ** One file, and the files of no group *)

Module GroupingProperties.

Import Ast AnalyzeStyle AnalyzeProject Vocabulary Examples.
Local Open Scope list_scope.

(** C9.  Merging the naming part of one file report gives that naming part
    back, weight for weight; and the report of a project with that single
    file, of one of the seven languages, carries the file's own naming
    distributions under its language. *)
Theorem singleton_merge_reproduces_naming (parse : string -> parse_outcome)
    (f : File) (file_report : StyleReport) :
  analyze_file parse f = Some file_report ->
  merge_naming_patterns [naming file_report] = naming file_report
  /\ forall project_path fs extensions,
       collect_files fs extensions = [f] ->
       In (language file_report) language_keys ->
       exists report,
         analyze_project parse project_path fs extensions = ReportDict report
         /\ lookup (language file_report) (languages report) =
              Some (mk_LanguageSummary 1 (naming file_report)
                      (merge_formatting_patterns [formatting file_report])).
Proof.
  intros Hf.
  assert (Hmerge : merge_naming_patterns [naming file_report] =
                   naming file_report).
  { destruct (ProjectProperties.analyze_file_naming parse f _ Hf)
      as [->|(tree & ->)].
    - apply MergeFacts.merge_naming_default.
    - apply MergeFacts.merge_naming_distributions. }
  split; [exact Hmerge|].
  intros project_path fs extensions Hfiles Hlang.
  destruct (ProjectProperties.analyze_project_nonempty parse project_path fs
              extensions) as (report & Hreport).
  { now rewrite Hfiles. }
  exists report. split; [exact Hreport|].
  destruct (ProjectProperties.analyze_project_report parse _ _ _ _ Hreport)
    as (_ & ->).
  rewrite Hfiles, ProjectFacts.lookup_aggregate.
  rewrite (proj2 (ProjectFacts.existsb_eqb_In _ _) Hlang).
  unfold reports_in. simpl flat_map.
  rewrite Hf, String.eqb_refl. simpl.
  unfold summary_of. simpl. now rewrite Hmerge.
Qed.

(** The sample file alone in its project. *)
Lemma singleton_merge_reproduces_naming_sample :
  exists file_report report,
    analyze_file sample_parse file_sample = Some file_report
    /\ functions (naming file_report) =
         [("other", Qmake 50 100); ("snake_case", Qmake 50 100)]
    /\ merge_naming_patterns [naming file_report] = naming file_report
    /\ analyze_project sample_parse ["proj"] (listing [file_sample]) None
         = ReportDict report
    /\ option_map merged_naming (lookup "python" (languages report)) =
         Some (naming file_report).
Proof.
  destruct (analyze_file sample_parse file_sample) as [file_report|] eqn:E;
    [|discriminate E].
  destruct (singleton_merge_reproduces_naming sample_parse file_sample
              file_report E) as (Hm & Hp).
  destruct (Hp ["proj"] (listing [file_sample]) None eq_refl)
    as (report & Hr & Hl).
  { injection E as <-. simpl. now left. }
  exists file_report, report.
  injection E as E. subst file_report.
  split; [reflexivity|]. split; [reflexivity|]. split; [exact Hm|].
  split; [exact Hr|].
  exact (f_equal (option_map merged_naming) Hl).
Defined.

(** C10.  A path with the suffix [.rs] is detected as [rust]; the groups of
    a project report are keyed by the seven languages only, so the report
    has no [rust] group and no [unknown] group, a file of either kind adds
    to no group, and the language part of the report is what it is when
    such files are left out. *)
Theorem rust_files_join_no_group (parse : string -> parse_outcome)
    (project_path : Path) (fs : Listing)
    (extensions : option (list string)) (report : Aggregated) :
  analyze_project parse project_path fs extensions = ReportDict report ->
  (forall p, PyStr.lower (path_suffix p) = ".rs" -> detect_language p = "rust")
  /\ lookup "rust" (languages report) = None
  /\ lookup "unknown" (languages report) = None
  /\ (forall lang,
        In lang (PyDict.keys (languages report)) -> In lang language_keys)
  /\ (forall f lang,
        detect_language (path f) = "rust"
        \/ detect_language (path f) = "unknown" ->
        In lang language_keys -> contribution parse lang f = [])
  /\ languages report =
       aggregate
         (group_reports parse (filter groupable (collect_files fs extensions))).
Proof.
  intros Hreport.
  destruct (ProjectProperties.analyze_project_report parse _ _ _ _ Hreport)
    as (_ & Hlangs).
  split.
  { intros p Hp. unfold detect_language. now rewrite Hp. }
  split; [now rewrite Hlangs, ProjectFacts.lookup_aggregate|].
  split; [now rewrite Hlangs, ProjectFacts.lookup_aggregate|].
  split.
  { intros lang. rewrite Hlangs. apply ProjectFacts.aggregate_keys. }
  split.
  { intros f lang Hdet Hlang.
    apply ProjectFacts.contribution_ungroupable; [exact Hlang|].
    unfold groupable. destruct Hdet as [-> | ->]; reflexivity. }
  rewrite ProjectFacts.aggregate_groupable, Hlangs.
  now rewrite ProjectFacts.group_reports_keyed.
Qed.

(** A Rust file and a Python file, both asked for: one Python group. *)
Lemma rust_files_join_no_group_sample :
  exists report,
    main sample_parse
      (Options (mk_Namespace ["proj"] None (Some "rs,.py"))) true
      (listing [file_rust; file_snake]) (fun _ => true) = Printed report
    /\ detect_language (path file_rust) = "rust"
    /\ total_files report = 2
    /\ PyDict.keys (languages report) = ["python"]
    /\ lookup "rust" (languages report) = None.
Proof.
  destruct (analyze_project sample_parse ["proj"]
              (listing [file_rust; file_snake])
              (parse_extensions (Some "rs,.py"))) as [|report] eqn:E;
    [discriminate E|].
  exists report.
  destruct (rust_files_join_no_group sample_parse ["proj"]
              (listing [file_rust; file_snake])
              (parse_extensions (Some "rs,.py"))
              report E) as (_ & Hrust & _).
  split; [unfold main; cbn [negb ns_path ns_extensions ns_output];
          now rewrite E|].
  split; [reflexivity|].
  injection E as E. subst report.
  split; [reflexivity|]. split; [reflexivity | exact Hrust].
Defined.

End GroupingProperties.

(** ** Statistics of a list do not depend on its order *)

Module StatsFacts.

Local Open Scope list_scope.

Lemma fold_add_sum (l : list nat) :
  forall a, fold_left Nat.add l a = a + list_sum l.
Proof.
  induction l as [|x l IH]; intros a; simpl; [lia|].
  rewrite IH. lia.
Qed.

Lemma sum_nat_list_sum (l : list nat) : PyNum.sum_nat l = list_sum l.
Proof. apply fold_add_sum. Qed.

Lemma fold_max_spec (r : list nat) :
  forall v,
    In (fold_left Nat.max r v) (v :: r)
    /\ forall x, In x (v :: r) -> x <= fold_left Nat.max r v.
Proof.
  induction r as [|y r IH]; intros v; simpl.
  - split; [now left | intros x [<-|[]]; lia].
  - destruct (IH (Nat.max v y)) as [Hin Hle]. split.
    + destruct Hin as [Hin|Hin]; [|now right; right].
      rewrite <- Hin. destruct (Nat.max_spec v y) as [[_ ->]|[_ ->]]; auto.
    + intros x [<-|[<-|Hx]].
      * etransitivity; [apply (Nat.le_max_l v y) | apply Hle; now left].
      * etransitivity; [apply (Nat.le_max_r v y) | apply Hle; now left].
      * apply Hle. now right.
Qed.

Lemma fold_min_spec (r : list nat) :
  forall v,
    In (fold_left Nat.min r v) (v :: r)
    /\ forall x, In x (v :: r) -> fold_left Nat.min r v <= x.
Proof.
  induction r as [|y r IH]; intros v; simpl.
  - split; [now left | intros x [<-|[]]; lia].
  - destruct (IH (Nat.min v y)) as [Hin Hle]. split.
    + destruct Hin as [Hin|Hin]; [|now right; right].
      rewrite <- Hin. destruct (Nat.min_spec v y) as [[_ ->]|[_ ->]]; auto.
    + intros x [<-|[<-|Hx]].
      * etransitivity; [apply Hle; now left | apply (Nat.le_min_l v y)].
      * etransitivity; [apply Hle; now left | apply (Nat.le_min_r v y)].
      * apply Hle. now right.
Qed.

Lemma max_nat_perm (l l' : list nat) :
  Permutation l l' -> PyNum.max_nat l = PyNum.max_nat l'.
Proof.
  intros H. destruct l as [|v r], l' as [|v' r']; try reflexivity.
  - apply Permutation_nil in H. discriminate H.
  - apply Permutation_sym, Permutation_nil in H. discriminate H.
  - unfold PyNum.max_nat.
    destruct (fold_max_spec r v) as [Hin Hle].
    destruct (fold_max_spec r' v') as [Hin' Hle'].
    apply Nat.le_antisymm.
    + apply Hle'. exact (Permutation_in _ H Hin).
    + apply Hle. exact (Permutation_in _ (Permutation_sym H) Hin').
Qed.

Lemma min_nat_perm (l l' : list nat) :
  Permutation l l' -> PyNum.min_nat l = PyNum.min_nat l'.
Proof.
  intros H. destruct l as [|v r], l' as [|v' r']; try reflexivity.
  - apply Permutation_nil in H. discriminate H.
  - apply Permutation_sym, Permutation_nil in H. discriminate H.
  - unfold PyNum.min_nat.
    destruct (fold_min_spec r v) as [Hin Hle].
    destruct (fold_min_spec r' v') as [Hin' Hle'].
    apply Nat.le_antisymm.
    + apply Hle. exact (Permutation_in _ (Permutation_sym H) Hin').
    + apply Hle'. exact (Permutation_in _ H Hin).
Qed.

End StatsFacts.

(** ** The structural walker *)

Module WalkerProperties.

Import Ast AnalyzeStyle Vocabulary Examples.
Local Open Scope list_scope.

Lemma weight_of_In (styles : list string) (s : string) :
  In s styles -> weight_of styles s <> None.
Proof.
  intros Hin. unfold weight_of.
  apply (count_occ_In string_dec) in Hin.
  destruct (count_occ string_dec styles s); [lia | discriminate].
Qed.

Lemma function_def_params (tree : module) (f : stmt) (p : string) :
  In f (function_defs tree) -> In p (fn_params f) ->
  In p (flat_map variable_names (nodes_of tree)).
Proof.
  intros Hf Hp. apply filter_In in Hf. destruct Hf as [Hnode Hdef].
  apply in_flat_map. exists f. split; [exact Hnode|].
  destruct f; try discriminate Hdef. exact Hp.
Qed.

(** C5 as stated fails.  In the sample tree the function [f] has the
    positional-only parameter [firstArg] and the starred parameter
    [moreArgs], the function [g] has the annotated keyword-only parameter
    [x], and [fetchData] is an asynchronous function.  No variable name is
    recorded, although two parameters take positional arguments; no type
    hint is counted, although [g] declares a parameter annotation; and the
    asynchronous function is neither counted nor is the style of its name
    recorded. *)
Lemma unlisted_parameters_not_recorded :
  let f_args :=
    mk_arguments [mk_arg "firstArg" None] []
      (Some (mk_arg "moreArgs" None)) [] None in
  let g_args :=
    mk_arguments [] [] None [mk_arg "x" (Some (Name "int"))] None in
  nodes_of tree_signatures =
    [FunctionDef "f" f_args [pass] None; pass;
     FunctionDef "g" g_args [pass] None; pass;
     AsyncFunctionDef "fetchData" no_arguments [pass] None; pass]
  /\ map arg_name (positional_params f_args) = ["firstArg"; "moreArgs"]
  /\ map detect_naming_style ["firstArg"; "moreArgs"; "fetchData"] =
       ["camelCase"; "camelCase"; "camelCase"]
  /\ declares_annotation g_args None = true
  /\ exists names pats,
       analyze_naming_python sample_parse "signatures" = Some names
       /\ analyze_patterns_python sample_parse "signatures"
            = Some (Some pats)
       /\ variables names = []
       /\ functions names = [("other", Qmake 100 100)]
       /\ lookup "camelCase" (functions names) = None
       /\ function_count pats = 2
       /\ usage_count (type_hint_usage pats) = 0.
Proof.
  cbv zeta. split; [reflexivity|]. split; [reflexivity|].
  split; [reflexivity|]. split; [reflexivity|].
  eexists. eexists. split; [reflexivity|]. split; [reflexivity|].
  repeat split; reflexivity.
Qed.

(** C5, amended.  For a text that parses, with [defs] the [ast.FunctionDef]
    nodes of its tree wherever they are nested, asynchronous definitions
    not among them: the [functions] distribution gives each style the
    share of the definitions whose name has that style, so the style of
    every definition's name is in it; the [variables] distribution does
    the same for the recorded variable names, which are the parameters of
    [args.args] of every definition and the assigned names that are not
    all uppercase; the function count is the number of definitions; the
    length statistics are those of the numbers of statements directly in
    the bodies; and the two usage counts are the numbers of definitions
    with a return annotation or an annotation on a parameter of
    [args.args], and of definitions whose body starts with a string
    literal. *)
Theorem walker_records_function_definitions
    (parse : string -> parse_outcome) (content : string) (tree : module) :
  parse content = Parsed tree ->
  let defs := function_defs tree in
  exists names pats,
    analyze_naming_python parse content = Some names
    /\ analyze_patterns_python parse content = Some (Some pats)
    /\ (forall s,
          lookup s (functions names) =
            weight_of (map detect_naming_style (map fn_name defs)) s)
    /\ (forall s,
          lookup s (variables names) =
            weight_of
              (map detect_naming_style
                 (flat_map variable_names (nodes_of tree))) s)
    /\ (forall f,
          In f defs ->
          lookup (detect_naming_style (fn_name f)) (functions names) <> None
          /\ forall p,
               In p (fn_params f) ->
               lookup (detect_naming_style p) (variables names) <> None)
    /\ function_count pats = List.length defs
    /\ length_max (function_length pats) =
         PyNum.max_nat (map fn_length defs)
    /\ length_min (function_length pats) =
         PyNum.min_nat (map fn_length defs)
    /\ length_mean (function_length pats) =
         match defs with
         | [] => 0%Q
         | _ =>
             PyNum.round
               (PyNum.truediv (list_sum (map fn_length defs))
                  (List.length defs)) 1
         end
    /\ usage_count (type_hint_usage pats) =
         List.length (filter fn_annotated defs)
    /\ usage_count (docstring_usage pats) =
         List.length (filter fn_documented defs).
Proof.
  intros Hparse. cbv zeta.
  exists (distributions (collect_styles tree)),
         (patterns_of (scan_patterns tree)).
  unfold analyze_naming_python, analyze_patterns_python. rewrite Hparse.
  split; [reflexivity|]. split; [reflexivity|].
  destruct (NamingFacts.collect_styles_tree tree) as (Hv & Hf & _).
  destruct (PatternFacts.scan_patterns_tree tree) as (Hl & Hc & Ht & Hd).
  assert (Hfun : forall s,
             lookup s (functions (distributions (collect_styles tree))) =
             weight_of
               (map detect_naming_style (map fn_name (function_defs tree))) s).
  { intros s. cbn [functions distributions].
    rewrite DistributionFacts.lookup_calc_distribution.
    now apply DistributionFacts.weight_of_perm. }
  assert (Hvar : forall s,
             lookup s (variables (distributions (collect_styles tree))) =
             weight_of
               (map detect_naming_style
                  (flat_map variable_names (nodes_of tree))) s).
  { intros s. cbn [variables distributions].
    rewrite DistributionFacts.lookup_calc_distribution.
    now apply DistributionFacts.weight_of_perm. }
  split; [exact Hfun|]. split; [exact Hvar|].
  split.
  { intros f Hdef. split.
    - rewrite Hfun. apply weight_of_In. now do 2 apply in_map.
    - intros p Hp. rewrite Hvar. apply weight_of_In, in_map.
      now apply (function_def_params tree f). }
  cbn [patterns_of function_count function_length length_max length_min
       length_mean type_hint_usage docstring_usage usage_of usage_count].
  split; [exact Hc|].
  split; [now apply StatsFacts.max_nat_perm|].
  split; [now apply StatsFacts.min_nat_perm|].
  split; [|split; assumption].
  pose proof (Permutation_length Hl) as Hlen. rewrite length_map in Hlen.
  rewrite StatsFacts.sum_nat_list_sum, (WeightFacts.list_sum_perm _ _ Hl), Hlen.
  destruct (func_lengths (scan_patterns tree)), (function_defs tree);
    try reflexivity; discriminate Hlen.
Qed.

(** The sample tree: two definitions, one of them nested in a class. *)
Lemma walker_records_function_definitions_sample :
  exists names pats,
    analyze_naming_python sample_parse "sample" = Some names
    /\ analyze_patterns_python sample_parse "sample" = Some (Some pats)
    /\ map fn_name (function_defs tree_sample) = ["_helper"; "run"]
    /\ lookup "snake_case" (functions names) = Some (Qmake 50 100)
    /\ lookup "camelCase" (variables names) <> None
    /\ function_count pats = 2
    /\ length_max (function_length pats) = 3
    /\ usage_count (type_hint_usage pats) = 1
    /\ usage_count (docstring_usage pats) = 1.
Proof.
  destruct (walker_records_function_definitions sample_parse "sample"
              tree_sample eq_refl)
    as (names & pats & Hn & Hp & Hf & _ & Hdef & Hc & Hmax & _ & _ & Ht & Hd).
  exists names, pats.
  split; [exact Hn|]. split; [exact Hp|]. split; [reflexivity|].
  split; [rewrite Hf; reflexivity|].
  split.
  { refine (proj2 (Hdef (FunctionDef "_helper"
                           (mk_arguments []
                              [mk_arg "self" None;
                               mk_arg "maxLen" (Some (Name "int"))]
                              None [] None)
                           [Expr (Constant (ConstStr "Load one item."));
                            Assign [Name "MY_CONST"] (Constant ConstOther);
                            OtherStmt
                              [Assign [Name "_cache"; OtherExpr] OtherExpr]]
                           None) _) "maxLen" _).
    - simpl. now left.
    - simpl. right. now left. }
  split; [rewrite Hc; reflexivity|].
  split; [rewrite Hmax; reflexivity|].
  split; [rewrite Ht; reflexivity | rewrite Hd; reflexivity].
Defined.

End WalkerProperties.

(** ** More on the classifier *)

Module ClassifierExtra.

Import AnalyzeStyle Vocabulary Readings.
Local Open Scope list_scope.

Lemma char_upper_not_lower (c : ascii) :
  PyStr.char_isupper c = true -> PyStr.char_islower c = false.
Proof.
  unfold PyStr.char_isupper, PyStr.char_islower. intros H.
  apply andb_true_iff in H. destruct H as [_ H]. apply Nat.leb_le in H.
  apply andb_false_iff. left. apply Nat.leb_gt. lia.
Qed.

Lemma head_upper_not_lower (s : string) :
  PyStr.head_isupper s = true -> PyStr.head_islower s = false.
Proof. destruct s; [reflexivity | apply char_upper_not_lower]. Qed.

Ltac use_facts :=
  repeat match goal with
         | H : ?a = ?a -> _ |- _ => specialize (H eq_refl)
         | H : true = false -> _ |- _ => clear H
         | H : false = true -> _ |- _ => clear H
         | H : _ /\ _ |- _ => destruct H
         end.

Lemma style_range (name : string) :
  In (detect_naming_style name) style_tags
  /\ (detect_naming_style name = "unknown" <-> name = EmptyString).
Proof.
  unfold detect_naming_style, style_tags.
  destruct (String.eqb_spec name EmptyString) as [->|Hne].
  - split; [now left | tauto].
  - repeat match goal with
           | |- context [if ?b then _ else _] => destruct b
           end;
      (split; [simpl; tauto | split; [discriminate | contradiction]]).
Qed.

(** X1.  The classifier returns one of seven tags, and [unknown] for the
    empty name only. *)
Theorem classifier_range (name : string) :
  In (detect_naming_style name) style_tags
  /\ (detect_naming_style name = "unknown" <-> name = EmptyString).
Proof. exact (style_range name). Qed.

Lemma tag_conditions (name : string) :
  (detect_naming_style name = "UPPER_SNAKE_CASE" <->
     PyStr.isupper name = true /\ PyStr.contains "_" name = true)
  /\ (detect_naming_style name = "snake_case" <->
        PyStr.islower name = true /\ PyStr.contains "_" name = true)
  /\ (detect_naming_style name = "PascalCase" <->
        PyStr.head_isupper name = true /\ PyStr.contains "_" name = false)
  /\ (detect_naming_style name = "camelCase" <->
        PyStr.head_islower name = true /\ PyStr.contains "_" name = false
        /\ PyStr.existsb PyStr.char_isupper name = true)
  /\ (detect_naming_style name = "_private" <->
        PyStr.startswith "_" name = true /\ PyStr.isupper name = false
        /\ PyStr.islower name = false).
Proof.
  destruct (String.eqb_spec name EmptyString) as [->|Hne].
  - repeat split; intros; use_facts; discriminate.
  - pose proof (ClassifierFacts.isupper_not_islower name) as F1.
    pose proof (head_upper_not_lower name) as F2.
    pose proof (ClassifierFacts.startswith_contains "_" name) as F3.
    pose proof (ClassifierFacts.startswith_underscore_head name) as F4.
    unfold detect_naming_style.
    rewrite (ClassifierFacts.nonempty_eqb _ Hne). clear Hne.
    destruct (PyStr.isupper name), (PyStr.islower name),
      (PyStr.contains "_" name), (PyStr.head_isupper name),
      (PyStr.head_islower name), (PyStr.existsb PyStr.char_isupper name),
      (PyStr.startswith "_" name);
      use_facts; simpl;
      repeat split; intros; use_facts; try discriminate; reflexivity.
Qed.

(** X2.  The exact condition of each tag: the two underscore styles need an
    underscore and one letter case throughout; [PascalCase] and [camelCase]
    need a first letter of the right case and no underscore, [camelCase]
    also an uppercase letter; [_private] is a leading underscore on a name
    that is neither all uppercase nor all lowercase. *)
Theorem classifier_tag_conditions (name : string) :
  (detect_naming_style name = "UPPER_SNAKE_CASE" <->
     PyStr.isupper name = true /\ PyStr.contains "_" name = true)
  /\ (detect_naming_style name = "snake_case" <->
        PyStr.islower name = true /\ PyStr.contains "_" name = true)
  /\ (detect_naming_style name = "PascalCase" <->
        PyStr.head_isupper name = true /\ PyStr.contains "_" name = false)
  /\ (detect_naming_style name = "camelCase" <->
        PyStr.head_islower name = true /\ PyStr.contains "_" name = false
        /\ PyStr.existsb PyStr.char_isupper name = true)
  /\ (detect_naming_style name = "_private" <->
        PyStr.startswith "_" name = true /\ PyStr.isupper name = false
        /\ PyStr.islower name = false).
Proof. exact (tag_conditions name). Qed.

End ClassifierExtra.

(** ** More on the per-file distribution *)

Module DistributionExtra.

Import AnalyzeStyle AnalyzeProject Vocabulary Readings.
Local Open Scope list_scope.

Lemma insert_by_count_sorted (x : string * nat) (l : list (string * nat)) :
  StronglySorted by_count l -> StronglySorted by_count (insert_by_count x l).
Proof.
  induction l as [|y l IH]; intros Hs; simpl.
  - repeat constructor.
  - inversion Hs as [|? ? Hl Hy]; subst.
    destruct (Nat.ltb_spec (snd x) (snd y)) as [Hlt|Hge].
    + constructor; [now apply IH|].
      eapply Permutation_Forall;
        [apply Permutation_sym, DistributionFacts.insert_by_count_perm|].
      constructor; [unfold by_count; lia | exact Hy].
    + constructor; [exact Hs|].
      constructor; [exact Hge|].
      eapply Forall_impl; [|exact Hy].
      unfold by_count. intros z Hz. lia.
Qed.

Lemma sorted_by_count_sorted (l : list (string * nat)) :
  StronglySorted by_count (sorted_by_count l).
Proof.
  induction l as [|x l IH]; simpl; [constructor|].
  now apply insert_by_count_sorted.
Qed.

Lemma StronglySorted_map_in {A B : Type} (R : A -> A -> Prop)
    (R' : B -> B -> Prop) (f : A -> B) (l : list A) :
  (forall x y, In x l -> In y l -> R x y -> R' (f x) (f y)) ->
  StronglySorted R l -> StronglySorted R' (map f l).
Proof.
  intros Hf Hs. induction Hs as [|x l Hs IH Hx]; simpl; [constructor|].
  constructor.
  - apply IH. intros a b Ha Hb. apply Hf; now right.
  - apply Forall_map. rewrite Forall_forall in *.
    intros y Hy. apply Hf; [now left | now right | now apply Hx].
Qed.

(** X3.  A per-file distribution has one entry for each observed style and
    for nothing else, and lists the styles from the most frequent to the
    least frequent. *)
Theorem distribution_keys_ordered (styles : list string) :
  let d := calc_distribution styles in
  NoDup (PyDict.keys d)
  /\ (forall s, In s (PyDict.keys d) <-> In s styles)
  /\ StronglySorted
       (fun a b => count_occ string_dec styles b <=
                   count_occ string_dec styles a)
       (PyDict.keys d).
Proof.
  cbv zeta. split; [apply DistributionFacts.calc_distribution_NoDup|].
  split.
  - intros s. split; intros H.
    + apply (nodup_In string_dec).
      exact (Permutation_in _
               (DistributionFacts.calc_distribution_keys styles) H).
    + apply (nodup_In string_dec) in H.
      exact (Permutation_in _
               (Permutation_sym
                  (DistributionFacts.calc_distribution_keys styles)) H).
  - rewrite DistributionFacts.calc_distribution_unfold.
    unfold PyDict.keys. rewrite map_map. cbn [fst].
    destruct styles as [|s0 styles0] eqn:E; [constructor|]. rewrite <- E.
    apply (StronglySorted_map_in by_count);
      [|apply sorted_by_count_sorted].
    assert (Hcount : forall x,
               In x (sorted_by_count (style_counts styles)) ->
               snd x = count_occ string_dec styles (fst x)).
    { intros x Hx.
      apply (Permutation_in _ (DistributionFacts.sorted_by_count_perm _)) in Hx.
      unfold style_counts in Hx. apply in_map_iff in Hx.
      now destruct Hx as (s & <- & _). }
    intros x y Hx Hy Hxy. unfold by_count in Hxy.
    now rewrite <- (Hcount x Hx), <- (Hcount y Hy).
Qed.

Lemma round_half_even_le (n k : Z) (d : positive) :
  (n <= k * Zpos d)%Z -> (PyNum.round_half_even n d <= k)%Z.
Proof.
  intros Hn.
  pose proof (RoundingFacts.round_half_even_error n d) as He.
  set (q := PyNum.round_half_even n d) in *. nia.
Qed.

Lemma round_two_unit (x : Q) : unit_weight x -> unit_weight (PyNum.round x 2).
Proof.
  intros [H0 H1]. split; [now apply RoundingFacts.round_two_nonneg|].
  rewrite RoundingFacts.round_two. unfold Qle in *. simpl in *.
  rewrite Z.mul_1_r in *.
  assert (PyNum.round_half_even (Qnum x * 100) (Qden x) <= 100)%Z
    by (apply round_half_even_le; lia).
  lia.
Qed.

Lemma calc_distribution_unit (styles : list string) :
  Forall (fun w => unit_weight w /\ Qden w = 100%positive)
    (PyDict.values (calc_distribution styles)).
Proof.
  unfold PyDict.values. apply Forall_map, Forall_forall. intros kv Hin.
  destruct (DistributionFacts.calc_distribution_entries _ _ Hin) as [Hs Hv].
  split; [|now rewrite Hv].
  rewrite Hv.
  change (Qmake (hundredths (List.length styles)
                   (count_occ string_dec styles (fst kv))) 100)
    with (PyNum.round
            (PyNum.truediv (count_occ string_dec styles (fst kv))
               (List.length styles)) 2).
  apply round_two_unit.
  pose proof (count_occ_bound string_dec (fst kv) styles) as Hb.
  assert (Hlen : 0 < List.length styles) by (destruct styles; [destruct Hs | simpl; lia]).
  assert (Hpos : Zpos (Pos.of_nat (List.length styles)) =
                 Z.of_nat (List.length styles))
    by (rewrite <- positive_nat_Z, Nat2Pos.id; lia).
  unfold unit_weight, PyNum.truediv, Qle. simpl. rewrite Hpos. lia.
Qed.

(** X4.  Every weight of a per-file distribution is a number of hundredths
    between 0 and 1. *)
Theorem distribution_weights_unit (styles : list string) :
  Forall (fun w => unit_weight w /\ Qden w = 100%positive)
    (PyDict.values (calc_distribution styles)).
Proof. exact (calc_distribution_unit styles). Qed.

End DistributionExtra.

(** ** More on the naming merge *)

Module MergeExtra.

Import AnalyzeStyle AnalyzeProject Vocabulary Readings Examples.
Local Open Scope list_scope.

Lemma get_set {V : Type} (k k' : string) (v : V) (d : sdict V) :
  PyDict.get String.eqb k (PyDict.set String.eqb k' v d) =
    if String.eqb k k' then Some v else PyDict.get String.eqb k d.
Proof.
  induction d as [|[k0 v0] d IH]; simpl.
  - reflexivity.
  - destruct (String.eqb_spec k' k0) as [->|Hne]; simpl.
    + destruct (String.eqb_spec k k0); reflexivity.
    + destruct (String.eqb_spec k k0) as [->|_]; [|exact IH].
      destruct (String.eqb_spec k0 k'); [congruence | reflexivity].
Qed.

Lemma get_map_values {V W : Type} (f : V -> W) (k : string) (d : sdict V) :
  PyDict.get String.eqb k (map (fun kv => (fst kv, f (snd kv))) d) =
    option_map f (PyDict.get String.eqb k d).
Proof.
  induction d as [|[k0 v0] d IH]; [reflexivity|]. simpl.
  destruct (String.eqb k k0); [reflexivity | exact IH].
Qed.

Lemma gathered_append_value (k : string) (result : sdict (list Q))
    (kv : string * Q) :
  gathered k (append_value result kv) =
    gathered k result ++ (if String.eqb k (fst kv) then [snd kv] else []).
Proof.
  unfold gathered, append_value.
  destruct (PyDict.get String.eqb (fst kv) result) as [vs|] eqn:E;
    rewrite get_set;
    destruct (String.eqb_spec k (fst kv)) as [->|_];
    rewrite ?E, ?app_nil_r; reflexivity.
Qed.

Lemma gathered_dict (k : string) (d : sdict Q) :
  NoDup (PyDict.keys d) ->
  forall result,
    gathered k (fold_left append_value d result) =
      gathered k result ++
      match lookup k d with Some v => [v] | None => [] end.
Proof.
  induction d as [|[k1 v1] d IH]; intros Hnd result; simpl.
  - now rewrite app_nil_r.
  - inversion Hnd as [|? ? Hk1 Hnd']; subst.
    rewrite (IH Hnd'), gathered_append_value, <- app_assoc. f_equal.
    simpl. destruct (String.eqb_spec k k1) as [->|_]; [|reflexivity].
    now rewrite (DictFacts.lookup_notin _ _ Hk1).
Qed.

Lemma gathered_dicts (k : string) (dicts : list (sdict Q)) :
  Forall (fun d => NoDup (PyDict.keys d)) dicts ->
  forall result,
    gathered k
      (fold_left (fun result d => fold_left append_value d result) dicts
         result) =
      gathered k result ++ values_for k dicts.
Proof.
  induction dicts as [|d dicts IH]; intros Hnd result; simpl.
  - now rewrite app_nil_r.
  - inversion Hnd; subst.
    rewrite IH, gathered_dict, <- app_assoc by assumption. reflexivity.
Qed.

(** No key is gathered without a value. *)
Lemma gather_filled (dicts : list (sdict Q)) :
  Forall (fun e => snd e <> []) (gather dicts).
Proof.
  unfold gather.
  assert (Hstep : forall result kv,
             Forall (fun e : string * list Q => snd e <> []) result ->
             Forall (fun e : string * list Q => snd e <> [])
               (append_value result kv)).
  { intros result kv Hr. unfold append_value.
    destruct (PyDict.get String.eqb (fst kv) result);
      (apply (MergeFacts.set_values (fun vs : list Q => vs <> []));
       [exact Hr|]); [now destruct l | discriminate]. }
  assert (Hgen : forall result,
             Forall (fun e : string * list Q => snd e <> []) result ->
             Forall (fun e : string * list Q => snd e <> [])
               (fold_left (fun result d => fold_left append_value d result)
                  dicts result)).
  { induction dicts as [|d dicts IH]; intros result Hr; simpl; [exact Hr|].
    apply IH. clear IH. revert result Hr.
    induction d as [|kv d IHd]; intros result Hr; simpl; [exact Hr|].
    apply IHd. now apply Hstep. }
  apply Hgen. constructor.
Qed.

Lemma lookup_merge_dicts (k : string) (dicts : list (sdict Q)) :
  Forall (fun d => NoDup (PyDict.keys d)) dicts ->
  lookup k (merge_dicts dicts) =
    match values_for k dicts with
    | [] => None
    | vs => Some (average vs)
    end.
Proof.
  intros Hnd. unfold lookup, merge_dicts. rewrite get_map_values.
  pose proof (gathered_dicts k dicts Hnd []) as Hg.
  fold (gather dicts) in Hg. simpl in Hg. unfold gathered in Hg.
  destruct (PyDict.get String.eqb k (gather dicts)) as [vs|] eqn:E.
  - pose proof (MergeFacts.get_values (fun vs : list Q => vs <> []) _ _ _
                  (gather_filled dicts) E) as Hne.
    rewrite <- Hg. simpl. now destruct vs.
  - now rewrite <- Hg.
Qed.

(** X5.  The merged weight of a style is the rounded mean of the weights
    that the files having the style give it, the other files left out; a
    style that no file has gets no entry. *)
Theorem merged_weight_is_mean_over_holders (k : string)
    (dicts : list (sdict Q)) :
  Forall (fun d => NoDup (PyDict.keys d)) dicts ->
  lookup k (merge_dicts dicts) =
    match values_for k dicts with
    | [] => None
    | vs =>
        Some (PyNum.round
                (PyNum.div_len (PyNum.sum vs) (List.length vs)) 2)
    end.
Proof. exact (lookup_merge_dicts k dicts). Qed.

(** Three files; two of them have [snake_case], with weights 1 and 0.5. *)
Lemma merged_weight_is_mean_over_holders_sample :
  lookup "snake_case"
    (merge_dicts
       [functions (distributions (collect_styles tree_snake));
        functions (distributions (collect_styles tree_camel));
        functions (distributions (collect_styles tree_sample))])
  = Some (Qmake 75 100).
Proof.
  rewrite merged_weight_is_mean_over_holders.
  - reflexivity.
  - repeat constructor; simpl;
      repeat (intros [H|H]; [discriminate H | revert H]); intros [].
Defined.

Lemma sum_repeat (v : Q) (n : nat) :
  forall acc,
    (fold_left Qplus (repeat v n) acc == acc + inject_Z (Z.of_nat n) * v)%Q.
Proof.
  induction n as [|n IH]; intros acc.
  - simpl. unfold Qeq, Qplus, Qmult. simpl. lia.
  - cbn [repeat fold_left]. rewrite IH, Nat2Z.inj_succ.
    unfold Z.succ. rewrite inject_Z_plus. ring.
Qed.

Lemma round_two_of (x : Q) (z : Z) :
  (x == Qmake z 100)%Q -> PyNum.round x 2 = Qmake z 100.
Proof.
  intros Hx. rewrite RoundingFacts.round_two. f_equal.
  unfold Qeq in Hx. simpl in Hx. rewrite Hx.
  apply RoundingFacts.round_half_even_exact.
Qed.

Lemma average_repeat (z : Z) (n : nat) :
  average (repeat (Qmake z 100) (S n)) = Qmake z 100.
Proof.
  unfold average. apply round_two_of.
  unfold PyNum.div_len, PyNum.sum. rewrite sum_repeat, repeat_length.
  rewrite Qplus_0_l, Qmult_comm. apply Qdiv_mult_l.
  unfold Qeq. simpl. lia.
Qed.

Lemma Forall_eq_repeat {A : Type} (v : A) (l : list A) :
  Forall (eq v) l -> l = repeat v (List.length l).
Proof.
  induction 1 as [|x l Hx _ IH]; [reflexivity|]. simpl.
  now rewrite <- Hx, <- IH.
Qed.

(** X6.  When the files that have a style all give it the same weight of
    two decimal places, the merge gives it that weight. *)
Theorem merge_keeps_agreed_weight (k : string) (dicts : list (sdict Q))
    (z : Z) :
  Forall (fun d => NoDup (PyDict.keys d)) dicts ->
  values_for k dicts <> [] ->
  Forall (eq (Qmake z 100)) (values_for k dicts) ->
  lookup k (merge_dicts dicts) = Some (Qmake z 100).
Proof.
  intros Hnd Hne Hall. rewrite (lookup_merge_dicts k dicts Hnd).
  rewrite (Forall_eq_repeat _ _ Hall) in *.
  destruct (List.length (values_for k dicts)) as [|n]; [contradiction|].
  cbn [repeat]. f_equal. apply (average_repeat z n).
Qed.

(** Two files with [snake_case] functions only, one with none. *)
Lemma merge_keeps_agreed_weight_sample :
  lookup "snake_case"
    (merge_dicts
       [functions (distributions (collect_styles tree_snake));
        functions (distributions (collect_styles tree_camel));
        functions (distributions (collect_styles tree_snake))])
  = Some (Qmake 100 100).
Proof.
  apply merge_keeps_agreed_weight.
  - repeat constructor; simpl; intros H;
      repeat (destruct H as [H|H]; [discriminate H|]); exact H.
  - discriminate.
  - repeat constructor.
Defined.

Lemma sum_le_length (vs : list Q) :
  Forall unit_weight vs ->
  forall acc,
    (fold_left Qplus vs acc <= acc + inject_Z (Z.of_nat (List.length vs)))%Q.
Proof.
  induction 1 as [|v vs [_ Hv] _ IH]; intros acc.
  - simpl. unfold Qle, Qplus. simpl. lia.
  - cbn [fold_left List.length]. eapply Qle_trans; [apply IH|].
    rewrite Nat2Z.inj_succ. unfold Z.succ. rewrite inject_Z_plus.
    rewrite <- Qplus_assoc. apply Qplus_le_compat; [apply Qle_refl|].
    rewrite Qplus_comm. apply Qplus_le_compat; [apply Qle_refl | exact Hv].
Qed.

Lemma average_unit (vs : list Q) :
  vs <> [] -> Forall unit_weight vs -> unit_weight (average vs).
Proof.
  intros Hne Hvs. unfold average. apply DistributionExtra.round_two_unit.
  assert (Hpos : (0 < inject_Z (Z.of_nat (List.length vs)))%Q).
  { destruct vs; [contradiction|]. unfold Qlt. simpl. lia. }
  split.
  - unfold PyNum.div_len, Qdiv. apply Qmult_le_0_compat.
    + apply MergeFacts.sum_nonneg; [apply Qle_refl|].
      eapply Forall_impl; [|exact Hvs]. now intros v [H _].
    + apply Qinv_le_0_compat. now apply Qlt_le_weak.
  - unfold PyNum.div_len. apply Qle_shift_div_r; [exact Hpos|].
    rewrite Qmult_1_l. unfold PyNum.sum.
    eapply Qle_trans; [apply (sum_le_length vs Hvs)|].
    rewrite Qplus_0_l. apply Qle_refl.
Qed.

Lemma gather_unit (dicts : list (sdict Q)) :
  Forall (fun d => Forall unit_weight (PyDict.values d)) dicts ->
  Forall (fun e => Forall unit_weight (snd e)) (gather dicts).
Proof.
  unfold gather.
  assert (Hstep : forall result (kv : string * Q),
             Forall (fun e : string * list Q => Forall unit_weight (snd e))
               result ->
             unit_weight (snd kv) ->
             Forall (fun e : string * list Q => Forall unit_weight (snd e))
               (append_value result kv)).
  { intros result kv Hr Hkv. unfold append_value.
    destruct (PyDict.get String.eqb (fst kv) result) as [vs|] eqn:E;
      (apply (MergeFacts.set_values (Forall unit_weight)); [exact Hr|]).
    - apply Forall_app. split; [|constructor; [exact Hkv | constructor]].
      exact (MergeFacts.get_values (Forall unit_weight) _ _ _ Hr E).
    - constructor; [exact Hkv | constructor]. }
  assert (Hgen : forall result,
             Forall (fun e : string * list Q => Forall unit_weight (snd e))
               result ->
             Forall (fun d => Forall unit_weight (PyDict.values d)) dicts ->
             Forall (fun e : string * list Q => Forall unit_weight (snd e))
               (fold_left (fun result d => fold_left append_value d result)
                  dicts result)).
  { induction dicts as [|d dicts IH]; intros result Hr Hd; simpl; [exact Hr|].
    inversion Hd as [|? ? Hd1 Hd2]; subst. apply IH; [|exact Hd2].
    clear IH Hd Hd2. revert result Hr.
    induction d as [|kv d IHd]; intros result Hr; simpl; [exact Hr|].
    unfold PyDict.values in Hd1. simpl in Hd1. inversion Hd1; subst.
    apply IHd; [assumption|]. now apply Hstep. }
  intros H. apply Hgen; [constructor | exact H].
Qed.

(** X7.  Every weight of a merge of per-file distributions lies between 0
    and 1, whatever the files observed. *)
Theorem merged_weights_unit (files : list (list string)) :
  Forall unit_weight
    (PyDict.values (merge_dicts (map calc_distribution files))).
Proof.
  set (dicts := map calc_distribution files).
  assert (Hd : Forall (fun d => Forall unit_weight (PyDict.values d)) dicts).
  { apply Forall_map, Forall_forall. intros styles _.
    eapply Forall_impl; [|apply DistributionExtra.calc_distribution_unit].
    now intros w [H _]. }
  pose proof (gather_unit dicts Hd) as Hu.
  pose proof (gather_filled dicts) as Hf.
  unfold merge_dicts, PyDict.values. rewrite map_map. cbn [snd].
  apply Forall_map. rewrite Forall_forall in *.
  intros e He. apply average_unit; [now apply Hf | now apply Hu].
Qed.

End MergeExtra.

(** ** Tallies and their most frequent key *)

Module TallyFacts.

Import AnalyzeProject Readings.
Local Open Scope list_scope.

Section Keys.

Context {K : Type}.
Variable eqb : K -> K -> bool.
Hypothesis eqb_spec : forall a b, reflect (a = b) (eqb a b).

Abbreviation get := (PyDict.get eqb).
Abbreviation set := (PyDict.set eqb).

Lemma get_set_key (k k' : K) (v : nat) (d : PyDict.dict K nat) :
  get k (set k' v d) = if eqb k k' then Some v else get k d.
Proof.
  induction d as [|[k0 v0] d IH]; simpl; [reflexivity|].
  destruct (eqb_spec k' k0) as [->|Hne]; simpl.
  - destruct (eqb_spec k k0); reflexivity.
  - destruct (eqb_spec k k0) as [->|_]; [|exact IH].
    destruct (eqb_spec k0 k'); [congruence | reflexivity].
Qed.

Lemma get_keys (k : K) (d : PyDict.dict K nat) :
  existsb (eqb k) (PyDict.keys d) =
    match get k d with Some _ => true | None => false end.
Proof.
  induction d as [|[k0 v0] d IH]; [reflexivity|]. simpl.
  destruct (eqb k k0); [reflexivity | exact IH].
Qed.

Lemma keys_set (k : K) (v : nat) (d : PyDict.dict K nat) :
  PyDict.keys (set k v d) = add_key eqb (PyDict.keys d) k.
Proof.
  unfold add_key. induction d as [|[k0 v0] d IH]; [reflexivity|]. simpl.
  destruct (eqb k k0); [reflexivity|]. simpl. rewrite IH.
  now destruct (existsb (eqb k) (PyDict.keys d)).
Qed.

Lemma count_of_bump (k k' : K) (d : PyDict.dict K nat) :
  count_of eqb k (bump eqb k' d) =
    count_of eqb k d + (if eqb k k' then 1 else 0).
Proof.
  unfold count_of, bump. rewrite get_set_key.
  destruct (eqb_spec k k') as [->|_]; [reflexivity | lia].
Qed.

Lemma count_of_tally (k : K) (ks : list K) :
  forall d,
    count_of eqb k (tally_keys eqb ks d) =
      count_of eqb k d + occurrences eqb k ks.
Proof.
  induction ks as [|k' ks IH]; intros d; simpl; [lia|].
  unfold tally_keys in *. rewrite IH, count_of_bump. lia.
Qed.

Lemma keys_tally (ks : list K) :
  forall d,
    PyDict.keys (tally_keys eqb ks d) =
      fold_left (add_key eqb) ks (PyDict.keys d).
Proof.
  induction ks as [|k ks IH]; intros d; simpl; [reflexivity|].
  unfold tally_keys in *. rewrite IH. unfold bump. now rewrite keys_set.
Qed.

Lemma existsb_eqb (k : K) (l : list K) :
  existsb (eqb k) l = true <-> In k l.
Proof.
  rewrite existsb_exists. split.
  - intros (x & Hin & Heq). destruct (eqb_spec k x); [now subst | discriminate].
  - intros Hin. exists k. split; [exact Hin|].
    destruct (eqb_spec k k); [reflexivity | contradiction].
Qed.

Lemma add_key_NoDup (seen : list K) (k : K) :
  NoDup seen -> NoDup (add_key eqb seen k).
Proof.
  intros Hnd. unfold add_key.
  destruct (existsb (eqb k) seen) eqn:E; [exact Hnd|].
  apply NoDup_app; [exact Hnd | repeat constructor; intros [] |].
  intros x Hx [<-|[]]. apply existsb_eqb in Hx. congruence.
Qed.

Lemma seen_NoDup (ks : list K) :
  forall seen, NoDup seen -> NoDup (fold_left (add_key eqb) ks seen).
Proof.
  induction ks as [|k ks IH]; intros seen Hnd; simpl; [exact Hnd|].
  apply IH. now apply add_key_NoDup.
Qed.

Lemma seen_prefix (ks : list K) :
  forall seen, exists new, fold_left (add_key eqb) ks seen = seen ++ new.
Proof.
  induction ks as [|k ks IH]; intros seen; simpl.
  - exists []. now rewrite app_nil_r.
  - destruct (IH (add_key eqb seen k)) as (new & ->). unfold add_key.
    destruct (existsb (eqb k) seen); [now exists new|].
    exists (k :: new). now rewrite <- app_assoc.
Qed.

Lemma prefix_before (l new kb ka : list K) (r : K) :
  l ++ new = kb ++ r :: ka -> ~ In r l -> incl l kb.
Proof.
  revert kb. induction l as [|a l IH]; intros kb Heq Hr; [intros x []|].
  destruct kb as [|b kb]; simpl in Heq.
  - injection Heq as -> _. exfalso. apply Hr. now left.
  - injection Heq as -> Heq. intros x [<-|Hx]; [now left|].
    right. apply (IH kb Heq); [|exact Hx]. intros H. apply Hr. now right.
Qed.

(** A key that is met for the first time after everything seen so far
    splits the keys at its first occurrence. *)
Lemma seen_split (ks : list K) :
  forall seen kb ka r,
    ~ In r seen ->
    fold_left (add_key eqb) ks seen = kb ++ r :: ka ->
    exists before after,
      ks = before ++ r :: after
      /\ ~ In r before
      /\ forall k, In k before -> In k kb.
Proof.
  induction ks as [|k ks IH]; intros seen kb ka r Hr Heq; simpl in Heq.
  - exfalso. apply Hr. rewrite Heq. apply in_elt.
  - destruct (eqb_spec k r) as [->|Hne].
    + exists [], ks. repeat split; [intros [] | intros k []].
    + assert (Hr' : ~ In r (add_key eqb seen k)).
      { unfold add_key. destruct (existsb (eqb k) seen); [exact Hr|].
        intros H. apply in_app_or in H. destruct H as [H|[H|[]]]; auto. }
      destruct (IH _ _ _ _ Hr' Heq) as (before & after & Hks & Hb & Hin).
      exists (k :: before), after. split; [now rewrite Hks|]. split.
      * intros [H|H]; [now apply Hne | now apply Hb].
      * intros x [Hx|Hx]; [subst x | now apply Hin].
        destruct (seen_prefix ks (add_key eqb seen k)) as (new & Hnew).
        rewrite Hnew in Heq.
        apply (prefix_before _ _ _ _ _ Heq Hr').
        unfold add_key. destruct (existsb (eqb k) seen) eqn:E.
        -- now apply existsb_eqb.
        -- apply in_or_app. right. now left.
Qed.

(** [max_key] returns the first entry with the largest count. *)
Lemma max_key_split (d : PyDict.dict K nat) :
  forall pre mid k0 n0,
    (forall e, In e pre -> snd e < n0) ->
    (forall e, In e mid -> snd e <= n0) ->
    exists before after m,
      pre ++ (k0, n0) :: mid ++ d =
        before ++ (PyDict.max_key k0 n0 d, m) :: after
      /\ (forall e, In e before -> snd e < m)
      /\ (forall e, In e after -> snd e <= m).
Proof.
  induction d as [|[k n] d IH]; intros pre mid k0 n0 Hpre Hmid; simpl.
  - exists pre, mid, n0. rewrite app_nil_r. auto.
  - destruct (Nat.ltb_spec n0 n) as [Hlt|Hge].
    + destruct (IH (pre ++ (k0, n0) :: mid) [] k n)
        as (before & after & m & Heq & Hb & Ha).
      * intros e He. apply in_app_or in He.
        destruct He as [He|[<-|He]]; simpl.
        -- specialize (Hpre e He). lia.
        -- exact Hlt.
        -- specialize (Hmid e He). lia.
      * intros e [].
      * exists before, after, m. split; [|auto].
        rewrite <- Heq. simpl. now rewrite <- app_assoc.
    + destruct (IH pre (mid ++ [(k, n)]) k0 n0 Hpre)
        as (before & after & m & Heq & Hb & Ha).
      * intros e He. apply in_app_or in He.
        destruct He as [He|[<-|[]]]; [now apply Hmid | exact Hge].
      * exists before, after, m. split; [|auto].
        rewrite <- Heq. now rewrite <- app_assoc.
Qed.

Lemma get_entry (k : K) (n : nat) (d : PyDict.dict K nat) :
  NoDup (PyDict.keys d) -> In (k, n) d -> get k d = Some n.
Proof.
  induction d as [|[k' n'] d IH]; [intros _ []|]. simpl.
  intros Hnd [Heq|Hin].
  - injection Heq as -> ->. now destruct (eqb_spec k k).
  - inversion Hnd as [|? ? Hk' Hnd']; subst.
    destruct (eqb_spec k k') as [->|_]; [|now apply IH].
    exfalso. apply Hk'. change k' with (fst (k', n)). now apply in_map.
Qed.

Lemma entry_of_get (k : K) (n : nat) (d : PyDict.dict K nat) :
  get k d = Some n -> In (k, n) d.
Proof.
  induction d as [|[k' n'] d IH]; simpl; [discriminate|].
  destruct (eqb_spec k k') as [->|_]; [intros [= ->]; now left|].
  intros H. right. now apply IH.
Qed.

(** The most common key of a tally is the most frequent key, the one met
    first among the most frequent. *)
Lemma most_common_first (ks : list K) (default : K) :
  ks <> [] ->
  first_most_frequent eqb ks
    (most_common (tally_keys eqb ks []) default).
Proof.
  intros Hne.
  set (D := tally_keys eqb ks []).
  assert (Hkeys : PyDict.keys D = fold_left (add_key eqb) ks [])
    by apply (keys_tally ks []).
  assert (Hnd : NoDup (PyDict.keys D))
    by (rewrite Hkeys; apply seen_NoDup; constructor).
  assert (Hcount : forall k, count_of eqb k D = occurrences eqb k ks)
    by (intros k; apply (count_of_tally k ks [])).
  assert (Hentry : forall k n, In (k, n) D -> n = occurrences eqb k ks).
  { intros k n Hin. rewrite <- Hcount. unfold count_of.
    now rewrite (get_entry _ _ _ Hnd Hin). }
  destruct D as [|[k0 n0] d] eqn:ED.
  { exfalso. destruct ks as [|k ks]; [contradiction|].
    simpl in Hkeys. destruct (seen_prefix ks (add_key eqb [] k)) as (new & Hn).
    rewrite Hn in Hkeys. discriminate Hkeys. }
  cbn [most_common].
  destruct (max_key_split d [] [] k0 n0) as (before & after & m & Heq & Hb & Ha);
    try (intros e []).
  simpl in Heq. set (r := PyDict.max_key k0 n0 d) in *.
  assert (Hm : m = occurrences eqb r ks).
  { apply Hentry. rewrite Heq. apply in_elt. }
  split.
  - intros k. rewrite <- (Hcount k). unfold count_of.
    destruct (get k ((k0, n0) :: d)) as [n|] eqn:E; [|lia].
    apply entry_of_get in E. rewrite Heq in E. apply in_app_or in E.
    destruct E as [E|[E|E]].
    + specialize (Hb _ E). simpl in Hb. lia.
    + injection E as _ <-. lia.
    + specialize (Ha _ E). simpl in Ha. lia.
  - assert (Hr : PyDict.keys ((k0, n0) :: d) =
                 map fst before ++ r :: map fst after).
    { rewrite Heq. unfold PyDict.keys. now rewrite map_app. }
    rewrite Hkeys in Hr.
    destruct (seen_split ks [] _ _ r (fun H => H) Hr)
      as (pre & post & Hks & Hpre & Hin).
    exists pre, post. split; [exact Hks|]. split; [exact Hpre|].
    intros k Hk. specialize (Hin k Hk). apply in_map_iff in Hin.
    destruct Hin as ([k' n] & Hfst & He). simpl in Hfst. subst k'.
    specialize (Hb _ He). simpl in Hb.
    rewrite <- Hm, <- (Hentry k n); [exact Hb|].
    rewrite Heq. apply in_or_app. now left.
Qed.

End Keys.

End TallyFacts.

(** ** The formatting merge *)

Module FormattingMergeExtra.

Import AnalyzeStyle AnalyzeProject Vocabulary Readings Examples.
Local Open Scope list_scope.

Lemma fold_tally (patterns : list FormattingPatterns) :
  forall t,
    let r := fold_left tally patterns t in
    indent_types r =
      tally_keys String.eqb (map indentation_type patterns) (indent_types t)
    /\ indent_sizes r =
         tally_keys Nat.eqb
           (filter (fun n => 0 <? n) (map indentation_size patterns))
           (indent_sizes t)
    /\ quote_styles r =
         tally_keys String.eqb (map quote_style patterns) (quote_styles t)
    /\ line_lengths_mean r =
         line_lengths_mean t ++ map line_length_mean patterns
    /\ line_lengths_max r =
         line_lengths_max t ++ map line_length_max patterns.
Proof.
  induction patterns as [|p patterns IH]; intros t; simpl.
  - now rewrite !app_nil_r.
  - destruct (IH (tally t p)) as (H1 & H2 & H3 & H4 & H5).
    rewrite H1, H2, H3, H4, H5. simpl.
    rewrite <- !app_assoc. repeat split.
    now destruct (0 <? indentation_size p).
Qed.

Lemma merge_formatting_fields (p : FormattingPatterns)
    (patterns : list FormattingPatterns) :
  let all := p :: patterns in
  let merged := merge_formatting_patterns all in
  indentation_type merged =
    most_common (tally_keys String.eqb (map indentation_type all) [])
      "unknown"
  /\ indentation_size merged =
       most_common
         (tally_keys Nat.eqb
            (filter (fun n => 0 <? n) (map indentation_size all)) []) 0
  /\ quote_style merged =
       most_common (tally_keys String.eqb (map quote_style all) []) "unknown"
  /\ line_length_mean merged = int_mean (map line_length_mean all)
  /\ line_length_max merged = PyNum.max_nat (map line_length_max all)
  /\ trailing_newline merged = forallb trailing_newline all.
Proof.
  cbv zeta. unfold merge_formatting_patterns.
  destruct (fold_tally (p :: patterns) (mk_FormatTally [] [] [] [] []))
    as (H1 & H2 & H3 & H4 & H5).
  cbn [indentation_type indentation_size quote_style line_length_mean
       line_length_max trailing_newline].
  rewrite H1, H2, H3, H4, H5. repeat split.
Qed.

Lemma int_mean_div (l : list nat) :
  int_mean l = list_sum l / List.length l.
Proof.
  destruct l as [|x l]; [reflexivity|].
  unfold int_mean. now rewrite StatsFacts.sum_nat_list_sum.
Qed.

(** X8.  Merging the formatting profile of one file gives the profile
    back, and merging none gives the default profile. *)
Theorem merge_formatting_single (p : FormattingPatterns) :
  merge_formatting_patterns [p] = p
  /\ merge_formatting_patterns [] = FormattingPatterns_default.
Proof.
  split; [|reflexivity].
  destruct (merge_formatting_fields p [])
    as (Hty & Hsz & Hq & Hmean & Hmax & Hnl).
  destruct (merge_formatting_patterns [p]) as [ty' size' mean' mx' quote' nl'].
  destruct p as [ty size mean mx quote nl].
  cbn [indentation_type indentation_size quote_style line_length_mean
       line_length_max trailing_newline map forallb] in *.
  assert (Hm : int_mean [mean] = mean).
  { unfold int_mean, PyNum.sum_nat. cbn [fold_left List.length].
    now rewrite Nat.div_1_r. }
  rewrite Hm in Hmean. rewrite andb_true_r in Hnl.
  subst ty' quote' mean' mx' nl'. f_equal.
  rewrite Hsz. now destruct size.
Qed.

(** X9.  Over one or more profiles, the merged maximal line length is the
    largest of the files' maxima, the merged mean is the mean of the
    files' means rounded down, and the merged profile has a trailing
    newline exactly when every file has one. *)
Theorem merge_formatting_lengths (patterns : list FormattingPatterns) :
  patterns <> [] ->
  let merged := merge_formatting_patterns patterns in
  (forall p, In p patterns -> line_length_max p <= line_length_max merged)
  /\ (exists p, In p patterns /\ line_length_max p = line_length_max merged)
  /\ line_length_mean merged =
       list_sum (map line_length_mean patterns) / List.length patterns
  /\ (trailing_newline merged = true <->
      forall p, In p patterns -> trailing_newline p = true).
Proof.
  intros Hne. destruct patterns as [|p0 patterns]; [contradiction|].
  cbv zeta.
  destruct (merge_formatting_fields p0 patterns)
    as (_ & _ & _ & Hmean & Hmax & Hnl).
  rewrite Hmean, Hmax, Hnl. clear Hmean Hmax Hnl Hne.
  set (all := p0 :: patterns).
  destruct (StatsFacts.fold_max_spec (map line_length_max patterns)
              (line_length_max p0)) as [Hin Hle].
  change (fold_left Nat.max (map line_length_max patterns)
            (line_length_max p0))
    with (PyNum.max_nat (map line_length_max all)) in Hin, Hle.
  change (line_length_max p0 :: map line_length_max patterns)
    with (map line_length_max all) in Hin, Hle.
  split; [intros p Hp; apply Hle; now apply in_map|].
  split.
  { apply in_map_iff in Hin. destruct Hin as (p & Hp & Hin). now exists p. }
  split.
  { now rewrite int_mean_div, length_map. }
  apply forallb_forall.
Qed.

Lemma merge_formatting_lengths_sample :
  let a := analyze_formatting text_4_8_12 in
  let b := analyze_formatting "x = 1" in
  let merged := merge_formatting_patterns [a; b] in
  line_length_max merged = 19
  /\ line_length_mean merged = 9
  /\ trailing_newline merged = false.
Proof.
  cbv zeta.
  destruct (merge_formatting_lengths
              [analyze_formatting text_4_8_12; analyze_formatting "x = 1"]
              ltac:(discriminate)) as (_ & _ & Hmean & _).
  split; [reflexivity|]. split; [rewrite Hmean; reflexivity | reflexivity].
Defined.

Lemma string_eqb_reflect (a b : string) : reflect (a = b) (String.eqb a b).
Proof. apply String.eqb_spec. Qed.

Lemma nat_eqb_reflect (a b : nat) : reflect (a = b) (Nat.eqb a b).
Proof. apply Nat.eqb_spec. Qed.

(** X10.  Over one or more profiles, the merged indentation kind and the
    merged quote style are the most frequent ones among the files, and
    among equally frequent ones the one of the earliest file; the merged
    indentation width is chosen the same way among the widths above 0, and
    is 0 when no file has one. *)
Theorem merge_formatting_most_frequent (patterns : list FormattingPatterns) :
  patterns <> [] ->
  let merged := merge_formatting_patterns patterns in
  first_most_frequent String.eqb (map indentation_type patterns)
    (indentation_type merged)
  /\ first_most_frequent String.eqb (map quote_style patterns)
       (quote_style merged)
  /\ match filter (fun n => 0 <? n) (map indentation_size patterns) with
     | [] => indentation_size merged = 0
     | sizes => first_most_frequent Nat.eqb sizes (indentation_size merged)
     end.
Proof.
  intros Hne. destruct patterns as [|p0 patterns]; [contradiction|].
  cbv zeta.
  destruct (merge_formatting_fields p0 patterns) as (Hty & Hsz & Hq & _).
  rewrite Hty, Hsz, Hq. clear Hty Hsz Hq.
  split; [apply (TallyFacts.most_common_first _ string_eqb_reflect);
          discriminate|].
  split; [apply (TallyFacts.most_common_first _ string_eqb_reflect);
          discriminate|].
  destruct (filter (fun n => 0 <? n) (map indentation_size (p0 :: patterns)))
    as [|s sizes] eqn:E; [reflexivity|].
  apply (TallyFacts.most_common_first _ nat_eqb_reflect). discriminate.
Qed.

(** Spaces, tabs, tabs, spaces: both kinds occur twice, spaces came
    first. *)
Lemma merge_formatting_most_frequent_sample :
  let spaces := mk_FormattingPatterns "spaces" 4 10 20 "single" true in
  let tabs := mk_FormattingPatterns "tabs" 1 10 20 "double" true in
  indentation_type (merge_formatting_patterns [spaces; tabs; tabs; spaces])
    = "spaces"
  /\ first_most_frequent String.eqb ["spaces"; "tabs"; "tabs"; "spaces"]
       "spaces".
Proof.
  cbv zeta. split; [reflexivity|].
  exact (proj1
           (merge_formatting_most_frequent
              [mk_FormattingPatterns "spaces" 4 10 20 "single" true;
               mk_FormattingPatterns "tabs" 1 10 20 "double" true;
               mk_FormattingPatterns "tabs" 1 10 20 "double" true;
               mk_FormattingPatterns "spaces" 4 10 20 "single" true]
              ltac:(discriminate))).
Defined.

End FormattingMergeExtra.

(** ** More on the formatting scanner *)

Module ScannerExtra.

Import AnalyzeStyle Vocabulary Readings Examples.
Local Open Scope list_scope.

Lemma scan_line_counts (acc : IndentScan) (line : string) :
  spaces_count acc + tabs_count acc <= List.length (indentations acc) ->
  spaces_count (scan_line acc line) + tabs_count (scan_line acc line)
    <= List.length (indentations (scan_line acc line)).
Proof.
  intros H. unfold scan_line.
  destruct (negb (PyStr.strip_nonempty line)); [exact H|].
  destruct (0 <? _); [|exact H]. simpl. rewrite length_app. simpl.
  destruct (PyStr.startswith " " line); [lia|].
  destruct (PyStr.startswith tab line); lia.
Qed.

Lemma scan_lines_counts (lines : list string) :
  forall acc,
    spaces_count acc + tabs_count acc <= List.length (indentations acc) ->
    let r := fold_left scan_line lines acc in
    spaces_count r + tabs_count r <= List.length (indentations r).
Proof.
  induction lines as [|line lines IH]; intros acc H; simpl; [exact H|].
  apply IH. now apply scan_line_counts.
Qed.

Lemma observed_indents_positive (content : string) :
  Forall (fun n => 0 < n) (observed_indents content).
Proof.
  unfold observed_indents. apply Forall_forall. intros n Hn.
  apply filter_In in Hn. now apply Nat.ltb_lt.
Qed.

Lemma indent_size_of_zero (indents : list nat) :
  Forall (fun n => 0 < n) indents ->
  (indent_size_of indents = 0 <-> indents = []).
Proof.
  intros Hpos. split; [|now intros ->].
  intros Hz. destruct indents as [|x l]; [reflexivity|]. exfalso.
  pose proof (FormattingFacts.indent_size_of_divides (x :: l) x
                (or_introl eq_refl)) as Hd.
  rewrite Hz in Hd. apply Nat.divide_0_l in Hd.
  inversion Hpos; subst. lia.
Qed.

(** X11.  The reported indentation kind is one of four; the width is 0
    exactly when no non-blank line is indented, in which case the kind is
    [unknown]; so a known kind always comes with a width above 0. *)
Theorem indentation_kind_and_width (content : string) :
  let f := analyze_formatting content in
  In (indentation_type f) ["spaces"; "tabs"; "mixed"; "unknown"]
  /\ (indentation_size f = 0 <-> observed_indents content = [])
  /\ (observed_indents content = [] -> indentation_type f = "unknown")
  /\ (indentation_type f <> "unknown" -> 0 < indentation_size f).
Proof.
  cbv zeta. unfold analyze_formatting.
  cbn [indentation_type indentation_size].
  pose proof (scan_lines_counts (PyStr.split newline content)
                (mk_IndentScan [] 0 0) (Nat.le_refl _)) as Hc.
  cbv zeta in Hc. fold (scan_lines (PyStr.split newline content)) in Hc.
  rewrite FormattingFacts.indentations_observed in *.
  pose proof (indent_size_of_zero _ (observed_indents_positive content))
    as Hz.
  set (sc := scan_lines (PyStr.split newline content)) in *.
  assert (Hnone : observed_indents content = [] ->
                  indent_type_of sc = "unknown").
  { intros E. rewrite E in Hc. simpl in Hc. unfold indent_type_of.
    assert (spaces_count sc = 0) as -> by lia.
    assert (tabs_count sc = 0) as -> by lia. reflexivity. }
  split.
  { unfold indent_type_of.
    repeat match goal with
           | |- context [if ?b then _ else _] => destruct b
           end; simpl; tauto. }
  split; [exact Hz|]. split; [exact Hnone|].
  intros Hk.
  destruct (indent_size_of (observed_indents content)) eqn:E; [|lia].
  exfalso. apply Hk, Hnone. now apply Hz.
Qed.

Lemma list_sum_le_max (l : list nat) (m : nat) :
  (forall x, In x l -> x <= m) -> list_sum l <= List.length l * m.
Proof.
  induction l as [|x l IH]; intros H; simpl; [lia|].
  specialize (IH (fun y Hy => H y (or_intror Hy))).
  specialize (H x (or_introl eq_refl)). lia.
Qed.

Lemma int_mean_le_max (l : list nat) : int_mean l <= PyNum.max_nat l.
Proof.
  destruct l as [|x l]; [reflexivity|].
  unfold int_mean. rewrite StatsFacts.sum_nat_list_sum.
  destruct (StatsFacts.fold_max_spec l x) as [_ Hle].
  apply Nat.Div0.div_le_upper_bound.
  apply (list_sum_le_max (x :: l)). exact Hle.
Qed.

Lemma strip_nonempty_length (s : string) :
  PyStr.strip_nonempty s = true -> 0 < String.length s.
Proof. destruct s; [discriminate | simpl; lia]. Qed.

(** X12.  The reported mean line length never exceeds the reported maximal
    line length, and the maximum is 0 exactly when the text has no
    non-blank line. *)
Theorem line_length_mean_le_max (content : string) :
  let f := analyze_formatting content in
  line_length_mean f <= line_length_max f
  /\ (line_length_max f = 0 <->
      filter PyStr.strip_nonempty (PyStr.split newline content) = []).
Proof.
  cbv zeta. unfold analyze_formatting.
  cbn [line_length_mean line_length_max].
  split; [apply int_mean_le_max|].
  set (lines := filter PyStr.strip_nonempty (PyStr.split newline content)).
  assert (Hpos : forall s, In s lines -> 0 < String.length s).
  { intros s Hs. apply filter_In in Hs. now apply strip_nonempty_length. }
  split; [|now intros ->].
  intros Hz. destruct lines as [|s lines']; [reflexivity|]. exfalso.
  destruct (StatsFacts.fold_max_spec (map String.length lines')
              (String.length s)) as [_ Hle].
  specialize (Hle (String.length s) (or_introl eq_refl)).
  specialize (Hpos s (or_introl eq_refl)).
  unfold PyNum.max_nat in Hz. simpl map in Hz. lia.
Qed.

Lemma half_succ (n : nat) : S (S n) / 2 = S (n / 2).
Proof.
  replace (S (S n)) with (n + 1 * 2) by lia.
  rewrite Nat.div_add by lia. lia.
Qed.

Lemma half_zero (n : nat) : n / 2 = 0 <-> n < 2.
Proof.
  split; intros H; [|now apply Nat.div_small].
  destruct n as [|[|n]]; [lia | lia |].
  rewrite half_succ in H. discriminate H.
Qed.

Lemma count_spans_half (q : ascii) (s : string) :
  forall opened,
    PyStr.count_spans q opened s =
      (count_char q s + (if opened then 1 else 0)) / 2.
Proof.
  induction s as [|c r IH]; intros opened;
    cbn [PyStr.count_spans count_char].
  - now destruct opened.
  - destruct (Ascii.eqb c q); rewrite ?IH.
    + destruct opened.
      * rewrite Nat.add_0_r.
        transitivity (S (S (count_char q r)) / 2);
          [now rewrite half_succ | f_equal; lia].
      * f_equal. lia.
    + reflexivity.
Qed.

(** X13.  The number of quoted spans of each kind is half the number of
    that quote character, rounded down, whatever stands between the
    quotes; so the quote style is [unknown] exactly when the text has
    fewer than two single quotes and fewer than two double quotes. *)
Theorem quote_style_counts_quote_pairs (content : string) :
  let f := analyze_formatting content in
  quote_style f =
    quote_style_of (count_char squote content / 2)
      (count_char dquote content / 2)
  /\ (quote_style f = "unknown" <->
      count_char squote content < 2 /\ count_char dquote content < 2).
Proof.
  cbv zeta. unfold analyze_formatting. cbn [quote_style].
  rewrite !count_spans_half, !Nat.add_0_r.
  split; [reflexivity|].
  set (s := count_char squote content). set (d := count_char dquote content).
  pose proof (half_zero s) as Hs. pose proof (half_zero d) as Hd.
  rewrite <- Hs, <- Hd. unfold quote_style_of.
  destruct (s / 2), (d / 2); simpl; split;
    try discriminate; try tauto; intros [? ?]; discriminate.
Qed.

End ScannerExtra.

(** ** Discovery and the single file *)

Module DiscoveryExtra.

Import Ast AnalyzeStyle AnalyzeProject Vocabulary Readings Examples.
Local Open Scope list_scope.

(** X14.  [detect_language] returns one of nine tags; the tag is one of
    the seven that have a group exactly when the lowercased suffix is one
    of eleven, and [unknown] exactly when it is none of these and not
    [.rs]. *)
Theorem detect_language_tags (p : Path) :
  In (detect_language p) language_tags
  /\ (In (detect_language p) language_keys <->
      In (PyStr.lower (path_suffix p)) grouped_suffixes)
  /\ (detect_language p = "unknown" <->
      ~ In (PyStr.lower (path_suffix p)) (grouped_suffixes ++ [".rs"])).
Proof.
  unfold detect_language, extensions_table, language_tags, language_keys,
    grouped_suffixes.
  generalize (PyStr.lower (path_suffix p)) as k. intros k.
  cbn [PyDict.get].
  repeat match goal with
         | |- context [String.eqb k ?e] =>
             destruct (String.eqb_spec k e) as [->|?]
         end;
    (split; [simpl; tauto|]);
    (split; [split; intros H; simpl in *; try tauto;
             repeat (destruct H as [H|H]; try discriminate H; try tauto);
             try (symmetry in H; contradiction)
            |]);
    (split; [try discriminate; intros _ H; simpl in *;
             repeat (destruct H as [H|H]; try (symmetry in H; contradiction));
             exact H
            | intros H; try reflexivity; exfalso; apply H; simpl; tauto]).
Qed.

Lemma excluded_spec (f : File) :
  excluded f = false <->
  forall part, In part (path f) -> ~ In part exclude_dirs.
Proof.
  unfold excluded. split.
  - intros H part Hp Hex.
    assert (Ht : existsb
                   (fun part => existsb (String.eqb part) exclude_dirs)
                   (path f) = true).
    { apply existsb_exists. exists part. split; [exact Hp|].
      apply existsb_exists. exists part. split; [exact Hex|].
      apply String.eqb_refl. }
    congruence.
  - intros H.
    destruct (existsb _ (path f)) eqn:E; [|reflexivity]. exfalso.
    apply existsb_exists in E. destruct E as (part & Hp & E).
    apply existsb_exists in E. destruct E as (d & Hd & E).
    apply String.eqb_eq in E. subst d. exact (H part Hp Hd).
Qed.

(** X15.  Discovery returns exactly the entries that the traversal of
    the project yields for the pattern made of a star and one of the wanted
    extensions, and none of whose path parts is an excluded directory name;
    and the files found for a list of extensions are those found for its
    first part followed by those found for its second part, an entry that
    the traversal yields in both parts being found twice. *)
Theorem collect_files_membership (fs : Listing)
    (extensions : option (list string)) (f : File) :
  (In f (collect_files fs extensions) <->
   (exists ext,
      In ext (wanted extensions) /\ In f (fs (String "*" ext)))
   /\ forall part, In part (path f) -> ~ In part exclude_dirs)
  /\ forall first second,
       collect_files fs (Some (first ++ second)) =
         collect_files fs (Some first) ++ collect_files fs (Some second).
Proof.
  split.
  - unfold collect_files. fold (wanted extensions).
    rewrite filter_In, in_flat_map, negb_true_iff, excluded_spec.
    reflexivity.
  - intros first second. unfold collect_files.
    now rewrite flat_map_app, filter_app.
Qed.

Lemma split_length (sep : ascii) (s : string) :
  List.length (PyStr.split sep s) = S (count_char sep s).
Proof.
  induction s as [|c r IH]; [reflexivity|]. simpl.
  destruct (Ascii.eqb c sep); simpl; [now rewrite IH|].
  destruct (PyStr.split sep r); simpl in *; lia.
Qed.

Lemma split_nonempty (sep : ascii) (s : string) :
  PyStr.split sep s <> [].
Proof.
  intros H. pose proof (split_length sep s) as Hl.
  rewrite H in Hl. discriminate Hl.
Qed.

Lemma concat_cons (sep piece : string) (pieces : list string) :
  pieces <> [] ->
  String.concat sep (piece :: pieces) =
    (piece ++ sep ++ String.concat sep pieces)%string.
Proof. destruct pieces; [contradiction | reflexivity]. Qed.

Lemma concat_split (sep : ascii) (s : string) :
  String.concat (String sep EmptyString) (PyStr.split sep s) = s.
Proof.
  induction s as [|c r IH]; [reflexivity|].
  pose proof (split_nonempty sep r) as Hne.
  cbn [PyStr.split].
  destruct (Ascii.eqb_spec c sep) as [->|Hc].
  - rewrite (concat_cons _ _ _ Hne), IH. reflexivity.
  - destruct (PyStr.split sep r) as [|piece pieces]; [contradiction|].
    destruct pieces as [|piece' pieces].
    + cbn [String.concat] in *. now rewrite IH.
    + rewrite concat_cons in * by discriminate.
      rewrite <- IH. reflexivity.
Qed.

Lemma split_pieces (sep : ascii) (s : string) :
  Forall (fun piece => PyStr.contains sep piece = false) (PyStr.split sep s).
Proof.
  induction s as [|c r IH]; [now repeat constructor|].
  cbn [PyStr.split].
  destruct (Ascii.eqb c sep) eqn:E.
  - constructor; [reflexivity | exact IH].
  - destruct (PyStr.split sep r) as [|piece pieces].
    + constructor; [|constructor]. unfold PyStr.contains. cbn [PyStr.existsb].
      rewrite Ascii.eqb_sym, E. reflexivity.
    + inversion IH as [|? ? Hp Hps]; subst. constructor; [|exact Hps].
      unfold PyStr.contains in *. cbn [PyStr.existsb].
      now rewrite Ascii.eqb_sym, E, Hp.
Qed.

Lemma lstrip_dots_other (c : ascii) (r : string) :
  c <> "."%char -> lstrip_dots (String c r) = String c r.
Proof.
  intros Hne.
  destruct c as [[] [] [] [] [] [] [] []]; try reflexivity.
  now contradiction Hne.
Qed.

Lemma lstrip_dots_done (s : string) :
  PyStr.startswith "." (lstrip_dots s) = false.
Proof.
  induction s as [|c r IH]; [reflexivity|].
  destruct (Ascii.eqb_spec c ".") as [->|Hne]; [exact IH|].
  rewrite (lstrip_dots_other c r Hne). simpl.
  now apply Ascii.eqb_neq.
Qed.

Lemma lstrip_dots_split (s : string) :
  exists dots,
    s = (dots ++ lstrip_dots s)%string
    /\ PyStr.existsb (fun c => negb (Ascii.eqb c ".")) dots = false.
Proof.
  induction s as [|c r (dots & Heq & Hdots)].
  - exists EmptyString. now split.
  - destruct (Ascii.eqb_spec c ".") as [->|Hne].
    + exists (String "." dots). split.
      * change (lstrip_dots (String "." r)) with (lstrip_dots r).
        cbn [String.append]. now rewrite <- Heq.
      * cbn [PyStr.existsb]. now rewrite Hdots.
    + exists EmptyString. rewrite (lstrip_dots_other c r Hne). now split.
Qed.

Lemma dotted_pieces (pieces : list string) :
  Forall2
    (fun piece ext =>
       exists dots rest,
         piece = (dots ++ rest)%string
         /\ PyStr.existsb (fun c => negb (Ascii.eqb c ".")) dots = false
         /\ PyStr.startswith "." rest = false
         /\ ext = String "." rest)
    pieces (map (fun ext => ("." ++ lstrip_dots ext)%string) pieces).
Proof.
  induction pieces as [|piece pieces IH]; [constructor|].
  cbn [map]. constructor; [|exact IH].
  destruct (lstrip_dots_split piece) as (dots & Heq & Hdots).
  exists dots, (lstrip_dots piece).
  split; [exact Heq|]. split; [exact Hdots|].
  split; [apply lstrip_dots_done | reflexivity].
Qed.

(** X16.  A non-empty [--extensions] value is cut at its commas into
    pieces: joined by commas the pieces give the value back, and no piece
    holds a comma.  The option gives one extension for each piece, in the
    order of the pieces: a piece is a run of dots followed by a rest that
    does not start with a dot, and its extension is one dot followed by
    that rest. *)
Theorem parse_extensions_normal_form (value : string) :
  value <> EmptyString ->
  let pieces := PyStr.split "," value in
  String.concat "," pieces = value
  /\ Forall (fun piece => PyStr.contains "," piece = false) pieces
  /\ exists extensions,
       parse_extensions (Some value) = Some extensions
       /\ List.length extensions = S (count_char "," value)
       /\ Forall2
            (fun piece ext =>
               exists dots rest,
                 piece = (dots ++ rest)%string
                 /\ PyStr.existsb (fun c => negb (Ascii.eqb c ".")) dots
                    = false
                 /\ PyStr.startswith "." rest = false
                 /\ ext = String "." rest)
            pieces extensions.
Proof.
  intros Hne. cbv zeta.
  split; [apply concat_split|]. split; [apply split_pieces|].
  destruct value as [|c r]; [contradiction|].
  eexists. split; [reflexivity|]. split.
  - now rewrite length_map, split_length.
  - apply dotted_pieces.
Qed.

Lemma parse_extensions_normal_form_sample :
  parse_extensions (Some "py,.js,..ts") = Some [".py"; ".js"; ".ts"].
Proof.
  destruct (parse_extensions_normal_form "py,.js,..ts" ltac:(discriminate))
    as (_ & _ & extensions & Heq & _).
  rewrite Heq. injection Heq as <-. reflexivity.
Defined.

(** X17.  [analyze_file] fails exactly when the file cannot be read, or
    is a Python file on which the parser fails with something else than a
    syntax error.  When it succeeds the report carries the path, the
    detected language and the formatting of the text; a file that is not
    Python, or has no structural data, has the empty naming part. *)
Theorem analyze_file_outcomes (parse : string -> parse_outcome) (f : File) :
  (analyze_file parse f = None <->
   text f = None
   \/ exists content,
        text f = Some content
        /\ detect_language (path f) = "python"
        /\ parse content = RaisesOther)
  /\ forall report,
       analyze_file parse f = Some report ->
       file_path report = path_str (path f)
       /\ language report = detect_language (path f)
       /\ (exists content,
             text f = Some content
             /\ formatting report = analyze_formatting content)
       /\ (language report <> "python" -> patterns report = None)
       /\ (patterns report = None -> naming report = NamingPatterns_default).
Proof.
  unfold analyze_file, analyze_naming_python, analyze_patterns_python.
  destruct (text f) as [content|].
  - destruct (String.eqb_spec (detect_language (path f)) "python")
      as [Hpy|Hother].
    + destruct (parse content) as [tree| |] eqn:Hp; split.
      * split; [discriminate|].
        intros [H|(c & [= <-] & _ & H)]; [discriminate H | congruence].
      * intros report [= <-]. simpl.
        repeat split; try (now exists content); try congruence; discriminate.
      * split; [discriminate|].
        intros [H|(c & [= <-] & _ & H)]; [discriminate H | congruence].
      * intros report [= <-]. simpl.
        repeat split; try (now exists content); congruence.
      * split; [|reflexivity]. intros _. right. now exists content.
      * discriminate.
    + split.
      * split; [discriminate|].
        intros [H|(c & _ & H & _)]; [discriminate H | contradiction].
      * intros report [= <-]. simpl.
        repeat split; now exists content.
  - split; [tauto | discriminate].
Qed.

End DiscoveryExtra.

(** ** The shape of the project report *)

Module ReportExtra.

Import Ast AnalyzeStyle AnalyzeProject Vocabulary Readings Examples.
Local Open Scope list_scope.

Lemma aggregate_keyed_filter (g : string -> list StyleReport)
    (keys : list string) :
  aggregate (keyed g keys) =
    map (fun l => (l, summary_of (g l)))
      (filter (fun l => match g l with [] => false | _ => true end) keys).
Proof.
  unfold aggregate, keyed. induction keys as [|k keys IH]; [reflexivity|].
  simpl flat_map. rewrite ProjectFacts.summarize_keyed, IH. cbn [filter].
  destruct (g k) eqn:E; cbn [map app]; rewrite ?E; reflexivity.
Qed.

Lemma single_hit (x : string) (keys : list string) :
  NoDup keys ->
  list_sum (map (fun l => if String.eqb x l then 1 else 0) keys) <= 1.
Proof.
  induction 1 as [|k keys Hk _ IH]; simpl; [lia|].
  destruct (String.eqb_spec x k) as [->|_]; [|exact IH].
  assert (Hz : list_sum
                 (map (fun l => if String.eqb k l then 1 else 0) keys) = 0).
  { clear IH. induction keys as [|k' keys IH']; [reflexivity|]. simpl.
    destruct (String.eqb_spec k k') as [->|_].
    - exfalso. apply Hk. now left.
    - apply IH'. intros H. apply Hk. now right. }
  lia.
Qed.

Lemma list_sum_zero {A : Type} (f : A -> nat) (l : list A) :
  (forall x, f x = 0) -> list_sum (map f l) = 0.
Proof.
  intros Hf. induction l as [|x l IH]; [reflexivity|].
  cbn [map]. rewrite WeightFacts.list_sum_cons, Hf, IH. reflexivity.
Qed.

Lemma list_sum_map_add {A : Type} (f g : A -> nat) (l : list A) :
  list_sum (map (fun x => f x + g x) l) =
    list_sum (map f l) + list_sum (map g l).
Proof. induction l as [|x l IH]; simpl; lia. Qed.

Section Parser.

Variable parse : string -> parse_outcome.

Lemma contribution_length (f : File) (keys : list string) :
  NoDup keys ->
  list_sum (map (fun l => List.length (contribution parse l f)) keys) <= 1.
Proof.
  intros Hnd. unfold contribution.
  destruct (analyze_file parse f) as [report|].
  - etransitivity; [|apply (single_hit (language report) keys Hnd)].
    apply Nat.eq_le_incl. f_equal. apply map_ext. intros l.
    now destruct (String.eqb (language report) l).
  - rewrite list_sum_zero; [lia | reflexivity].
Qed.

(** A file is in at most one group. *)
Lemma reports_in_total (files : list File) (keys : list string) :
  NoDup keys ->
  list_sum (map (fun l => List.length (reports_in parse l files)) keys)
    <= List.length files.
Proof.
  intros Hnd. induction files as [|f files IH].
  - rewrite list_sum_zero; [simpl; lia | reflexivity].
  - assert (Heq : map (fun l => List.length
                                  (reports_in parse l (f :: files))) keys =
                  map (fun l => List.length (contribution parse l f) +
                                List.length (reports_in parse l files)) keys).
    { apply map_ext. intros l.
      now rewrite ProjectFacts.reports_in_cons, length_app. }
    rewrite Heq, list_sum_map_add.
    pose proof (contribution_length f keys Hnd). simpl. lia.
Qed.

Lemma grouped_total (g : string -> list StyleReport) (keys : list string) :
  list_sum (map (fun e => file_count (snd e)) (aggregate (keyed g keys))) =
    list_sum (map (fun l => List.length (g l)) keys).
Proof.
  rewrite aggregate_keyed_filter, map_map. cbn [snd summary_of file_count].
  induction keys as [|k keys IH]; [reflexivity|]. simpl.
  destruct (g k) eqn:E; simpl; rewrite ?E, IH; reflexivity.
Qed.

End Parser.

(** X18.  A project report names the project directory and counts every
    discovered file.  Its groups are keyed by distinct languages among the
    seven, in their fixed order; each group summarizes the reports of the
    files of its language and holds at least one; a language without a
    report has no group; and the groups together hold at most as many
    files as were discovered. *)
Theorem report_groups (parse : string -> parse_outcome)
    (project_path : Path) (fs : Listing)
    (extensions : option (list string)) (report : Aggregated) :
  analyze_project parse project_path fs extensions = ReportDict report ->
  let files := collect_files fs extensions in
  project report = path_name project_path
  /\ total_files report = List.length files
  /\ PyDict.keys (languages report) =
       filter (fun l => match reports_in parse l files with
                        | [] => false
                        | _ => true
                        end) language_keys
  /\ NoDup (PyDict.keys (languages report))
  /\ (forall lang summary,
        In (lang, summary) (languages report) ->
        In lang language_keys
        /\ summary = summary_of (reports_in parse lang files)
        /\ 0 < file_count summary)
  /\ grouped_files report <= total_files report.
Proof.
  intros Hreport. cbv zeta.
  destruct (ProjectProperties.analyze_project_report parse _ _ _ _ Hreport)
    as (Htotal & Hlangs).
  assert (Hproject : project report = path_name project_path).
  { unfold analyze_project in Hreport.
    destruct (collect_files fs extensions); [discriminate|].
    now injection Hreport as <-. }
  set (files := collect_files fs extensions) in *.
  assert (Hkeys : PyDict.keys (languages report) =
                  filter (fun l => match reports_in parse l files with
                                   | [] => false
                                   | _ => true
                                   end) language_keys).
  { rewrite Hlangs, aggregate_keyed_filter. unfold PyDict.keys.
    rewrite map_map. cbn [fst]. apply map_id. }
  split; [exact Hproject|]. split; [exact Htotal|]. split; [exact Hkeys|].
  split.
  { rewrite Hkeys. apply NoDup_filter, ProjectFacts.language_keys_NoDup. }
  split.
  { intros lang summary Hin. rewrite Hlangs, aggregate_keyed_filter in Hin.
    apply in_map_iff in Hin. destruct Hin as (l & [= <- <-] & Hl).
    apply filter_In in Hl. destruct Hl as [Hl Hne].
    split; [exact Hl|]. split; [reflexivity|].
    cbn [summary_of file_count].
    destruct (reports_in parse l files); [discriminate | simpl; lia]. }
  unfold grouped_files. rewrite Hlangs, grouped_total, Htotal.
  apply reports_in_total, ProjectFacts.language_keys_NoDup.
Qed.

(** A Rust file, an unreadable file and two Python files: four files
    discovered, two in the one group. *)
Lemma report_groups_sample :
  exists report,
    analyze_project sample_parse ["proj"]
      (listing
         [file_rust; mk_File ["proj"; "locked.py"] None; file_snake;
          file_camel])
      (Some [".rs"; ".py"]) = ReportDict report
    /\ total_files report = 4
    /\ PyDict.keys (languages report) = ["python"]
    /\ grouped_files report = 2.
Proof.
  destruct (analyze_project sample_parse ["proj"]
              (listing
                 [file_rust; mk_File ["proj"; "locked.py"] None; file_snake;
                  file_camel]) (Some [".rs"; ".py"])) as [|report] eqn:E;
    [discriminate E|].
  exists report.
  destruct (report_groups sample_parse _ _ _ _ E) as (_ & Ht & Hk & _).
  split; [reflexivity|]. split; [rewrite Ht; reflexivity|].
  split; [rewrite Hk; reflexivity|].
  injection E as <-. reflexivity.
Defined.

End ReportExtra.

(** ** More on the two walkers *)

Module WalkerExtra.

Import Ast AnalyzeStyle Vocabulary Readings Examples.
Local Open Scope list_scope.

Lemma fold_args_rest (ps : list arg) :
  forall st,
    let r := fold_left
               (fun acc p => append_var (detect_naming_style (arg_name p)) acc)
               ps st in
    class_styles r = class_styles st /\ const_styles r = const_styles st.
Proof.
  induction ps as [|p ps IH]; intros st; simpl; [now split|].
  destruct (IH (append_var (detect_naming_style (arg_name p)) st))
    as (Hc & Hk).
  now rewrite Hc, Hk.
Qed.

Lemma fold_targets_rest (targets : list expr) :
  forall st,
    let r := fold_left visit_target targets st in
    class_styles r = class_styles st
    /\ const_styles r =
         const_styles st ++
         map detect_naming_style
           (filter PyStr.isupper (target_names targets)).
Proof.
  induction targets as [|t targets IH]; intros st; simpl.
  - now rewrite app_nil_r.
  - destruct (IH (visit_target st t)) as (Hc & Hk).
    rewrite Hc, Hk. clear IH Hc Hk.
    destruct t as [id| |]; simpl; try (split; reflexivity).
    destruct (PyStr.isupper id), (PyStr.startswith "_" id); simpl;
      rewrite <- ?app_assoc; split; reflexivity.
Qed.

Lemma visit_naming_rest (st : NamingStyles) (node : stmt) :
  class_styles (visit_naming st node) =
    class_styles st ++ map detect_naming_style (class_names node)
  /\ const_styles (visit_naming st node) =
       const_styles st ++ map detect_naming_style (constant_names node).
Proof.
  destruct node as [name a body r|name a body r|name body|targets v|v|ch|t an v|t v];
    simpl; rewrite ?app_nil_r; try (split; reflexivity).
  - match goal with |- class_styles (fold_left _ _ ?s) = _ /\ _ =>
      destruct (fold_args_rest (args a) s) as (Hc & Hk) end.
    rewrite Hc, Hk. now destruct (PyStr.startswith "_" name).
  - destruct (fold_targets_rest targets st) as (Hc & Hk).
    rewrite Hc, Hk. unfold constant_names. simpl. split; reflexivity.
Qed.

Lemma fold_visit_naming_rest (l : list stmt) :
  forall st,
    let r := fold_left visit_naming l st in
    class_styles r =
      class_styles st ++ map detect_naming_style (flat_map class_names l)
    /\ const_styles r =
         const_styles st ++
         map detect_naming_style (flat_map constant_names l).
Proof.
  induction l as [|node l IH]; intros st; simpl.
  - now rewrite !app_nil_r.
  - destruct (IH (visit_naming st node)) as (Hc & Hk).
    destruct (visit_naming_rest st node) as (Hc' & Hk').
    rewrite Hc, Hk, Hc', Hk', !map_app, <- !app_assoc. split; reflexivity.
Qed.

Lemma isupper_head_not_lower (name : string) :
  PyStr.isupper name = true -> PyStr.head_islower name = false.
Proof.
  unfold PyStr.isupper. intros H. apply andb_true_iff in H.
  destruct H as [H _]. apply negb_true_iff in H.
  destruct name as [|c r]; [reflexivity|]. simpl in *.
  now apply orb_false_iff in H.
Qed.

Lemma isupper_styles (name : string) :
  PyStr.isupper name = true ->
  In (detect_naming_style name) ["UPPER_SNAKE_CASE"; "PascalCase"; "other"].
Proof.
  intros Hup.
  destruct (ClassifierExtra.tag_conditions name)
    as (_ & Hsnake & _ & Hcamel & Hpriv).
  destruct (ClassifierExtra.style_range name) as [Hrange Hunknown].
  simpl in Hrange.
  destruct Hrange as [H|[H|[H|[H|[H|[H|[H|[]]]]]]]]; rewrite <- H; simpl;
    try tauto; exfalso; symmetry in H.
  - apply Hunknown in H. subst name. discriminate Hup.
  - apply Hsnake in H. destruct H as [H _].
    rewrite (ClassifierFacts.isupper_not_islower _ Hup) in H. discriminate H.
  - apply Hcamel in H. destruct H as [H _].
    rewrite (isupper_head_not_lower _ Hup) in H. discriminate H.
  - apply Hpriv in H. destruct H as (_ & H & _). congruence.
Qed.

(** X19.  For every tree, the [classes] distribution gives each style the
    share of the [ast.ClassDef] nodes, nested ones included, whose name has
    that style, and the [constants] distribution does the same for the
    [ast.Name] targets of [ast.Assign] nodes that are all uppercase; a
    style listed under [constants] is [UPPER_SNAKE_CASE], [PascalCase] or
    [other].  The target of an annotated or augmented assignment is not
    recorded, and an all-uppercase class name counts as a class: the tree
    of [MAX_SIZE: int = 10], [LIMIT += 1] and [class MAX_ITEMS] has no
    constants. *)
Theorem walker_records_classes_and_constants (tree : module) :
  let names := distributions (collect_styles tree) in
  (forall s,
     lookup s (classes names) =
       weight_of
         (map detect_naming_style (flat_map class_names (nodes_of tree))) s)
  /\ (forall s,
        lookup s (constants names) =
          weight_of
            (map detect_naming_style
               (flat_map constant_names (nodes_of tree))) s)
  /\ (forall s,
        In s (PyDict.keys (constants names)) ->
        In s ["UPPER_SNAKE_CASE"; "PascalCase"; "other"])
  /\ (forall name,
        In name (flat_map class_names (nodes_of tree)) <->
        exists body, In (ClassDef name body) (nodes_of tree))
  /\ (forall name,
        In name (flat_map constant_names (nodes_of tree)) <->
        PyStr.isupper name = true
        /\ exists targets value,
             In (Assign targets value) (nodes_of tree)
             /\ In (Name name) targets)
  /\ constants (distributions (collect_styles tree_annotated)) = []
  /\ classes (distributions (collect_styles tree_annotated)) =
       [("UPPER_SNAKE_CASE", Qmake 100 100)].
Proof.
  cbv zeta.
  destruct (fold_visit_naming_rest (walk tree) no_styles) as (Hc & Hk).
  fold (collect_styles tree) in Hc, Hk. simpl in Hc, Hk.
  pose proof (WalkFacts.walk_complete tree) as Hw.
  cbn [classes constants distributions]. rewrite Hc, Hk.
  split; [|split; [|split; [|split; [|split; [|split; reflexivity]]]]].
  - intros s. rewrite DistributionFacts.lookup_calc_distribution.
    apply DistributionFacts.weight_of_perm, Permutation_map.
    now apply WalkFacts.Permutation_flat_map_l.
  - intros s. rewrite DistributionFacts.lookup_calc_distribution.
    apply DistributionFacts.weight_of_perm, Permutation_map.
    now apply WalkFacts.Permutation_flat_map_l.
  - intros s Hs.
    apply (Permutation_in _ (DistributionFacts.calc_distribution_keys _))
      in Hs.
    apply nodup_In, in_map_iff in Hs. destruct Hs as (name & <- & Hname).
    apply isupper_styles.
    apply in_flat_map in Hname. destruct Hname as (node & _ & Hname).
    unfold constant_names in Hname. now apply filter_In in Hname.
  - intros name. rewrite in_flat_map. split.
    + intros (node & Hnode & Hname). destruct node; try contradiction.
      destruct Hname as [<-|[]]. eauto.
    + intros (body & Hnode). eexists. split; [exact Hnode | now left].
  - intros name. rewrite in_flat_map. split.
    + intros (node & Hnode & Hname). unfold constant_names in Hname.
      apply filter_In in Hname. destruct Hname as [Hname Hup].
      split; [exact Hup|].
      destruct node; try contradiction.
      apply NamingFacts.target_names_In in Hname. eauto.
    + intros (Hup & targets & value & Hnode & Ht).
      eexists. split; [exact Hnode|].
      unfold constant_names. apply filter_In. split; [|exact Hup].
      now apply NamingFacts.target_names_In.
Qed.

Lemma fold_visit_classes (l : list stmt) :
  forall acc,
    seen_classes (fold_left visit_patterns l acc) =
      seen_classes acc + List.length (filter is_class_def l).
Proof.
  induction l as [|node l IH]; intros acc; simpl; [lia|].
  rewrite IH. destruct node; simpl; lia.
Qed.

Lemma usage_of_unit (count total : nat) :
  count <= total -> unit_weight (usage_rate (usage_of count total)).
Proof.
  intros Hle. unfold usage_of. cbn [usage_rate].
  destruct (Nat.eqb_spec total 0) as [->|Hne].
  - split; apply Qle_bool_imp_le; reflexivity.
  - apply DistributionExtra.round_two_unit.
    assert (Hpos : Zpos (Pos.of_nat total) = Z.of_nat total)
      by (rewrite <- positive_nat_Z, Nat2Pos.id; lia).
    unfold unit_weight, PyNum.truediv, Qle. simpl. rewrite Hpos. lia.
Qed.

(** X20.  For every tree, the structural report counts the class
    definitions, nested ones included; its two usage counts never exceed
    the function count and its two rates lie between 0 and 1; the least
    function length is at most the greatest; and without a function
    definition every function statistic is 0. *)
Theorem patterns_bounds (tree : module) :
  let pats := patterns_of (scan_patterns tree) in
  class_count pats = List.length (filter is_class_def (nodes_of tree))
  /\ usage_count (type_hint_usage pats) <= function_count pats
  /\ usage_count (docstring_usage pats) <= function_count pats
  /\ unit_weight (usage_rate (type_hint_usage pats))
  /\ unit_weight (usage_rate (docstring_usage pats))
  /\ length_min (function_length pats) <= length_max (function_length pats)
  /\ (function_defs tree = [] ->
      function_count pats = 0
      /\ function_length pats = mk_FunctionLength 0 0 0
      /\ type_hint_usage pats = mk_Usage 0 0
      /\ docstring_usage pats = mk_Usage 0 0).
Proof.
  cbv zeta.
  destruct (PatternFacts.scan_patterns_tree tree) as (Hl & Hf & Ht & Hd).
  pose proof (fold_visit_classes (walk tree) (mk_PatternScan [] 0 0 0 0))
    as Hc.
  fold (scan_patterns tree) in Hc. simpl in Hc.
  pose proof (filter_length_le fn_annotated (function_defs tree)) as Hta.
  pose proof (filter_length_le fn_documented (function_defs tree)) as Hda.
  cbn [patterns_of class_count function_count type_hint_usage
       docstring_usage function_length length_min length_max].
  split.
  { rewrite Hc. apply Permutation_length, WalkFacts.Permutation_filter,
      WalkFacts.walk_complete. }
  split; [cbn [usage_of usage_count]; lia|].
  split; [cbn [usage_of usage_count]; lia|].
  split; [apply usage_of_unit; lia|].
  split; [apply usage_of_unit; lia|].
  split.
  { destruct (func_lengths (scan_patterns tree)) as [|x l]; [reflexivity|].
    unfold PyNum.min_nat, PyNum.max_nat.
    destruct (StatsFacts.fold_min_spec l x) as [_ Hmin].
    destruct (StatsFacts.fold_max_spec l x) as [_ Hmax].
    etransitivity; [apply Hmin | apply Hmax]; now left. }
  intros Hnone. rewrite Hnone in *. simpl in Hf, Ht, Hd, Hl.
  apply Permutation_sym, Permutation_nil in Hl.
  rewrite Hf, Ht, Hd, Hl. repeat split.
Qed.

End WalkerExtra.

(** ** The run as a whole *)

Module RunExtra.

Import Ast AnalyzeStyle AnalyzeProject Vocabulary Readings Examples.
Local Open Scope list_scope.

(** X21.  When argparse ends the run, its status is the status of the
    run.  Given the options, [main] calls [sys.exit] with status 1 exactly
    when the project path does not exist or discovery finds no file, and
    with no other status.  Otherwise a report was made: with no output
    file, or an empty one, the report is printed; with an output file that
    can be written, it is saved there; with one that cannot, the run ends
    with the error of the write.  A report that is printed or saved counts
    the discovered files and names the project directory. *)
Theorem main_outcomes (parse : string -> parse_outcome)
    (cli : parse_args_outcome) (path_exists : bool) (fs : Listing)
    (writable : string -> bool) :
  let outcome := main parse cli path_exists fs writable in
  (forall status, cli = ArgparseExit status -> outcome = SysExit status)
  /\ forall args,
       cli = Options args ->
       let files :=
         collect_files fs (parse_extensions (ns_extensions args)) in
       let report :=
         mk_Aggregated (path_name (ns_path args)) (List.length files)
           (aggregate (group_reports parse files)) in
       (outcome = SysExit 1 <-> path_exists = false \/ files = [])
       /\ (forall code, outcome = SysExit code -> code = 1)
       /\ (path_exists = true ->
           files <> [] ->
           match ns_output args with
           | None => outcome = Printed report
           | Some output =>
               if String.eqb output EmptyString then outcome = Printed report
               else if writable output then outcome = Saved output report
               else outcome = WriteRaises output
           end)
       /\ (forall emitted_report,
             emitted outcome = Some emitted_report ->
             path_exists = true
             /\ files <> []
             /\ total_files emitted_report = List.length files
             /\ project emitted_report = path_name (ns_path args)).
Proof.
  cbv zeta. split; [now intros status ->|].
  intros args ->. unfold main, analyze_project.
  destruct path_exists; cbn [negb].
  - destruct (collect_files fs (parse_extensions (ns_extensions args)))
      as [|f files] eqn:E.
    + split; [split; [now right | reflexivity]|].
      split; [now intros code [= <-]|].
      split; [now intros _ H | discriminate].
    + set (report := mk_Aggregated _ _ _).
      assert (Hreport : forall r, Some report = Some r ->
                true = true /\ f :: files <> []
                /\ total_files r = List.length (f :: files)
                /\ project r = path_name (ns_path args)).
      { intros r [= <-]. repeat split. discriminate. }
      destruct (ns_output args) as [[|c output]|]; cbn [String.eqb emitted].
      * split; [split; [discriminate | intros [H|H]; discriminate H]|].
        split; [discriminate|]. split; [reflexivity | exact Hreport].
      * destruct (writable (String c output)); cbn [emitted].
        -- split; [split; [discriminate | intros [H|H]; discriminate H]|].
           split; [discriminate|]. split; [reflexivity | exact Hreport].
        -- split; [split; [discriminate | intros [H|H]; discriminate H]|].
           split; [discriminate|]. split; [reflexivity | discriminate].
      * split; [split; [discriminate | intros [H|H]; discriminate H]|].
        split; [discriminate|]. split; [reflexivity | exact Hreport].
  - split; [split; [now left | reflexivity]|].
    split; [now intros code [= <-]|].
    split; [discriminate | discriminate].
Qed.

(** X22.  A file whose analysis fails leaves every group as it is without
    the file: the files before it and after it are grouped all the same. *)
Theorem failing_file_leaves_groups (parse : string -> parse_outcome)
    (before after : list File) (f : File) :
  analyze_file parse f = None ->
  group_reports parse (before ++ f :: after) =
    group_reports parse (before ++ after)
  /\ aggregate (group_reports parse (before ++ f :: after)) =
       aggregate (group_reports parse (before ++ after)).
Proof.
  intros Hf.
  assert (H : group_reports parse (before ++ f :: after) =
              group_reports parse (before ++ after)).
  { rewrite !ProjectFacts.group_reports_keyed. unfold keyed.
    apply map_ext. intros l.
    rewrite !ProjectFacts.reports_in_app, ProjectFacts.reports_in_cons.
    unfold contribution. now rewrite Hf. }
  split; [exact H | now rewrite H].
Qed.

(** An unreadable file between two files that parse. *)
Lemma failing_file_leaves_groups_sample :
  group_reports sample_parse
    [file_snake; mk_File ["proj"; "locked.py"] None; file_camel] =
  group_reports sample_parse [file_snake; file_camel].
Proof.
  exact (proj1
           (failing_file_leaves_groups sample_parse [file_snake] [file_camel]
              (mk_File ["proj"; "locked.py"] None) eq_refl)).
Defined.

(** X23.  For every tree, the [private_vars] distribution gives each style
    the share it has among the marked names that start with an underscore,
    each classified without its first character; the marked names are the
    names of the [ast.FunctionDef] nodes and the [ast.Name] targets of the
    [ast.Assign] nodes.  Asynchronous functions, classes, parameters and
    the targets of annotated or augmented assignments are not among them:
    the tree of [_fetch], [_Base], [_unused], [_count] and [_total] has no
    private style. *)
Theorem walker_records_private (tree : module) :
  (forall s,
     lookup s (private_vars (distributions (collect_styles tree))) =
       weight_of
         (map underlying
            (filter (PyStr.startswith "_")
               (flat_map marked_names (nodes_of tree)))) s)
  /\ (forall name,
        In name (flat_map marked_names (nodes_of tree)) <->
        defined_or_assigned tree name)
  /\ private_vars (distributions (collect_styles tree_unmarked)) = [].
Proof.
  split; [|split; [apply NamingFacts.marked_names_In | reflexivity]].
  intros s. destruct (NamingFacts.collect_styles_tree tree) as (_ & _ & Hp).
  cbn [private_vars distributions].
  rewrite DistributionFacts.lookup_calc_distribution.
  now apply DistributionFacts.weight_of_perm.
Qed.

End RunExtra.
